(** * ChainVista analysis service ([apps/ai-anomaly/main.py])

    A shallow embedding of the service's pure procedures and the proofs of
    the properties its specification states about them.

    Conventions of the embedding.
    - A Python [str] is a [string]: the character of code [n] stands for
      the code point [n], so the text covered is that of code points below
      256.  The opcode names, messages and dictionary keys are the source's
      literals.
    - A Python [int] is a [Z]; list indices and lengths are [nat].
    - A [dict] that is only read by key is a [gmap]; a [dict] that the code
      iterates is an insertion-ordered association list ([Py.odict]).
    - A raising computation returns [None] where one exception only can be
      raised: the [ValueError] of [int(tok, 16)], the [IndexError] of
      [address[-1]], the [ZeroDivisionError] of a division.  Where two can
      be raised (the MEV endpoint) it returns [Py.Raise] of the exception.
    - A [float] is a binary64 number ([PrimFloat.float]), and the
      arithmetic is that of binary64, with its rounding, infinities and
      NaN.  [x ** 2] raises [OverflowError] when [x] is finite and the
      square is not, as CPython does; [sum] adds from the left.
    - Not embedded: the governance prediction (it rests on [math.exp]) and
      the NFT and risk generators (they rest on [random] and on the
      per-process [hash] of a string). *)

From Stdlib Require Import ZArith String Ascii List Sorted Floats Uint63 Lia.
From stdpp Require Import base option list strings pretty gmap.
From Equations Require Import Equations.
From Equations.Prop Require Import Logic.

Local Open Scope string_scope.
Local Open Scope Z_scope.
Local Open Scope list_scope.

(** ** Python built-ins used by the source *)

Module Py.

(** [s.startswith(prefix)] *)
Definition startswith (s prefix : string) : bool := String.prefix prefix s.

(** [s[n:]] *)
Fixpoint slice_from (n : nat) (s : string) : string :=
  match n, s with
  | O, _ => s
  | S n', EmptyString => EmptyString
  | S n', String _ s' => slice_from n' s'
  end.

(** [s[i:i+m]]: slices are clamped to the string, like [substring]. *)
Definition slice (i m : nat) (s : string) : string := String.substring i m s.

(** [range(0, stop, 2)] *)
Definition range2 (stop : nat) : list nat :=
  map (fun k => 2 * k)%nat (seq 0 (Nat.div2 (S stop))).

(** The blanks [int] skips around a literal: tab, line feed, vertical tab,
    form feed, carriage return and the space, and, of the characters above
    127, the next line U+0085 and the no-break space U+00A0.  (The
    separators U+001C to U+001F are blanks for [str.isspace] but not for
    [int], which leaves the characters below 127 as they are.) *)
Definition isspace (c : ascii) : bool :=
  let n := nat_of_ascii c in
  ((9 <=? n) && (n <=? 13) || (n =? 32) || (n =? 133) || (n =? 160))%nat.

Fixpoint lstrip (cs : list ascii) : list ascii :=
  match cs with
  | c :: cs' => if isspace c then lstrip cs' else cs
  | [] => []
  end.

Definition strip (cs : list ascii) : list ascii :=
  rev (lstrip (rev (lstrip cs))).

(** The value of one base-16 digit, in either case. *)
Definition hex_digit (c : ascii) : option Z :=
  let n := Z.of_nat (nat_of_ascii c) in
  if (48 <=? n) && (n <=? 57) then Some (n - 48)
  else if (97 <=? n) && (n <=? 102) then Some (n - 87)
  else if (65 <=? n) && (n <=? 70) then Some (n - 55)
  else None.

Fixpoint hex_digits (acc : Z) (cs : list ascii) : option Z :=
  match cs with
  | [] => Some acc
  | c :: cs' =>
      match hex_digit c with
      | Some d => hex_digits (16 * acc + d) cs'
      | None => None
      end
  end.

(** [int(tok, 16)] on a token of at most two characters, the only tokens
    the decoder builds: surrounding blanks are stripped, one sign is
    accepted, and at least one digit must follow.  ([None] is
    [ValueError].  The base prefix [0x] and the digit separator [_] need
    three characters to form a literal, so on these tokens they raise,
    as every other non-digit does.) *)
Definition int16 (tok : string) : option Z :=
  match strip (list_ascii_of_string tok) with
  | [] => None
  | c :: ds =>
      if Ascii.eqb c "+" then
        match ds with [] => None | _ => hex_digits 0 ds end
      else if Ascii.eqb c "-" then
        match ds with [] => None | _ => Z.opp <$> hex_digits 0 ds end
      else hex_digits 0 (c :: ds)
  end.

(** [s.lower()]: the capital letters below 256 are [A] to [Z] and U+00C0
    to U+00DE without the multiplication sign U+00D7; the small letter is
    32 further in each case. *)
Definition lower_char (c : ascii) : ascii :=
  let n := nat_of_ascii c in
  if ((65 <=? n) && (n <=? 90)
      || (192 <=? n) && (n <=? 222) && negb (n =? 215))%nat
  then ascii_of_nat (n + 32) else c.

Fixpoint lower (s : string) : string :=
  match s with
  | EmptyString => EmptyString
  | String c s' => String (lower_char c) (lower s')
  end.

(** [l * k] for a list [l] and an [int] [k]: empty when [k <= 0]. *)
Definition list_mul {A} (l : list A) (k : Z) : list A :=
  concat (replicate (Z.to_nat k) l).

(** [sorted(l, key=key)]: the sort is stable. *)
Fixpoint insert_by {A} (key : A -> Z) (x : A) (l : list A) : list A :=
  match l with
  | [] => [x]
  | y :: l' => if key x <=? key y then x :: l else y :: insert_by key x l'
  end.

Definition sorted {A} (key : A -> Z) (l : list A) : list A :=
  foldr (insert_by key) [] l.

(** A [dict] the code iterates: the items in insertion order, one per
    key. *)
Definition odict (K V : Type) : Type := list (K * V).

Section odict.
Context {K V : Type} `{EqDecision K}.

Fixpoint odict_get (d : odict K V) (k : K) (dflt : V) : V :=
  match d with
  | [] => dflt
  | (k', v) :: d' => if decide (k' = k) then v else odict_get d' k dflt
  end.

(** [d[k] = v] keeps the position of a key that is present and appends
    a new one. *)
Fixpoint odict_set (d : odict K V) (k : K) (v : V) : odict K V :=
  match d with
  | [] => [(k, v)]
  | (k', v') :: d' =>
      if decide (k' = k) then (k', v) :: d' else (k', v') :: odict_set d' k v
  end.
End odict.

(** [float(n)] for an [int] that a binary64 number holds exactly, as
    lengths, indices and small counts are. *)
Definition float_of_Z (z : Z) : float :=
  if z <? 0 then PrimFloat.opp (PrimFloat.of_uint63 (Uint63.of_Z (- z)))
  else PrimFloat.of_uint63 (Uint63.of_Z z).

Definition float_of_nat (n : nat) : float := float_of_Z (Z.of_nat n).

(** [sum(l)] on floats: the additions are made from the left, from 0. *)
Definition fsum (l : list float) : float := fold_left PrimFloat.add l 0%float.

(** [a / b] on floats, raising [ZeroDivisionError] ([None]) when
    [b == 0.0]. *)
Definition fdiv (a b : float) : option float :=
  if PrimFloat.eqb b 0%float then None else Some (PrimFloat.div a b).

(** [a / n] for an [int] [n], as the divisions by a length are.  The
    divisor is converted to a [float] first and [ZeroDivisionError]
    ([None]) is raised when the converted divisor is [0.0]; the conversion
    of an [int] is [0.0] for the [int] [0] only. *)
Definition fdiv_int (a : float) (n : Z) : option float :=
  if n =? 0 then None else Some (PrimFloat.div a (float_of_Z n)).

(** The exceptions of the procedures that can raise more than one. *)
Inductive exn := ZeroDivisionError | OverflowError.

Inductive result (A : Type) : Type :=
| Ok (a : A)
| Raise (e : exn).
Arguments Ok {A} a.
Arguments Raise {A} e.

#[global] Instance result_ret : MRet result := fun A a => Ok a.
#[global] Instance result_bind : MBind result := fun A B f m =>
  match m with
  | Ok a => f a
  | Raise e => Raise e
  end.

(** The exception an [option] stands for. *)
Definition raising {A} (e : exn) (o : option A) : result A :=
  match o with
  | Some a => Ok a
  | None => Raise e
  end.

(** [[f(x) for x in l]] for an [f] that can raise: the first exception
    ends the evaluation. *)
Fixpoint map_result {A B} (f : A -> result B) (l : list A) : result (list B) :=
  match l with
  | [] => Ok []
  | x :: l' => y ← f x; ys ← map_result f l'; Ok (y :: ys)
  end.

(** [x ** 2].  CPython returns a NaN and an infinity squared as they are,
    and gives the other cases to the platform's [pow], raising
    [OverflowError] when the result of a finite [x] is infinite; an
    underflow is no error.  The platform's [pow(x, 2.0)] is taken as the
    rounded product. *)
Definition fpow2 (x : float) : result float :=
  let r := PrimFloat.mul x x in
  if PrimFloat.is_finite x && PrimFloat.is_infinity r
  then Raise OverflowError else Ok r.

(** [max(l)] and [min(a, b)] on floats: the first argument stays unless a
    later one compares strictly beyond it, so a NaN that comes first
    stays. *)
Definition fmax_list (x : float) (l : list float) : float :=
  fold_left (fun m y => if PrimFloat.ltb m y then y else m) l x.

Definition fmin2 (a b : float) : float := if PrimFloat.ltb b a then b else a.

(** [s[-1]]: [None] is the [IndexError] of the empty string. *)
Fixpoint last_char (s : string) : option ascii :=
  match s with
  | EmptyString => None
  | String c EmptyString => Some c
  | String _ s' => last_char s'
  end.

(** [s[-n:]] for [n > 0]: the last [n] characters, the whole of a shorter
    string. *)
Definition slice_last (n : nat) (s : string) : string :=
  slice_from (String.length s - n) s.

(** [c * n] for a string [c] of one character. *)
Fixpoint repeat_char (c : ascii) (n : nat) : string :=
  match n with
  | O => EmptyString
  | S n' => String c (repeat_char c n')
  end.

End Py.

(** ** Bytecode decoder *)

Module Bytecode.

(** [OPCODE_MAP], as the literal of the source lists it. *)
Definition OPCODE_TABLE : list (Z * string) :=
  [ (0x00, "STOP"); (0x01, "ADD"); (0x02, "MUL"); (0x03, "SUB"); (0x04, "DIV");
    (0x05, "SDIV"); (0x06, "MOD"); (0x07, "SMOD"); (0x08, "ADDMOD");
    (0x09, "MULMOD"); (0x0a, "EXP"); (0x0b, "SIGNEXTEND");
    (0x10, "LT"); (0x11, "GT"); (0x12, "SLT"); (0x13, "SGT"); (0x14, "EQ");
    (0x15, "ISZERO"); (0x16, "AND"); (0x17, "OR"); (0x18, "XOR");
    (0x19, "BYTE"); (0x1b, "SHL"); (0x1c, "SHR"); (0x1d, "SAR");
    (0x20, "KECCAK256"); (0x30, "ADDRESS"); (0x31, "BALANCE");
    (0x32, "ORIGIN"); (0x33, "CALLER"); (0x34, "CALLVALUE");
    (0x35, "CALLDATALOAD"); (0x36, "CALLDATASIZE"); (0x37, "CALLDATACOPY");
    (0x38, "CODESIZE"); (0x39, "CODECOPY"); (0x3a, "GASPRICE");
    (0x3b, "EXTCODESIZE"); (0x3c, "EXTCODECOPY"); (0x3d, "RETURNDATASIZE");
    (0x3e, "RETURNDATACOPY"); (0x3f, "EXTCODEHASH");
    (0x40, "BLOCKHASH"); (0x41, "COINBASE"); (0x42, "TIMESTAMP");
    (0x43, "NUMBER"); (0x44, "DIFFICULTY"); (0x45, "GASLIMIT");
    (0x50, "POP"); (0x51, "MLOAD"); (0x52, "MSTORE"); (0x53, "MSTORE8");
    (0x54, "SLOAD"); (0x55, "SSTORE"); (0x56, "JUMP"); (0x57, "JUMPI");
    (0x58, "PC"); (0x59, "MSIZE"); (0x5a, "GAS"); (0x5b, "JUMPDEST");
    (0xf0, "CREATE"); (0xf1, "CALL"); (0xf2, "CALLCODE");
    (0xf3, "RETURN"); (0xf4, "DELEGATECALL"); (0xf5, "CREATE2");
    (0xfa, "STATICCALL"); (0xfd, "REVERT"); (0xfe, "INVALID");
    (0xff, "SELFDESTRUCT") ].

Definition OPCODE_MAP : gmap Z string := list_to_map OPCODE_TABLE.

(** The body of the decoding loop for the byte under the cursor: the name
    appended to [opcodes] and the amount added to the cursor [i]. *)
Definition decode_byte (byte_val : Z) : string * nat :=
  if (0x60 <=? byte_val) && (byte_val <=? 0x7f) then
    let push_size := byte_val - 0x5f in
    ("PUSH" +:+ pretty push_size, (1 + Z.to_nat push_size)%nat)
  else if (0x80 <=? byte_val) && (byte_val <=? 0x8f) then
    ("DUP" +:+ pretty (byte_val - 0x7f), 1%nat)
  else if (0x90 <=? byte_val) && (byte_val <=? 0x9f) then
    ("SWAP" +:+ pretty (byte_val - 0x8f), 1%nat)
  else if (0xa0 <=? byte_val) && (byte_val <=? 0xa4) then
    ("LOG" +:+ pretty (byte_val - 0xa0), 1%nat)
  else
    (default "UNKNOWN" (OPCODE_MAP !! byte_val), 1%nat).

(** [while i < len(bytes_seq)]: the token under the cursor is parsed only
    when the cursor reaches it, so the operand tokens a PUSH skips are never
    given to [int]. *)
Equations? decode_loop (bytes_seq : list string) (i : nat) (opcodes : list string)
  : option (list string) by wf (length bytes_seq - i)%nat lt :=
  decode_loop bytes_seq i opcodes with inspect (bytes_seq !! i) := {
    | exist _ None _ := Some opcodes;
    | exist _ (Some tok) Hi with Py.int16 tok := {
        | None := None;
        | Some byte_val :=
            decode_loop bytes_seq (i + snd (decode_byte byte_val))
                        (opcodes ++ [fst (decode_byte byte_val)]) } }.
Proof.
  apply lookup_lt_Some in Hi.
  assert (1 <= snd (decode_byte byte_val))%nat; [|lia].
  unfold decode_byte.
  repeat match goal with |- context [if ?b then _ else _] => destruct b end;
    cbn [snd]; lia.
Qed.

(** [[code[i:i+2] for i in range(0, len(code), 2)]] *)
Definition split_bytes (code : string) : list string :=
  map (fun i => Py.slice i 2 code) (Py.range2 (String.length code)).

(** [bytecode[2:] if bytecode.startswith("0x") else bytecode] *)
Definition hex_code (bytecode : string) : string :=
  if Py.startswith bytecode "0x" then Py.slice_from 2 bytecode else bytecode.

Definition decode_evm_bytecode (bytecode : string) : option (list string) :=
  let code := hex_code bytecode in
  let bytes_seq := split_bytes code in
  decode_loop bytes_seq 0 [].

(** ** Bytecode analyzer *)

Definition INTRINSIC_GAS_TABLE : list (string * Z) :=
  [ ("STOP", 0);
    ("ADD", 3); ("MUL", 5); ("SUB", 3); ("DIV", 5); ("SDIV", 5); ("MOD", 5);
    ("SMOD", 5);
    ("EXP", 50); ("SIGNEXTEND", 5);
    ("LT", 3); ("GT", 3); ("SLT", 3); ("SGT", 3); ("EQ", 3); ("ISZERO", 3);
    ("AND", 3);
    ("OR", 3); ("XOR", 3); ("BYTE", 3); ("SHL", 3); ("SHR", 3); ("SAR", 3);
    ("KECCAK256", 30);
    ("POP", 2);
    ("MLOAD", 3); ("MSTORE", 3); ("MSTORE8", 3); ("SLOAD", 100);
    ("SSTORE", 20000);
    ("JUMP", 8); ("JUMPI", 10);
    ("PC", 2); ("MSIZE", 2); ("GAS", 2); ("JUMPDEST", 1);
    ("CALL", 700); ("CALLCODE", 700); ("DELEGATECALL", 700);
    ("STATICCALL", 700);
    ("LOG0", 375); ("LOG1", 750); ("LOG2", 1125); ("LOG3", 1500);
    ("LOG4", 1875);
    ("CREATE", 32000); ("CREATE2", 32000);
    ("RETURN", 0); ("REVERT", 0); ("INVALID", 0); ("SELFDESTRUCT", 5000) ].

Definition INTRINSIC_GAS_COSTS : gmap string Z := list_to_map INTRINSIC_GAS_TABLE.

(** [estimated_gas] is a [float] accumulator that only ever receives the
    integers of the table; it is carried as the integer it holds. *)
Record ContractAnalysisResponse := {
  opcode_counts : gmap string Z;
  estimated_gas : Z;
  recommendations : list string
}.

(** [d.get(k, 0)] *)
Definition get0 (d : gmap string Z) (k : string) : Z := default 0 (d !! k).

(** The four messages and the generic one, as the source formats them. *)
Definition sstore_message (n : Z) : string :=
  "Contract performs " +:+ pretty n +:+
  " SSTORE operations. Consider reducing state writes or using cheaper storage patterns.".

Definition log_message (n : Z) : string :=
  "Contract emits " +:+ pretty n +:+
  " LOG events. Excessive event logging can be costly; remove unneeded events.".

Definition call_message (n : Z) : string :=
  "Detected " +:+ pretty n +:+
  " external call operations. External calls consume extra gas; minimize calls or batch operations.".

Definition unknown_message (n : Z) : string :=
  "Found " +:+ pretty n +:+
  " unknown opcodes. Ensure the bytecode targets the correct EVM version and avoid obfuscated code.".

Definition generic_message : string :=
  "No significant gas issues detected by heuristic analysis. Consider using a formal optimizer or auditing tool for deeper insights.".

(** One iteration of [for op in opcode_list] on the pair
    [(opcode_counts, estimated_gas)]. *)
Definition tally (st : gmap string Z * Z) (op : string) : gmap string Z * Z :=
  (<[op := get0 st.1 op + 1]> st.1,
   st.2 + default 3 (INTRINSIC_GAS_COSTS !! op)).

(** [sum(opcode_counts.get(f'LOG{i}', 0) for i in range(5))] *)
Definition log_total (counts : gmap string Z) : Z :=
  foldr Z.add 0 (map (fun i : Z => get0 counts ("LOG" +:+ pretty i)) (seqZ 0 5)).

(** The part of [analyze_bytecode] after the decoder has returned. *)
Definition analyze_opcodes (opcode_list : list string) : ContractAnalysisResponse :=
  let '(opcode_counts, estimated_gas) := fold_left tally opcode_list (∅, 0) in
  let recommendations : list string := [] in
  let sstore_count := get0 opcode_counts "SSTORE" in
  let recommendations :=
    if 10 <? sstore_count
    then recommendations ++ [sstore_message sstore_count] else recommendations in
  let log_ops := log_total opcode_counts in
  let recommendations :=
    if 10 <? log_ops
    then recommendations ++ [log_message log_ops] else recommendations in
  let call_ops := get0 opcode_counts "CALL" + get0 opcode_counts "DELEGATECALL"
                  + get0 opcode_counts "STATICCALL" in
  let recommendations :=
    if 5 <? call_ops
    then recommendations ++ [call_message call_ops] else recommendations in
  let unknown_ops := get0 opcode_counts "UNKNOWN" in
  let recommendations :=
    if 0 <? unknown_ops
    then recommendations ++ [unknown_message unknown_ops] else recommendations in
  let recommendations :=
    match recommendations with
    | [] => recommendations ++ [generic_message]
    | _ => recommendations
    end in
  {| opcode_counts := opcode_counts;
     estimated_gas := estimated_gas;
     recommendations := recommendations |}.

Definition analyze_bytecode (bytecode : string) : option ContractAnalysisResponse :=
  opcode_list ← decode_evm_bytecode bytecode;
  Some (analyze_opcodes opcode_list).

End Bytecode.

(** ** Anomaly scoring (binary64) *)

Module Anomaly.
Local Open Scope float_scope.

Record AnomalyResponse := {
  score : float;
  is_anomaly : bool;
  message : string
}.

(** [statistics.mean] and [statistics.pstdev]: the arithmetic mean, and
    the square root of the mean squared deviation from it.  The library
    accumulates exactly and rounds once, where every operation rounds
    here, and it raises on a window that holds an infinity or a NaN, where
    the operations here return a NaN: the two agree when the data are
    finite and the sums are representable, as they are for the small
    integers of the property below. *)
Definition mean (data : list float) : float :=
  Py.fsum data / Py.float_of_nat (length data).

Definition pstdev (data : list float) : float :=
  let mu := mean data in
  PrimFloat.sqrt
    (Py.fsum (map (fun x => (x - mu) * (x - mu)) data)
     / Py.float_of_nat (length data)).

Definition anomaly (values : list float) (threshold : float) : AnomalyResponse :=
  if (length values <? 2)%nat then
    {| score := 0; is_anomaly := false; message := "Not enough data" |}
  else
    let window := removelast values in
    let current := List.last values 0 in
    let mean := mean window in
    let stdev := if (1 <? length window)%nat then pstdev window else 0 in
    let '(score, is_anomaly) :=
      if stdev =? 0 then
        (0, negb (current =? mean))
      else
        let score := (current - mean) / stdev in
        (score, threshold <=? PrimFloat.abs score) in
    let message := if is_anomaly : bool then "Anomaly" else "Normal" in
    {| score := score; is_anomaly := is_anomaly; message := message |}.

(** The request's default [threshold]. *)
Definition default_threshold : float := 2.

End Anomaly.

(** ** Forecasting (binary64) *)

Module Forecast.
Local Open Scope float_scope.

Record ForecastResponse := {
  predictions : list float;
  slope : float;
  intercept : float
}.

(** The sums of [xs] are sums of [int]s; [x ** 2] is taken as the product
    [x * x]. *)
Definition forecast_time_series (values : list float) (horizon : Z)
  : option ForecastResponse :=
  let n := length values in
  if (n <? 2)%nat then
    let last_val := match values with [] => 0 | _ => List.last values 0 end in
    Some {| predictions := Py.list_mul [last_val] horizon;
            slope := 0;
            intercept := last_val |}
  else
    let xs := map Z.of_nat (seq 0 n) in
    let ys := values in
    mean_x ← Py.fdiv (Py.float_of_Z (foldr Z.add 0%Z xs)) (Py.float_of_nat n);
    mean_y ← Py.fdiv (Py.fsum ys) (Py.float_of_nat n);
    let num :=
      Py.fsum (map (fun '(x, y) => (Py.float_of_Z x - mean_x) * (y - mean_y))
                   (zip xs ys)) in
    let den0 :=
      Py.fsum (map (fun x => (Py.float_of_Z x - mean_x) * (Py.float_of_Z x - mean_x))
                   xs) in
    let den := if den0 =? 0 then 0x1.5798ee2308c3ap-27 (* 1e-8 *) else den0 in
    slope ← Py.fdiv num den;
    let intercept := mean_y - slope * mean_x in
    let predictions :=
      map (fun t => slope * Py.float_of_Z t + intercept) (seqZ (Z.of_nat n) horizon) in
    Some {| predictions := predictions; slope := slope; intercept := intercept |}.

End Forecast.

(** ** Liquidity and bridge flows (binary64) *)

Module Liquidity.
Local Open Scope float_scope.

Record LiquidityEvent := {
  protocol : string;
  chain_from : string;
  chain_to : string;
  token : string;
  amount : float;
  event_type : string;
  timestamp : Z
}.

Record BridgeFlow := {
  flow_protocol : string;
  from_chain : string;
  to_chain : string;
  total_amount : float
}.

Record LiquidityBridgeResponse := {
  tvl_by_protocol : gmap string float;
  bridge_flows : list BridgeFlow
}.

Abbreviation bridge_key := (string * string * string)%type.

(** One iteration of [for ev in events] on the pair
    [(tvl_by_protocol, bridge_map)]. *)
Definition record_event
    (st : gmap string float * Py.odict bridge_key float) (ev : LiquidityEvent)
  : gmap string float * Py.odict bridge_key float :=
  let '(tvl_by_protocol, bridge_map) := st in
  let protocol := protocol ev in
  let tvl_by_protocol :=
    <[protocol := default 0 (tvl_by_protocol !! protocol)]> tvl_by_protocol in
  let tvl := default 0 (tvl_by_protocol !! protocol) in
  if String.eqb (event_type ev) "stake" then
    (<[protocol := tvl + amount ev]> tvl_by_protocol, bridge_map)
  else if String.eqb (event_type ev) "unstake" then
    (<[protocol := tvl - amount ev]> tvl_by_protocol, bridge_map)
  else if String.eqb (event_type ev) "bridge_out" then
    let tvl_by_protocol := <[protocol := tvl - amount ev]> tvl_by_protocol in
    let key := (protocol, chain_from ev, chain_to ev) in
    (tvl_by_protocol,
     Py.odict_set bridge_map key (Py.odict_get bridge_map key 0 + amount ev))
  else if String.eqb (event_type ev) "bridge_in" then
    let tvl_by_protocol := <[protocol := tvl + amount ev]> tvl_by_protocol in
    let key := (protocol, chain_from ev, chain_to ev) in
    (tvl_by_protocol,
     Py.odict_set bridge_map key (Py.odict_get bridge_map key 0 + amount ev))
  else
    (tvl_by_protocol, bridge_map).

Definition analyze_liquidity_bridge (events : list LiquidityEvent)
  : LiquidityBridgeResponse :=
  let '(tvl_by_protocol, bridge_map) := fold_left record_event events (∅, []) in
  let bridge_flows :=
    map (fun '((protocol, from_chain, to_chain), total) =>
           {| flow_protocol := protocol;
              from_chain := from_chain;
              to_chain := to_chain;
              total_amount := total |}) bridge_map in
  {| tvl_by_protocol := tvl_by_protocol; bridge_flows := bridge_flows |}.

End Liquidity.

(** ** MEV and bot detection (binary64) *)

Module Mev.
Local Open Scope float_scope.

Record TransactionInfo := {
  tx_hash : string;
  from_address : string;
  to_address : string;
  value : float;
  timestamp : Z;
  gas_price : float
}.

(** The shapes the [details] dictionary takes. *)
Inductive Details :=
| NoDetails
| Reason (reason : string)
| Sandwich (sandwich_indexes : list nat) (bot_address victim_address : string)
| FrontRun (front_run_pair : list nat) (bot_address victim_address : string)
| Liquidation (target_address : string) (count : Z).

Record MEVDetectionResponse := {
  bot_type : string;
  mev_strategy : string;
  spam_score : float;
  details : Details
}.

(** The test of the sandwich loop at index [i]. *)
Definition sandwich_at (txs : list TransactionInfo) (i : nat) : bool :=
  match txs !! i, txs !! (i + 1)%nat, txs !! (i + 2)%nat with
  | Some a, Some b, Some c =>
      if String.eqb (Py.lower (from_address a)) (Py.lower (from_address c))
         && String.eqb (Py.lower (to_address a)) (Py.lower (to_address c))
         && negb (String.eqb (Py.lower (from_address b)) (Py.lower (from_address a)))
      then (timestamp b - timestamp a <? 30)%Z && (gas_price a <? gas_price b)
      else false
  | _, _, _ => false
  end.

(** The test of the front-running loop at index [i]; [1.2] is the binary64
    number nearest to it. *)
Definition front_run_at (txs : list TransactionInfo) (i : nat) : bool :=
  match txs !! i, txs !! (i + 1)%nat with
  | Some victim, Some suspect =>
      (gas_price victim * 0x1.3333333333333p+0 (* 1.2 *) <? gas_price suspect)
      && (timestamp suspect - timestamp victim <? 20)%Z
  | _, _ => false
  end.

(** [for i in range(n): if test(i): ...; break]: the first index that
    passes. *)
Definition first_index (test : nat -> bool) (n : nat) : option nat :=
  List.find test (seq 0 n).

Definition count_targets (txs : list TransactionInfo) : Py.odict string Z :=
  fold_left
    (fun target_counts tx =>
       Py.odict_set target_counts (Py.lower (to_address tx))
         (Py.odict_get target_counts (Py.lower (to_address tx)) 0%Z + 1)%Z)
    txs [].

(** The denominator of the variance score. *)
Definition denominator (max_gas : float) : float :=
  if negb (max_gas =? 0) then max_gas else 1.

(** The last block of [detect_mev_bot]: the score from the variance of
    the gas prices. *)
Definition variance_score (txs : list TransactionInfo) (spam_score : float)
  : Py.result float :=
  let gas_prices := map gas_price txs in
  match gas_prices with
  | [] => Py.Ok spam_score
  | gp0 :: gps =>
      let len := Z.of_nat (length gas_prices) in
      mean_gas ←
        Py.raising Py.ZeroDivisionError (Py.fdiv_int (Py.fsum gas_prices) len);
      squares ← Py.map_result (fun gp => Py.fpow2 (gp - mean_gas)) gas_prices;
      variance ←
        Py.raising Py.ZeroDivisionError (Py.fdiv_int (Py.fsum squares) len);
      let max_gas := Py.fmax_list gp0 gps in
      let denominator := denominator max_gas in
      q ← Py.raising Py.ZeroDivisionError (Py.fdiv variance denominator);
      Py.Ok (Py.fmin2 q 0x1.999999999999ap-3 (* 0.2 *))
  end.

Definition detect_mev_bot (transactions : list TransactionInfo)
  : Py.result MEVDetectionResponse :=
  if (length transactions <? 2)%nat then
    Py.Ok {| bot_type := "none"; mev_strategy := "none"; spam_score := 0;
             details := Reason "not enough data" |}
  else
    let txs := Py.sorted timestamp transactions in
    let st := {| bot_type := "none"; mev_strategy := "none"; spam_score := 0;
                 details := NoDetails |} in
    let st :=
      match first_index (sandwich_at txs) (length txs - 2) with
      | Some i =>
          match txs !! i, txs !! (i + 1)%nat with
          | Some a, Some b =>
              {| bot_type := "arbitrage_bot"; mev_strategy := "sandwich";
                 spam_score := 0x1.ccccccccccccdp-1 (* 0.9 *);
                 details := Sandwich [i; (i + 1)%nat; (i + 2)%nat]
                              (from_address b) (from_address a) |}
          | _, _ => st
          end
      | None => st
      end in
    let st :=
      if spam_score st =? 0 then
        match first_index (front_run_at txs) (length txs - 1) with
        | Some i =>
            match txs !! i, txs !! (i + 1)%nat with
            | Some victim, Some suspect =>
                {| bot_type := "sniper_bot"; mev_strategy := "front_running";
                   spam_score := 0x1.6666666666666p-1 (* 0.7 *);
                   details := FrontRun [i; (i + 1)%nat]
                                (from_address suspect) (from_address victim) |}
            | _, _ => st
            end
        | None => st
        end
      else st in
    let st :=
      if spam_score st =? 0 then
        let target_counts := count_targets txs in
        match List.find (fun '(addr, count) => (3 <=? count)%Z) target_counts with
        | Some (addr, count) =>
            {| bot_type := "liquidation_bot"; mev_strategy := "liquidation";
               spam_score := 0x1.999999999999ap-1 (* 0.8 *);
               details := Liquidation addr count |}
        | None => st
        end
      else st in
    if spam_score st =? 0 then
      s ← variance_score txs (spam_score st);
      Py.Ok {| bot_type := bot_type st; mev_strategy := mev_strategy st;
               spam_score := s; details := details st |}
    else Py.Ok st.

End Mev.

(** ** Address labeling *)

Module Label.

Module Response.

(** The [details] dictionary has the two keys ["chain"] and ["address"]. *)
Record LabelResponse := {
  label : string;
  confidence : float;
  details_chain : string;
  details_address : string
}.

End Response.

Definition known_exchanges : gmap string (list string) :=
  list_to_map
    [ ("ethereum", ["0xeeeeeeeeeeeeeeeeeeeeeeeeeeeeeeeeeeeeeeee"]);
      ("polygon", ["0xdddddddddddddddddddddddddddddddddddddddd"]) ].

Definition known_dex_routers : gmap string (list string) :=
  list_to_map
    [ ("ethereum", ["0xaaaaaaaaaaaaaaaaaaaaaaaaaaaaaaaaaaaaaaaa"]);
      ("polygon", ["0xbbbbbbbbbbbbbbbbbbbbbbbbbbbbbbbbbbbbbbbb"]) ].

Definition known_bridges : gmap string (list string) :=
  list_to_map
    [ ("ethereum", ["0xcccccccccccccccccccccccccccccccccccccccc"]);
      ("polygon", []) ].

(** [chain in known and address in known[chain]] *)
Definition listed (known : gmap string (list string)) (chain address : string)
  : bool :=
  match known !! chain with
  | Some addresses => existsb (String.eqb address) addresses
  | None => false
  end.

(** The handler [label], on the two fields of the request.  [None] is the
    [IndexError] of [address[-1]]. *)
Definition label (req_address : string) (req_chain : option string)
  : option Response.LabelResponse :=
  let address := Py.lower req_address in
  let chain := Py.lower (default "" req_chain) in
  let label := "unknown" in
  let confidence := 0.5%float in
  '(label, confidence) ←
    (if listed known_exchanges chain address then
       Some ("exchange", 0x1.e666666666666p-1 (* 0.95 *))
     else if listed known_dex_routers chain address then
       Some ("dex_router", 0x1.ccccccccccccdp-1 (* 0.9 *))
     else if listed known_bridges chain address then
       Some ("bridge", 0x1.ccccccccccccdp-1 (* 0.9 *))
     else if String.eqb address "0x0000000000000000000000000000000000000000" then
       Some ("null_address", 1)
     else
       last ← Py.last_char address;
       if String.eqb (Py.slice_last 4 address) (Py.repeat_char last 4) then
         Some ("contract", 0x1.3333333333333p-1 (* 0.6 *))
       else
         Some ("user", 0x1.3333333333333p-1 (* 0.6 *)))%float;
  Some {| Response.label := label;
          Response.confidence := confidence;
          Response.details_chain := chain;
          Response.details_address := address |}.

End Label.

(** ** Private aggregate query (binary64) *)

Module PrivateQuery.
Local Open Scope float_scope.

Record PrivateQueryResponse := {
  result : float;
  zk_proof : string
}.

Definition perform_private_query (values : list float) (query : string)
  : option PrivateQueryResponse :=
  let q := Py.lower query in
  match values with
  | [] => Some {| result := 0; zk_proof := "zkproof-placeholder" |}
  | _ :: _ =>
      res ←
        (if String.eqb q "sum" then
           Some (Py.fsum values)
         else if String.eqb q "avg" || String.eqb q "mean" then
           Py.fdiv_int (Py.fsum values) (Z.of_nat (length values))
         else if String.eqb q "count" then
           Some (Py.float_of_nat (length values))
         else
           Some 0);
      Some {| result := res; zk_proof := "zkproof-placeholder" |}
  end.

End PrivateQuery.

(** ** Flash-loan detection (binary64) *)

Module FlashLoan.
Local Open Scope float_scope.

Record FlashLoanEvent := {
  tx_hash : string;
  event_type : string;
  amount : float;
  timestamp : Z;
  token : string
}.

(** The shapes the [details] dictionary takes. *)
Inductive Details :=
| NoDetails
| Reason (reason : string)
| Suspect (borrow_tx repay_tx : string) (amount avg_borrow_amount : float)
          (time_delta : Z).

Record FlashLoanDetectionResponse := {
  exploit_suspect : bool;
  details : Details
}.

(** The test of the loop at index [i]: a borrow directly followed by a
    repay of the same token, soon enough and large enough. *)
Definition suspicious_at (evs : list FlashLoanEvent) (avg_amount : float) (i : nat)
  : bool :=
  match evs !! i, evs !! (i + 1)%nat with
  | Some a, Some b =>
      if String.eqb (event_type a) "borrow" && String.eqb (event_type b) "repay"
         && String.eqb (token a) (token b)
      then
        let time_delta := (timestamp b - timestamp a)%Z in
        (time_delta <? 30)%Z && (avg_amount * 2 <? amount a)
      else false
  | _, _ => false
  end.

Definition detect_flash_loan (events : list FlashLoanEvent)
  : option FlashLoanDetectionResponse :=
  if (length events <? 2)%nat then
    Some {| exploit_suspect := false; details := Reason "not enough events" |}
  else
    let evs := Py.sorted timestamp events in
    let amounts :=
      map amount (List.filter (fun e => String.eqb (event_type e) "borrow") evs) in
    avg_amount ←
      match amounts with
      | [] => Some 0
      | _ :: _ => Py.fdiv_int (Py.fsum amounts) (Z.of_nat (length amounts))
      end;
    match List.find (suspicious_at evs avg_amount) (seq 0 (length evs - 1)) with
    | Some i =>
        match evs !! i, evs !! (i + 1)%nat with
        | Some a, Some b =>
            Some {| exploit_suspect := true;
                    details := Suspect (tx_hash a) (tx_hash b) (amount a) avg_amount
                                 (timestamp b - timestamp a)%Z |}
        | _, _ => Some {| exploit_suspect := false; details := NoDetails |}
        end
    | None => Some {| exploit_suspect := false; details := NoDetails |}
    end.

End FlashLoan.

(** * Vocabulary of the properties *)

Import Bytecode.

Section bytecode_vocabulary.

(** The cost the estimate charges for one opcode. *)
Definition gas_cost (op : string) : Z := default 3 (INTRINSIC_GAS_COSTS !! op).

(** Occurrences of [k] in the opcode sequence. *)
Definition occurrences (k : string) (ops : list string) : Z :=
  Z.of_nat (length (filter (eq k) ops)).

(** The sum of a list of integers. *)
Definition sum_Z (l : list Z) : Z := foldr Z.add 0 l.

(** The byte tokens, by recursion on the text: two characters at a time,
    and a last token of one character when the length is odd. *)
Fixpoint chunks2 (code : string) : list string :=
  match code with
  | EmptyString => []
  | String a EmptyString => [String a EmptyString]
  | String a (String b rest) => String a (String b EmptyString) :: chunks2 rest
  end.

(** A hexadecimal digit, and a text made of them. *)
Definition is_hex_char (c : ascii) : bool :=
  match Py.hex_digit c with Some _ => true | None => false end.

Fixpoint is_hex_string (s : string) : bool :=
  match s with
  | EmptyString => true
  | String c s' => is_hex_char c && is_hex_string s'
  end.

(** A valid hex string: hexadecimal digits, after an optional [0x]. *)
Definition valid_hex (bytecode : string) : Prop :=
  is_hex_string (hex_code bytecode) = true.

(** The fixed mnemonic set: the four numbered families and the names of
    [OPCODE_MAP]. *)
Definition MNEMONICS : list string :=
  map (fun k : Z => "PUSH" +:+ pretty k) (seqZ 1 32)
  ++ map (fun k : Z => "DUP" +:+ pretty k) (seqZ 1 16)
  ++ map (fun k : Z => "SWAP" +:+ pretty k) (seqZ 1 16)
  ++ map (fun k : Z => "LOG" +:+ pretty k) (seqZ 0 5)
  ++ map snd OPCODE_TABLE.

(** A name of the set, or the sentinel. *)
Definition known_name (op : string) : Prop := op ∈ MNEMONICS \/ op = "UNKNOWN".

(** [s] with a ["0"] put before its last character. *)
Fixpoint pad_last (s : string) : string :=
  match s with
  | EmptyString => EmptyString
  | String c EmptyString => String "0" (String c EmptyString)
  | String c s' => String c (pad_last s')
  end.

(** [s[:-1]] *)
Fixpoint drop_last (s : string) : string :=
  match s with
  | EmptyString => EmptyString
  | String c EmptyString => EmptyString
  | String c s' => String c (drop_last s')
  end.

(** The counts the four rules compare, read off the opcode sequence. *)
Definition sstore_count (ops : list string) : Z := occurrences "SSTORE" ops.

Definition log_ops (ops : list string) : Z :=
  occurrences "LOG0" ops + occurrences "LOG1" ops + occurrences "LOG2" ops
  + occurrences "LOG3" ops + occurrences "LOG4" ops.

Definition call_ops (ops : list string) : Z :=
  occurrences "CALL" ops + occurrences "DELEGATECALL" ops
  + occurrences "STATICCALL" ops.

Definition unknown_ops (ops : list string) : Z := occurrences "UNKNOWN" ops.

(** What each rule contributes. *)
Definition rule (fires : bool) (msg : string) : list string :=
  if fires then [msg] else [].

(** The recommendations of the four rules, in the order of the source. *)
Definition specific_recommendations (ops : list string) : list string :=
  rule (10 <? sstore_count ops) (sstore_message (sstore_count ops))
  ++ rule (10 <? log_ops ops) (log_message (log_ops ops))
  ++ rule (5 <? call_ops ops) (call_message (call_ops ops))
  ++ rule (0 <? unknown_ops ops) (unknown_message (unknown_ops ops)).

End bytecode_vocabulary.

Section forecast_vocabulary.
Import Forecast.

(** The last observed value, [0.0] for an empty series. *)
Definition last_value (values : list float) : float := List.last values 0%float.

End forecast_vocabulary.

Section liquidity_vocabulary.
Import Liquidity.

(** The four event types the analysis acts on. *)
Definition recognized (ev : LiquidityEvent) : bool :=
  String.eqb (event_type ev) "stake" || String.eqb (event_type ev) "unstake"
  || String.eqb (event_type ev) "bridge_out" || String.eqb (event_type ev) "bridge_in".

(** [d.get(k, 0.0)] *)
Definition tvl_of (tvl : gmap string float) (p : string) : float :=
  default 0%float (tvl !! p).

(** A stake, and an event of a type the analysis does not know. *)
Definition sample_events : list LiquidityEvent :=
  [ {| protocol := "aave"; chain_from := "eth"; chain_to := "eth";
       token := "DAI"; amount := 5%float; event_type := "stake"; timestamp := 1 |};
    {| protocol := "lido"; chain_from := "eth"; chain_to := "eth";
       token := "ETH"; amount := 7%float; event_type := "restake"; timestamp := 2 |} ].

End liquidity_vocabulary.

Section mev_vocabulary.
Import Mev.
Local Open Scope float_scope.

(** No sandwich, front-running or repeated-target pattern is found. *)
Definition no_pattern (transactions : list TransactionInfo) : Prop :=
  let txs := Py.sorted timestamp transactions in
  first_index (sandwich_at txs) (length txs - 2) = None
  /\ first_index (front_run_at txs) (length txs - 1) = None
  /\ List.find (fun '(addr, count) => (3 <=? count)%Z) (count_targets txs) = None.

(** Two unrelated transactions, a hundred seconds apart, at gas price 0. *)
Definition quiet_transactions : list TransactionInfo :=
  [ {| tx_hash := "0x01"; from_address := "0xaa"; to_address := "0xbb";
       value := 1; timestamp := 0; gas_price := 0 |};
    {| tx_hash := "0x02"; from_address := "0xcc"; to_address := "0xdd";
       value := 1; timestamp := 100; gas_price := 0 |} ].

(** The mean gas price the variance block takes, and the deviations from
    it whose square overflows: a finite number with an infinite square. *)
Definition mean_gas (txs : list TransactionInfo) : float :=
  let gas_prices := map gas_price txs in
  Py.fsum gas_prices / Py.float_of_Z (Z.of_nat (length gas_prices)).

Definition square_overflows (x : float) : bool :=
  PrimFloat.is_finite x && PrimFloat.is_infinity (x * x).


End mev_vocabulary.

Section flash_loan_vocabulary.
Import FlashLoan.
Local Open Scope float_scope.

(** A large loan repaid after five seconds, among two small loans; the
    events are not in time order. *)
Definition fast_loan_events : list FlashLoanEvent :=
  [ {| tx_hash := "0x03"; event_type := "borrow"; amount := 1;
       timestamp := 100; token := "DAI" |};
    {| tx_hash := "0x01"; event_type := "borrow"; amount := 100;
       timestamp := 0; token := "DAI" |};
    {| tx_hash := "0x02"; event_type := "repay"; amount := 100;
       timestamp := 5; token := "DAI" |};
    {| tx_hash := "0x04"; event_type := "borrow"; amount := 1;
       timestamp := 200; token := "DAI" |} ].

(** A single loan repaid at once. *)
Definition lone_loan_events : list FlashLoanEvent :=
  [ {| tx_hash := "0x01"; event_type := "borrow"; amount := 1000000;
       timestamp := 0; token := "DAI" |};
    {| tx_hash := "0x02"; event_type := "repay"; amount := 1000000;
       timestamp := 0; token := "DAI" |} ].

End flash_loan_vocabulary.

Section decoder_vocabulary.

(** The name the loop gives to a token it reads. *)
Definition opcode_of_token (tok : string) : option string :=
  (fun byte_val => (decode_byte byte_val).1) <$> Py.int16 tok.

(** A token that parses to a byte outside the PUSH range. *)
Definition single_byte_token (tok : string) : Prop :=
  exists byte_val,
    Py.int16 tok = Some byte_val /\ ~ (0x60 <= byte_val <= 0x7f).

End decoder_vocabulary.

Section analyzer_vocabulary.

(** [sum(opcode_counts.values())] *)
Definition total_count (counts : gmap string Z) : Z :=
  map_fold (fun _ n acc => n + acc) 0 counts.

End analyzer_vocabulary.

Section bridge_flow_vocabulary.
Import Liquidity.
Local Open Scope float_scope.

(** The two event types that enter the bridge map, and the key under
    which they enter it. *)
Definition is_bridge (ev : LiquidityEvent) : bool :=
  String.eqb (event_type ev) "bridge_out" || String.eqb (event_type ev) "bridge_in".

Definition event_key (ev : LiquidityEvent) : string * string * string :=
  (protocol ev, chain_from ev, chain_to ev).

Definition flow_key (f : BridgeFlow) : string * string * string :=
  (flow_protocol f, from_chain f, to_chain f).

(** What one event does to the balance of its protocol. *)
Definition tvl_after (ev : LiquidityEvent) (tvl : float) : float :=
  if String.eqb (event_type ev) "stake" then tvl + amount ev
  else if String.eqb (event_type ev) "unstake" then tvl - amount ev
  else if String.eqb (event_type ev) "bridge_out" then tvl - amount ev
  else if String.eqb (event_type ev) "bridge_in" then tvl + amount ev
  else tvl.

(** The events of one protocol, and the balance they add up to, from 0.0
    and in the order of the input. *)
Definition protocol_events (p : string) (events : list LiquidityEvent)
  : list LiquidityEvent :=
  filter (fun ev => protocol ev = p) events.

Definition balance (p : string) (events : list LiquidityEvent) : float :=
  fold_left (fun tvl ev => tvl_after ev tvl) (protocol_events p events) 0.

(** The bridge events of one key, and the amount they add up to. *)
Definition flow_events (key : string * string * string)
    (events : list LiquidityEvent) : list LiquidityEvent :=
  filter (fun ev => is_bridge ev = true /\ event_key ev = key) events.

Definition flow_total (key : string * string * string)
    (events : list LiquidityEvent) : float :=
  fold_left (fun total ev => total + amount ev) (flow_events key events) 0.

(** A stake, a bridge transfer out and back in over the same route, and a
    second protocol. *)
Definition bridge_events : list LiquidityEvent :=
  [ {| protocol := "hop"; chain_from := "eth"; chain_to := "eth";
       token := "USDC"; amount := 10; event_type := "stake"; timestamp := 1 |};
    {| protocol := "hop"; chain_from := "eth"; chain_to := "arb";
       token := "USDC"; amount := 4; event_type := "bridge_out"; timestamp := 2 |};
    {| protocol := "across"; chain_from := "eth"; chain_to := "arb";
       token := "USDC"; amount := 2; event_type := "bridge_in"; timestamp := 3 |};
    {| protocol := "hop"; chain_from := "eth"; chain_to := "arb";
       token := "USDC"; amount := 1; event_type := "bridge_in"; timestamp := 4 |} ].

End bridge_flow_vocabulary.

Section mev_pattern_vocabulary.
Import Mev.
Local Open Scope float_scope.

(** The number of transactions sent to [addr], whatever the case of the
    letters. *)
Definition to_count (addr : string) (txs : list TransactionInfo) : Z :=
  Z.of_nat (length (filter (fun tx => Py.lower (to_address tx) = addr) txs)).

(** The sandwich loop, and the front-running loop, find an index. *)
Definition has_sandwich (txs : list TransactionInfo) : Prop :=
  exists i, (i < length txs - 2)%nat /\ sandwich_at txs i = true.

Definition has_front_run (txs : list TransactionInfo) : Prop :=
  exists i, (i < length txs - 1)%nat /\ front_run_at txs i = true.

(** A sandwich, given out of order. *)
Definition sandwich_transactions : list TransactionInfo :=
  [ {| tx_hash := "0x01"; from_address := "0xAA"; to_address := "0xbb";
       value := 1; timestamp := 0; gas_price := 10 |};
    {| tx_hash := "0x03"; from_address := "0xaa"; to_address := "0xBB";
       value := 1; timestamp := 10; gas_price := 10 |};
    {| tx_hash := "0x02"; from_address := "0xcc"; to_address := "0xbb";
       value := 1; timestamp := 5; gas_price := 20 |} ].

(** Three senders calling one target at the same gas price. *)
Definition repeated_target_transactions : list TransactionInfo :=
  [ {| tx_hash := "0x01"; from_address := "0xa1"; to_address := "0xPool";
       value := 1; timestamp := 0; gas_price := 10 |};
    {| tx_hash := "0x02"; from_address := "0xa2"; to_address := "0xpool";
       value := 1; timestamp := 100; gas_price := 10 |};
    {| tx_hash := "0x03"; from_address := "0xa3"; to_address := "0xPOOL";
       value := 1; timestamp := 200; gas_price := 10 |} ].

End mev_pattern_vocabulary.

(** * Properties *)

(** ** Anomaly scoring *)

Section anomaly_properties.
Import Anomaly.
Local Open Scope float_scope.

(** On the window [1, 1, 1, 1] the deviation is zero. *)
Example pstdev_constant_window : pstdev [1; 1; 1; 1] = 0.
Proof. vm_compute. reflexivity. Qed.

(** C1, as stated, fails: for [values = [1, 1, 1, 1, 100]] and the
    default threshold the returned score is not a non-zero number. *)
Lemma anomaly_example_score_is_not_nonzero :
  ~ ((score (anomaly [1; 1; 1; 1; 100] default_threshold) =? 0) = false
     /\ is_anomaly (anomaly [1; 1; 1; 1; 100] default_threshold) = true).
Proof. vm_compute. intros [H _]. discriminate H. Qed.

(** C1, amended: for [values = [1, 1, 1, 1, 100]] and the default
    threshold the reference window has zero deviation, so the endpoint
    returns the sentinel score 0.0, flags the value as an anomaly and
    says so in the message. *)
Theorem anomaly_example_sentinel :
  anomaly [1; 1; 1; 1; 100] default_threshold
  = {| score := 0; is_anomaly := true; message := "Anomaly" |}.
Proof. vm_compute. reflexivity. Qed.

End anomaly_properties.

(** ** Bytecode analyzer: the tally *)

Section tally_properties.

(** The loop adds one table cost to the estimate per opcode read. *)
Lemma tally_gas ops st :
  (fold_left tally ops st).2 = st.2 + sum_Z (map gas_cost ops).
Proof.
  revert st. induction ops as [|op ops IH]; intros st; cbn [fold_left map sum_Z foldr].
  - lia.
  - rewrite IH. unfold tally, gas_cost, sum_Z. cbn [fst snd]. lia.
Qed.

(** The loop adds one to the count of each opcode read. *)
Lemma tally_count ops st k :
  get0 (fold_left tally ops st).1 k = get0 st.1 k + occurrences k ops.
Proof.
  revert st. induction ops as [|op ops IH]; intros st; cbn [fold_left].
  - unfold occurrences. rewrite filter_nil. cbn [length]. lia.
  - rewrite IH. unfold tally, occurrences, get0. cbn [fst snd].
    rewrite filter_cons. destruct (decide (k = op)) as [->|Hne].
    + rewrite lookup_insert_eq. cbn [default length]. unfold id. lia.
    + rewrite lookup_insert_ne by congruence. lia.
Qed.

(** The estimate of the analysis is the sum of the costs. *)
Lemma analyze_opcodes_gas ops :
  estimated_gas (analyze_opcodes ops) = sum_Z (map gas_cost ops).
Proof.
  unfold analyze_opcodes.
  pose proof (tally_gas ops (∅, 0)) as Hg.
  destruct (fold_left tally ops (∅, 0)) as [counts gas].
  cbn [estimated_gas fst snd] in *. lia.
Qed.

(** A count of the analysis is the number of occurrences. *)
Lemma analyze_opcodes_counts ops k :
  get0 (opcode_counts (analyze_opcodes ops)) k = occurrences k ops.
Proof.
  unfold analyze_opcodes.
  pose proof (tally_count ops (∅, 0) k) as Hc.
  destruct (fold_left tally ops (∅, 0)) as [counts gas].
  cbn [opcode_counts fst snd] in *.
  rewrite Hc. unfold get0. rewrite lookup_empty. cbn [default]. lia.
Qed.

(** C3: the estimate is the sum, over every occurrence in the decoded
    sequence, of the opcode's table cost, 3 when the table has no entry;
    and ["0x6001600201"] decodes to PUSH1, PUSH1, ADD with estimate 9. *)
Theorem estimated_gas_sums_every_occurrence :
  (forall bytecode,
      estimated_gas <$> analyze_bytecode bytecode
      = (fun ops => sum_Z (map gas_cost ops)) <$> decode_evm_bytecode bytecode)
  /\ decode_evm_bytecode "0x6001600201" = Some ["PUSH1"; "PUSH1"; "ADD"]
  /\ estimated_gas <$> analyze_bytecode "0x6001600201" = Some 9.
Proof.
  split; [|split].
  - intros bytecode. unfold analyze_bytecode.
    destruct (decode_evm_bytecode bytecode) as [ops|]; cbn [mbind option_bind fmap option_fmap option_map]; [|reflexivity].
    f_equal. apply analyze_opcodes_gas.
  - vm_compute. reflexivity.
  - vm_compute. reflexivity.
Qed.

End tally_properties.

(** ** Bytecode decoder: the loop *)

Section decode_loop_properties.

(** Every iteration moves the cursor forward. *)
Lemma decode_byte_advance byte_val : (1 <= snd (decode_byte byte_val))%nat.
Proof.
  unfold decode_byte.
  repeat match goal with |- context [if ?b then _ else _] => destruct b end;
    cbn [snd]; lia.
Qed.

(** The loop, unfolded once. *)
Lemma decode_loop_unfold bytes_seq i opcodes :
  decode_loop bytes_seq i opcodes =
  match bytes_seq !! i with
  | None => Some opcodes
  | Some tok =>
      match Py.int16 tok with
      | None => None
      | Some byte_val =>
          decode_loop bytes_seq (i + snd (decode_byte byte_val))
                      (opcodes ++ [fst (decode_byte byte_val)])
      end
  end.
Proof.
  rewrite decode_loop_equation_1. unfold decode_loop_unfold_clause_1.
  match goal with |- _ = ?rhs => remember rhs as r eqn:Hr end.
  destruct (inspect (bytes_seq !! i)) as [[tok|] Hi];
    rewrite Hi in Hr; subst r; [|reflexivity].
  unfold decode_loop_unfold_clause_1_clause_2.
  destruct (Py.int16 tok); reflexivity.
Qed.

(** Induction along the iterations of the loop. *)
Lemma decode_loop_rect (bytes_seq : list string)
    (P : nat -> list string -> option (list string) -> Prop) :
  (forall i opcodes, bytes_seq !! i = None -> P i opcodes (Some opcodes)) ->
  (forall i opcodes tok,
      bytes_seq !! i = Some tok -> Py.int16 tok = None -> P i opcodes None) ->
  (forall i opcodes tok byte_val,
      bytes_seq !! i = Some tok -> Py.int16 tok = Some byte_val ->
      let i' := (i + snd (decode_byte byte_val))%nat in
      let opcodes' := opcodes ++ [fst (decode_byte byte_val)] in
      P i' opcodes' (decode_loop bytes_seq i' opcodes') ->
      P i opcodes (decode_loop bytes_seq i' opcodes')) ->
  forall i opcodes, P i opcodes (decode_loop bytes_seq i opcodes).
Proof.
  intros Hend Herr Hstep i.
  remember (length bytes_seq - i)%nat as m eqn:Hm.
  revert i Hm. induction (lt_wf m) as [m _ IH]. intros i Hm opcodes.
  rewrite decode_loop_unfold.
  destruct (bytes_seq !! i) as [tok|] eqn:Hi; [|by apply Hend].
  destruct (Py.int16 tok) as [byte_val|] eqn:Hb; [|by eapply Herr].
  eapply Hstep; [done..|].
  eapply IH; [|reflexivity].
  apply lookup_lt_Some in Hi.
  pose proof (decode_byte_advance byte_val). lia.
Qed.

End decode_loop_properties.

(** ** Bytecode decoder: tokens *)

Section token_properties.

(** Induction on a text, two characters at a time. *)
Lemma string_pair_ind (P : string -> Prop) :
  P "" -> (forall a, P (String a "")) ->
  (forall a b s, P s -> P (String a (String b s))) ->
  forall s, P s.
Proof.
  intros H0 H1 H2.
  fix IH 1. intros [|a [|b s]]; [exact H0 | apply H1 | apply H2, IH].
Qed.

(** The even indices of a text two characters longer. *)
Lemma range2_SS n :
  Py.range2 (S (S n)) = 0%nat :: map (fun i => S (S i)) (Py.range2 n).
Proof.
  unfold Py.range2.
  change (Nat.div2 (S (S (S n)))) with (S (Nat.div2 (S n))).
  cbn [seq map]. f_equal.
  rewrite <- seq_shift, !map_map. apply map_ext. intros k. lia.
Qed.

(** The slices of the source are the tokens of [chunks2]. *)
Lemma split_bytes_chunks2 code : split_bytes code = chunks2 code.
Proof.
  induction code as [|a|a b s IH] using string_pair_ind; [reflexivity..|].
  unfold split_bytes in *. cbn [String.length chunks2].
  rewrite range2_SS. cbn [map]. f_equal; [by destruct s|].
  rewrite map_map. exact IH.
Qed.

(** One token per two characters, rounded up. *)
Lemma chunks2_length code :
  length (chunks2 code) = Nat.div2 (S (String.length code)).
Proof.
  induction code as [|a|a b s IH] using string_pair_ind; [reflexivity..|].
  cbn [chunks2 length String.length]. rewrite IH. reflexivity.
Qed.

(** After an even number of characters the tokens start afresh. *)
Lemma chunks2_app_even s t :
  Nat.Even (String.length s) -> chunks2 (s +:+ t) = chunks2 s ++ chunks2 t.
Proof.
  induction s as [|a|a b s IH] using string_pair_ind; intros Hev.
  - reflexivity.
  - destruct Hev as [k Hk]. cbn in Hk. lia.
  - simpl. f_equal. apply IH.
    destruct Hev as [k Hk]. cbn in Hk. exists (k - 1)%nat. lia.
Qed.

(** A hexadecimal digit is no blank and no sign, and its value is below
    16. *)
Lemma hex_digit_facts c v :
  Py.hex_digit c = Some v ->
  Py.isspace c = false /\ Ascii.eqb c "+" = false /\ Ascii.eqb c "-" = false
  /\ 0 <= v < 16.
Proof.
  destruct c as [[] [] [] [] [] [] [] []]; vm_compute; intros H;
    first [discriminate H | injection H as <-; repeat split; congruence].
Qed.

(** [int] on one hexadecimal digit. *)
Lemma int16_digit d v :
  Py.hex_digit d = Some v -> Py.int16 (String d "") = Some v.
Proof.
  intros H. destruct (hex_digit_facts _ _ H) as (Hs & Hp & Hm & _).
  unfold Py.int16, Py.strip. cbn [list_ascii_of_string Py.lstrip rev app].
  rewrite Hs. cbn [rev app Py.lstrip]. rewrite Hs. cbn [rev app].
  rewrite Hp, Hm. cbn [Py.hex_digits]. rewrite H. reflexivity.
Qed.

(** [int] on two hexadecimal digits. *)
Lemma int16_two_digits a b u v :
  Py.hex_digit a = Some u -> Py.hex_digit b = Some v ->
  Py.int16 (String a (String b "")) = Some (16 * u + v).
Proof.
  intros Ha Hb.
  destruct (hex_digit_facts _ _ Ha) as (Hsa & Hp & Hm & _).
  destruct (hex_digit_facts _ _ Hb) as (Hsb & _).
  unfold Py.int16, Py.strip. cbn [list_ascii_of_string Py.lstrip rev app].
  rewrite Hsa. cbn [rev app Py.lstrip]. rewrite Hsb. cbn [rev app].
  rewrite Hp, Hm. cbn [Py.hex_digits]. rewrite Ha, Hb.
  f_equal; lia.
Qed.

(** A lone digit is read as the byte a leading zero would give. *)
Lemma int16_lone_digit d :
  is_hex_char d = true ->
  Py.int16 (String d "") = Py.int16 (String "0" (String d "")).
Proof.
  unfold is_hex_char. destruct (Py.hex_digit d) as [v|] eqn:Hd; [intros _|discriminate].
  rewrite (int16_digit _ _ Hd).
  rewrite (int16_two_digits "0" d 0 v) by (reflexivity || exact Hd).
  f_equal.
Qed.

(** Every token of a hexadecimal text parses. *)
Lemma chunks2_hex_parse code :
  is_hex_string code = true ->
  Forall (fun tok => is_Some (Py.int16 tok)) (chunks2 code).
Proof.
  unfold is_hex_char.
  induction code as [|a|a b s IH] using string_pair_ind; cbn [is_hex_string chunks2].
  - constructor.
  - unfold is_hex_char. destruct (Py.hex_digit a) eqn:Ha; [|discriminate].
    intros _. repeat constructor. rewrite (int16_digit _ _ Ha). eauto.
  - unfold is_hex_char at 1 2.
    destruct (Py.hex_digit a) eqn:Ha; [|discriminate].
    destruct (Py.hex_digit b) eqn:Hb; [|discriminate].
    intros H. constructor; [|by apply IH].
    rewrite (int16_two_digits _ _ _ _ Ha Hb). eauto.
Qed.

End token_properties.

(** ** Bytecode decoder: results *)

Section decoder_properties.

(** A numbered name is in its family when the number is in range. *)
Lemma family_member (prefix : string) (lo len k : Z) :
  lo <= k < lo + len ->
  prefix +:+ pretty k ∈ map (fun k : Z => prefix +:+ pretty k) (seqZ lo len).
Proof.
  intros Hk. apply (list_elem_of_fmap_2 (fun k : Z => prefix +:+ pretty k)).
  apply elem_of_seqZ. lia.
Qed.

(** Whatever the byte, the name the loop appends is a known one. *)
Lemma decode_byte_known byte_val : known_name (decode_byte byte_val).1.
Proof.
  unfold decode_byte, known_name, MNEMONICS.
  repeat match goal with
         | |- context [if ?b then _ else _] => destruct b eqn:?
         end; cbn [fst].
  - left. apply elem_of_app. left. apply family_member. lia.
  - left. do 1 (apply elem_of_app; right). apply elem_of_app. left.
    apply family_member. lia.
  - left. do 2 (apply elem_of_app; right). apply elem_of_app. left.
    apply family_member. lia.
  - left. do 3 (apply elem_of_app; right). apply elem_of_app. left.
    apply family_member. lia.
  - destruct (OPCODE_MAP !! byte_val) as [name|] eqn:Hname; cbn [default].
    + left. do 4 (apply elem_of_app; right).
      apply elem_of_list_to_map_2 in Hname.
      apply (list_elem_of_fmap_2 snd) in Hname. exact Hname.
    + right. reflexivity.
Qed.

(** When every token parses the loop returns, and with known names only. *)
Lemma decode_loop_total bytes_seq :
  Forall (fun tok => is_Some (Py.int16 tok)) bytes_seq ->
  forall i opcodes, Forall known_name opcodes ->
  exists result, decode_loop bytes_seq i opcodes = Some result
                 /\ Forall known_name result.
Proof.
  intros Hparse.
  apply (decode_loop_rect bytes_seq
           (fun i opcodes r => Forall known_name opcodes ->
                               exists result, r = Some result /\ Forall known_name result)).
  - intros i opcodes _ Hk. eauto.
  - intros i opcodes tok Hi Hb.
    rewrite Forall_lookup in Hparse. destruct (Hparse _ _ Hi) as [b Hb'].
    congruence.
  - intros i opcodes tok byte_val Hi Hb i' opcodes' IH Hk.
    apply IH. apply Forall_app. split; [exact Hk|].
    constructor; [apply decode_byte_known | constructor].
Qed.

(** The result holds one opcode per iteration, and an iteration consumes
    at least one token. *)
Lemma decode_loop_length bytes_seq i opcodes result :
  decode_loop bytes_seq i opcodes = Some result ->
  (length result <= length opcodes + (length bytes_seq - i))%nat.
Proof.
  revert i opcodes result.
  apply (decode_loop_rect bytes_seq
           (fun i opcodes r => forall result, r = Some result ->
              (length result <= length opcodes + (length bytes_seq - i))%nat)).
  - intros i opcodes _ result [= <-]. lia.
  - intros i opcodes tok _ _ result [=].
  - intros i opcodes tok byte_val Hi Hb i' opcodes' IH result Hr.
    specialize (IH result Hr). subst i' opcodes'.
    rewrite length_app in IH. cbn [length] in IH.
    apply lookup_lt_Some in Hi.
    pose proof (decode_byte_advance byte_val). lia.
Qed.

(** The loop reads its tokens only through [int]. *)
Lemma decode_loop_ext bytes_seq bytes_seq' :
  map Py.int16 bytes_seq = map Py.int16 bytes_seq' ->
  forall i opcodes,
    decode_loop bytes_seq i opcodes = decode_loop bytes_seq' i opcodes.
Proof.
  intros Heq.
  assert (Hl : forall j, Py.int16 <$> bytes_seq !! j = Py.int16 <$> bytes_seq' !! j).
  { intros j. rewrite <- !list_lookup_fmap. unfold fmap, list_fmap.
    fold (map Py.int16 bytes_seq). fold (map Py.int16 bytes_seq').
    by rewrite Heq. }
  apply (decode_loop_rect bytes_seq
           (fun i opcodes r => r = decode_loop bytes_seq' i opcodes)).
  - intros i opcodes Hi. rewrite decode_loop_unfold.
    specialize (Hl i). rewrite Hi in Hl.
    destruct (bytes_seq' !! i); [discriminate Hl|reflexivity].
  - intros i opcodes tok Hi Hb. rewrite decode_loop_unfold.
    specialize (Hl i). rewrite Hi in Hl.
    destruct (bytes_seq' !! i) as [tok'|]; [|discriminate Hl].
    injection Hl as Hl. rewrite <- Hl, Hb. reflexivity.
  - intros i opcodes tok byte_val Hi Hb i' opcodes' IH.
    rewrite (decode_loop_unfold bytes_seq' i).
    specialize (Hl i). rewrite Hi in Hl.
    destruct (bytes_seq' !! i) as [tok'|]; [|discriminate Hl].
    injection Hl as Hl. rewrite <- Hl, Hb. exact IH.
Qed.

(** The operand of a PUSH is skipped unread, the unknown byte has the
    sentinel, and a token that is read must parse. *)
Example decode_skips_unparsed_operand :
  decode_evm_bytecode "0x60zz5b" = Some ["PUSH1"; "JUMPDEST"].
Proof. vm_compute. reflexivity. Qed.

Example decode_rejects_non_hex : decode_evm_bytecode "0xzz" = None.
Proof. vm_compute. reflexivity. Qed.

Example decode_unknown_byte : decode_evm_bytecode "0x0c" = Some ["UNKNOWN"].
Proof. vm_compute. reflexivity. Qed.

(** C5: on every valid hex string, with or without the [0x] prefix, the
    decoder returns (it is a function, so the result is determined by the
    input, and the result is a value, not an exception), and every name it
    returns is in the fixed mnemonic set or is UNKNOWN. *)
Theorem decode_total_on_valid_hex bytecode :
  valid_hex bytecode ->
  exists opcodes,
    decode_evm_bytecode bytecode = Some opcodes
    /\ (forall opcodes', decode_evm_bytecode bytecode = Some opcodes' ->
                         opcodes' = opcodes)
    /\ Forall known_name opcodes.
Proof.
  intros Hvalid.
  destruct (decode_loop_total (split_bytes (hex_code bytecode))) with (i := 0%nat)
    (opcodes := @nil string) as (opcodes & Hdec & Hknown).
  - rewrite split_bytes_chunks2. apply chunks2_hex_parse. exact Hvalid.
  - constructor.
  - exists opcodes. unfold decode_evm_bytecode. rewrite Hdec.
    split; [reflexivity|]. split; [congruence|exact Hknown].
Qed.

(** PUSH1 0x01, PUSH1 0x02, ADD. *)
Lemma decode_total_on_valid_hex_witness :
  exists opcodes,
    decode_evm_bytecode "0x6001600201" = Some opcodes
    /\ (forall opcodes', decode_evm_bytecode "0x6001600201" = Some opcodes' ->
                         opcodes' = opcodes)
    /\ Forall known_name opcodes.
Proof.
  apply (decode_total_on_valid_hex "0x6001600201"). vm_compute. reflexivity.
Defined.

End decoder_properties.

(** ** Bytecode decoder: push operands and odd-length input *)

Section push_and_padding.

(** C4: with the cursor [i] on a byte of [0x60..0x7f] the loop appends
    PUSHk for [k = byte - 0x5f] and continues at [i + k + 1], whatever the
    number of tokens left; when fewer than [k] tokens follow the opcode the
    loop ends there with that PUSHk as last opcode.  And a decoded sequence
    is never longer than the sequence of byte tokens it was read from, which
    has one token per two characters of the hex text. *)
Theorem push_skips_its_operand :
  (forall bytes_seq i opcodes tok byte_val,
      bytes_seq !! i = Some tok ->
      Py.int16 tok = Some byte_val ->
      0x60 <= byte_val <= 0x7f ->
      let k := byte_val - 0x5f in
      1 <= k <= 32
      /\ decode_loop bytes_seq i opcodes
         = decode_loop bytes_seq (i + (Z.to_nat k + 1)) (opcodes ++ ["PUSH" +:+ pretty k])
      /\ ((length bytes_seq - (i + 1) < Z.to_nat k)%nat ->
          decode_loop bytes_seq i opcodes = Some (opcodes ++ ["PUSH" +:+ pretty k])))
  /\ (forall bytes_seq opcodes,
         decode_loop bytes_seq 0 [] = Some opcodes ->
         (length opcodes <= length bytes_seq)%nat)
  /\ (forall bytecode opcodes,
         decode_evm_bytecode bytecode = Some opcodes ->
         (length opcodes <= length (split_bytes (hex_code bytecode)))%nat
         /\ length (split_bytes (hex_code bytecode))
            = Nat.div2 (S (String.length (hex_code bytecode)))).
Proof.
  split; [|split].
  - intros bytes_seq i opcodes tok byte_val Hi Hb Hrange k.
    assert (Hstep : decode_byte byte_val
                    = ("PUSH" +:+ pretty k, (1 + Z.to_nat k)%nat)).
    { unfold decode_byte.
      destruct (Z.leb_spec 0x60 byte_val); [|lia].
      destruct (Z.leb_spec byte_val 0x7f); [|lia]. reflexivity. }
    assert (Hnext : decode_loop bytes_seq i opcodes
                    = decode_loop bytes_seq (i + (Z.to_nat k + 1))
                        (opcodes ++ ["PUSH" +:+ pretty k])).
    { rewrite (decode_loop_unfold bytes_seq i), Hi, Hb, Hstep. cbn [fst snd].
      f_equal. lia. }
    split; [subst k; lia|]. split; [exact Hnext|].
    intros Hshort. rewrite Hnext, decode_loop_unfold.
    rewrite (lookup_ge_None_2 bytes_seq) by lia. reflexivity.
  - intros bytes_seq opcodes Hdec.
    apply decode_loop_length in Hdec. cbn [length] in Hdec. lia.
  - intros bytecode opcodes Hdec. unfold decode_evm_bytecode in Hdec.
    apply decode_loop_length in Hdec. cbn [length] in Hdec.
    split; [lia|].
    rewrite split_bytes_chunks2. apply chunks2_length.
Qed.

(** PUSH32 followed by a single operand byte: the cursor moves from 0 to
    33, past the end of the two tokens. *)
Lemma push_skips_its_operand_witness :
  decode_loop ["7f"; "00"] 0 [] = decode_loop ["7f"; "00"] 33 ["PUSH32"]
  /\ decode_loop ["7f"; "00"] 0 [] = Some ["PUSH32"]
  /\ (length ["PUSH32"] <= length ["7f"; "00"])%nat.
Proof.
  destruct push_skips_its_operand as (Hpush & Hlen & _).
  destruct (Hpush ["7f"; "00"] 0%nat [] "7f" 0x7f
              ltac:(reflexivity) ltac:(vm_compute; reflexivity) ltac:(lia))
    as (_ & Hnext & Hshort).
  split; [exact Hnext|]. split.
  - apply Hshort. vm_compute. lia.
  - apply (Hlen ["7f"; "00"] ["PUSH32"]). vm_compute. reflexivity.
Defined.

(** The two equations of [+:+]. *)
Lemma append_nil t : "" +:+ t = t.
Proof. reflexivity. Qed.

Lemma append_cons a s t : String a s +:+ t = String a (s +:+ t).
Proof. reflexivity. Qed.

(** Padding a text that ends in [d]. *)
Lemma pad_last_snoc body d :
  pad_last (body +:+ String d "") = body +:+ String "0" (String d "").
Proof.
  induction body as [|c body IH]; [reflexivity|].
  change (String c body +:+ String d "") with (String c (body +:+ String d "")).
  cbn [pad_last]. rewrite IH.
  destruct body; reflexivity.
Qed.

(** [startswith] for a prefix of two characters. *)
Lemma startswith_two p q s :
  Py.startswith s (String p (String q ""))
  = match s with
    | String a (String b _) => Ascii.eqb p a && Ascii.eqb q b
    | _ => false
    end.
Proof.
  unfold Py.startswith. destruct s as [|a [|b rest]]; cbn [String.prefix].
  - reflexivity.
  - destruct (Ascii.ascii_dec p a); reflexivity.
  - destruct (Ascii.ascii_dec p a) as [->|Hp].
    + rewrite Ascii.eqb_refl.
      destruct (Ascii.ascii_dec q b) as [->|Hq].
      * rewrite Ascii.eqb_refl. by destruct rest.
      * apply Ascii.eqb_neq in Hq. by rewrite Hq.
    + apply Ascii.eqb_neq in Hp. by rewrite Hp.
Qed.

(** Padding the input pads its hex portion, when that ends in a digit. *)
Lemma hex_code_pad_last bytecode body d :
  hex_code bytecode = body +:+ String d "" ->
  is_hex_char d = true ->
  hex_code (pad_last bytecode) = body +:+ String "0" (String d "").
Proof.
  intros Hcode Hd. unfold hex_code in *. rewrite startswith_two in *.
  destruct bytecode as [|a [|b rest]].
  - destruct body; discriminate Hcode.
  - destruct body as [|? body]; [|destruct body; discriminate Hcode].
    injection Hcode as ->. rewrite append_nil. cbn [pad_last].
    rewrite Ascii.eqb_refl.
    destruct (Ascii.eqb_spec "x" d) as [<-|]; [discriminate Hd|reflexivity].
  - destruct (Ascii.eqb "0" a && Ascii.eqb "x" b) eqn:Hpre.
    + apply andb_prop in Hpre as [<-%Ascii.eqb_eq <-%Ascii.eqb_eq].
      cbn [Py.slice_from] in Hcode. subst rest.
      rewrite <- pad_last_snoc.
      destruct body as [|c body]; [reflexivity|].
      change (String c body +:+ String d "") with (String c (body +:+ String d "")).
      cbn [pad_last]. reflexivity.
    + rewrite Hcode, pad_last_snoc.
      destruct body as [|a' [|b' body]]; try discriminate Hcode.
      * injection Hcode as -> ->. rewrite !append_cons, append_nil.
        replace (Ascii.eqb "x" "0") with false by reflexivity.
        by rewrite andb_false_r.
      * injection Hcode as -> -> _. rewrite !append_cons. by rewrite Hpre.
Qed.

End push_and_padding.

Section odd_length_input.

(** A text that is not empty has a last character. *)
Lemma string_snoc s :
  s <> "" ->
  exists body d, s = body +:+ String d ""
                 /\ String.length s = S (String.length body).
Proof.
  induction s as [|c s IH]; [congruence|]. intros _.
  destruct s as [|c' s].
  - exists "", c. split; reflexivity.
  - destruct IH as (body & d & Hs & Hlen); [congruence|].
    exists (String c body), d. rewrite append_cons, <- Hs.
    split; [reflexivity|]. cbn [String.length] in *. lia.
Qed.

(** The last character of a hexadecimal text is a digit. *)
Lemma is_hex_string_last body d :
  is_hex_string (body +:+ String d "") = true -> is_hex_char d = true.
Proof.
  induction body as [|c body IH].
  - rewrite append_nil. cbn [is_hex_string]. rewrite andb_true_r. auto.
  - rewrite append_cons. cbn [is_hex_string].
    intros [_ H]%andb_prop. auto.
Qed.

(** C2, as stated, fails: ["0x5b1"] has three hex digits, and its decode
    is not the decode of ["0x5b"]. *)
Lemma trailing_digit_is_not_dropped :
  valid_hex "0x5b1"
  /\ Nat.Odd (String.length (hex_code "0x5b1"))
  /\ decode_evm_bytecode "0x5b1" <> decode_evm_bytecode (drop_last "0x5b1").
Proof.
  split; [reflexivity|]. split; [exists 1%nat; reflexivity|].
  vm_compute. discriminate.
Qed.

(** C2, amended: when the hex portion of the input has an odd number of
    hex digits, the trailing lone digit is not dropped; it forms a token of
    its own that is read as a byte with the digit's value, so the input
    decodes as the same string with a ["0"] inserted before its last
    character. *)
Theorem trailing_digit_is_zero_padded bytecode :
  valid_hex bytecode ->
  Nat.Odd (String.length (hex_code bytecode)) ->
  decode_evm_bytecode bytecode = decode_evm_bytecode (pad_last bytecode).
Proof.
  intros Hvalid Hodd.
  destruct (string_snoc (hex_code bytecode)) as (body & d & Hcode & Hlen).
  { intros Hnil. rewrite Hnil in Hodd. destruct Hodd as [k Hk].
    cbn [String.length] in Hk. lia. }
  assert (Hd : is_hex_char d = true).
  { apply (is_hex_string_last body). rewrite <- Hcode. exact Hvalid. }
  assert (Hev : Nat.Even (String.length body)).
  { destruct Hodd as [k Hk]. exists k. lia. }
  unfold decode_evm_bytecode.
  rewrite (hex_code_pad_last _ _ _ Hcode Hd), Hcode.
  rewrite !split_bytes_chunks2, !chunks2_app_even by exact Hev.
  apply decode_loop_ext. rewrite !map_app. f_equal.
  cbn [chunks2 map]. f_equal. apply int16_lone_digit, Hd.
Qed.

(** JUMPDEST followed by the lone digit 1. *)
Lemma trailing_digit_is_zero_padded_witness :
  decode_evm_bytecode "0x5b1" = decode_evm_bytecode "0x5b01".
Proof.
  apply (trailing_digit_is_zero_padded "0x5b1").
  - vm_compute. reflexivity.
  - exists 1%nat. vm_compute. reflexivity.
Defined.

End odd_length_input.

(** ** Bytecode analyzer: recommendations *)

Section recommendation_properties.

(** Length and right cancellation of [+:+]. *)
Lemma length_append s t :
  String.length (s +:+ t) = (String.length s + String.length t)%nat.
Proof.
  induction s as [|c s IH]; [reflexivity|].
  rewrite append_cons. cbn [String.length]. by rewrite IH.
Qed.

Lemma append_inj_r s1 s2 t : s1 +:+ t = s2 +:+ t -> s1 = s2.
Proof.
  revert s2. induction s1 as [|c s1 IH]; intros [|c' s2] H.
  - reflexivity.
  - apply (f_equal String.length) in H.
    rewrite append_nil, append_cons in H. cbn [String.length] in H.
    rewrite length_append in H. lia.
  - apply (f_equal String.length) in H.
    rewrite append_nil, append_cons in H. cbn [String.length] in H.
    rewrite length_append in H. lia.
  - rewrite !append_cons in H. injection H as -> H. f_equal. by apply IH.
Qed.

(** A message determines the number it reports. *)
Lemma sstore_message_inj m n : sstore_message m = sstore_message n -> m = n.
Proof.
  unfold sstore_message. intros H.
  apply String.app_inj, append_inj_r in H. by apply pretty_Z_inj in H.
Qed.

Ltac distinct_messages :=
  unfold sstore_message, log_message, call_message, unknown_message,
    generic_message;
  rewrite !append_cons; intros H; discriminate H.

(** The five messages start differently. *)
Lemma sstore_not_log m n : sstore_message m <> log_message n.
Proof. distinct_messages. Qed.
Lemma sstore_not_call m n : sstore_message m <> call_message n.
Proof. distinct_messages. Qed.
Lemma sstore_not_unknown m n : sstore_message m <> unknown_message n.
Proof. distinct_messages. Qed.
Lemma sstore_not_generic m : sstore_message m <> generic_message.
Proof. distinct_messages. Qed.
Lemma log_not_generic m : log_message m <> generic_message.
Proof. distinct_messages. Qed.
Lemma call_not_generic m : call_message m <> generic_message.
Proof. distinct_messages. Qed.
Lemma unknown_not_generic m : unknown_message m <> generic_message.
Proof. distinct_messages. Qed.

(** The sum over [range(5)], term by term. *)
Lemma log_total_unfold counts :
  log_total counts
  = get0 counts "LOG0" + get0 counts "LOG1" + get0 counts "LOG2"
    + get0 counts "LOG3" + get0 counts "LOG4".
Proof.
  unfold log_total. change (seqZ 0 5) with [0; 1; 2; 3; 4]. cbn [map foldr].
  change ("LOG" +:+ pretty 0) with "LOG0".
  change ("LOG" +:+ pretty 1) with "LOG1".
  change ("LOG" +:+ pretty 2) with "LOG2".
  change ("LOG" +:+ pretty 3) with "LOG3".
  change ("LOG" +:+ pretty 4) with "LOG4".
  lia.
Qed.

(** The recommendations of the analysis, in terms of the occurrences. *)
Lemma analyze_opcodes_recommendations ops :
  recommendations (analyze_opcodes ops)
  = match specific_recommendations ops with
    | [] => [generic_message]
    | recs => recs
    end.
Proof.
  unfold specific_recommendations, sstore_count, log_ops, call_ops, unknown_ops.
  rewrite <- !analyze_opcodes_counts.
  unfold analyze_opcodes.
  destruct (fold_left tally ops (∅, 0)) as [counts gas].
  cbn [opcode_counts recommendations].
  rewrite log_total_unfold. unfold rule.
  destruct (10 <? get0 counts "SSTORE"), (10 <? _), (5 <? _),
    (0 <? get0 counts "UNKNOWN"); reflexivity.
Qed.

End recommendation_properties.

Section rule_properties.

(** Membership in what one rule contributes. *)
Lemma elem_of_rule x fires msg :
  x ∈ rule fires msg <-> fires = true /\ x = msg.
Proof.
  destruct fires; cbn [rule].
  - rewrite list_elem_of_singleton. tauto.
  - split; [intros H; inversion H | intros [? _]; discriminate].
Qed.

(** The analysis of an input the decoder accepts. *)
Lemma analyze_bytecode_decode bytecode ops :
  decode_evm_bytecode bytecode = Some ops ->
  analyze_bytecode bytecode = Some (analyze_opcodes ops).
Proof. unfold analyze_bytecode. by intros ->. Qed.

(** Either no rule fired and the list is the generic message, or the list
    is what the rules gave. *)
Lemma specific_or_generic ops :
  (specific_recommendations ops = []
   /\ recommendations (analyze_opcodes ops) = [generic_message])
  \/ (specific_recommendations ops <> []
      /\ recommendations (analyze_opcodes ops) = specific_recommendations ops).
Proof.
  rewrite analyze_opcodes_recommendations.
  destruct (specific_recommendations ops); [left|right]; done.
Qed.

(** Membership in what the four rules gave. *)
Lemma elem_of_specific x ops :
  x ∈ specific_recommendations ops <->
  (10 < sstore_count ops /\ x = sstore_message (sstore_count ops))
  \/ (10 < log_ops ops /\ x = log_message (log_ops ops))
  \/ (5 < call_ops ops /\ x = call_message (call_ops ops))
  \/ (0 < unknown_ops ops /\ x = unknown_message (unknown_ops ops)).
Proof.
  unfold specific_recommendations.
  rewrite !elem_of_app, !elem_of_rule, !Z.ltb_lt. tauto.
Qed.

(** C6: the SSTORE recommendation is in the result exactly when SSTORE
    occurs more than 10 times in the decoded sequence, and the number it
    reports is the number of occurrences; so 11 occurrences give the
    recommendation with 11, and 10 occurrences give none. *)
Theorem sstore_rule_is_strict bytecode ops :
  decode_evm_bytecode bytecode = Some ops ->
  exists r,
    analyze_bytecode bytecode = Some r
    /\ get0 (opcode_counts r) "SSTORE" = sstore_count ops
    /\ ((exists m, sstore_message m ∈ recommendations r) <-> 10 < sstore_count ops)
    /\ (forall m, sstore_message m ∈ recommendations r -> m = sstore_count ops)
    /\ (sstore_count ops = 11 -> sstore_message 11 ∈ recommendations r)
    /\ (sstore_count ops = 10 -> forall m, sstore_message m ∉ recommendations r).
Proof.
  intros Hdec. exists (analyze_opcodes ops).
  split; [by apply analyze_bytecode_decode|].
  split; [apply analyze_opcodes_counts|].
  assert (Hin : forall m, sstore_message m ∈ recommendations (analyze_opcodes ops)
                          <-> 10 < sstore_count ops /\ m = sstore_count ops).
  { intros m. split.
    - intros Hm.
      destruct (specific_or_generic ops) as [[_ Hr]|[_ Hr]]; rewrite Hr in Hm.
      + apply list_elem_of_singleton in Hm. by apply sstore_not_generic in Hm.
      + apply elem_of_specific in Hm as [[? Hm]|[[_ Hm]|[[_ Hm]|[_ Hm]]]].
        * by apply sstore_message_inj in Hm.
        * by apply sstore_not_log in Hm.
        * by apply sstore_not_call in Hm.
        * by apply sstore_not_unknown in Hm.
    - intros [Hgt ->].
      assert (Hs : sstore_message (sstore_count ops) ∈ specific_recommendations ops)
        by (apply elem_of_specific; auto).
      destruct (specific_or_generic ops) as [[Hnil _]|[_ ->]]; [|exact Hs].
      rewrite Hnil in Hs. inversion Hs. }
  split; [|split; [|split]].
  - split.
    + intros [m Hm]. by apply Hin in Hm as [? _].
    + intros Hgt. exists (sstore_count ops). by apply Hin.
  - intros m Hm. by apply Hin in Hm as [_ ?].
  - intros H11. apply Hin. lia.
  - intros H10 m Hm. apply Hin in Hm. lia.
Qed.

(** Eleven SSTORE bytes. *)
Lemma sstore_rule_is_strict_witness :
  exists r,
    analyze_bytecode "0x5555555555555555555555" = Some r
    /\ get0 (opcode_counts r) "SSTORE" = 11
    /\ ((exists m, sstore_message m ∈ recommendations r) <-> 10 < 11)
    /\ (forall m, sstore_message m ∈ recommendations r -> m = 11)
    /\ (11 = 11 -> sstore_message 11 ∈ recommendations r)
    /\ (11 = 10 -> forall m, sstore_message m ∉ recommendations r).
Proof.
  apply (sstore_rule_is_strict "0x5555555555555555555555" (replicate 11 "SSTORE")).
  vm_compute. reflexivity.
Defined.

(** Eleven and ten SSTORE bytes, evaluated. *)
Example sstore_eleven :
  recommendations <$> analyze_bytecode "0x5555555555555555555555"
  = Some ["Contract performs 11 SSTORE operations. Consider reducing state writes or using cheaper storage patterns."].
Proof. vm_compute. reflexivity. Qed.

Example sstore_ten :
  recommendations <$> analyze_bytecode "0x55555555555555555555"
  = Some [generic_message].
Proof. vm_compute. reflexivity. Qed.

(** C7: when none of the four rules fires the recommendations are the
    generic message alone, and when at least one fires the generic message
    is not among them. *)
Theorem generic_recommendation_iff_no_rule_fires bytecode ops :
  decode_evm_bytecode bytecode = Some ops ->
  exists r,
    analyze_bytecode bytecode = Some r
    /\ ((sstore_count ops <= 10 /\ log_ops ops <= 10
         /\ call_ops ops <= 5 /\ unknown_ops ops <= 0) ->
        recommendations r = [generic_message])
    /\ ((10 < sstore_count ops \/ 10 < log_ops ops
         \/ 5 < call_ops ops \/ 0 < unknown_ops ops) ->
        generic_message ∉ recommendations r).
Proof.
  intros Hdec. exists (analyze_opcodes ops).
  split; [by apply analyze_bytecode_decode|]. split.
  - intros (Hs & Hl & Hc & Hu).
    destruct (specific_or_generic ops) as [[_ Hr]|[Hne _]]; [exact Hr|].
    destruct (specific_recommendations ops) as [|x recs] eqn:Hrecs; [done|].
    assert (Hx : x ∈ specific_recommendations ops)
      by (rewrite Hrecs; apply list_elem_of_here).
    apply elem_of_specific in Hx. lia.
  - intros Hfires Hgen.
    destruct (specific_or_generic ops) as [[Hnil _]|[_ Hr]].
    + assert (Hx : exists x, x ∈ specific_recommendations ops).
      { destruct Hfires as [?|[?|[?|?]]]; eexists; apply elem_of_specific; eauto 6. }
      destruct Hx as [x Hx]. rewrite Hnil in Hx. inversion Hx.
    + rewrite Hr in Hgen.
      apply elem_of_specific in Hgen as [[_ Hm]|[[_ Hm]|[[_ Hm]|[_ Hm]]]];
        symmetry in Hm.
      * by apply sstore_not_generic in Hm.
      * by apply log_not_generic in Hm.
      * by apply call_not_generic in Hm.
      * by apply unknown_not_generic in Hm.
Qed.

(** PUSH1 0x01, PUSH1 0x02, ADD: no rule fires. *)
Lemma generic_recommendation_iff_no_rule_fires_witness :
  exists r,
    analyze_bytecode "0x6001600201" = Some r
    /\ ((0 <= 10 /\ 0 <= 10 /\ 0 <= 5 /\ 0 <= 0) ->
        recommendations r = [generic_message])
    /\ ((10 < 0 \/ 10 < 0 \/ 5 < 0 \/ 0 < 0) ->
        generic_message ∉ recommendations r).
Proof.
  apply (generic_recommendation_iff_no_rule_fires
           "0x6001600201" ["PUSH1"; "PUSH1"; "ADD"]).
  vm_compute. reflexivity.
Defined.

End rule_properties.

(** ** Forecasting *)

Section forecast_properties.
Import Forecast.
Local Open Scope float_scope.

(** [[x] * k] is [k] copies of [x], none when [k <= 0]. *)
Lemma list_mul_singleton {A} (x : A) (k : Z) :
  Py.list_mul [x] k = replicate (Z.to_nat k) x.
Proof.
  unfold Py.list_mul. induction (Z.to_nat k) as [|n IH]; [reflexivity|].
  cbn [replicate concat app]. by rewrite IH.
Qed.

(** C8: on a series of fewer than two values the forecast returns (it does
    not raise) the last observed value, 0.0 for the empty series, repeated
    [horizon] times, with slope 0.0.  The repetition is Python's
    [[last_val] * horizon]: exactly [horizon] copies for a horizon that is a
    count, and no copy at all for a negative one. *)
Theorem forecast_short_series_repeats_last values horizon :
  (length values < 2)%nat ->
  exists r,
    forecast_time_series values horizon = Some r
    /\ predictions r = replicate (Z.to_nat horizon) (last_value values)
    /\ Z.of_nat (length (predictions r)) = Z.max 0 horizon
    /\ Forall (eq (last_value values)) (predictions r)
    /\ slope r = 0
    /\ intercept r = last_value values.
Proof.
  intros Hshort. unfold forecast_time_series.
  destruct (Nat.ltb_spec (length values) 2) as [_|]; [|lia].
  eexists. split; [reflexivity|]. cbn [predictions slope intercept].
  assert (Hlast : match values with [] => 0 | _ :: _ => List.last values 0 end
                  = last_value values) by (by destruct values).
  rewrite Hlast, list_mul_singleton.
  repeat split.
  - rewrite length_replicate. lia.
  - apply Forall_replicate. reflexivity.
Qed.

(** A single observation 7 and a horizon of 3. *)
Lemma forecast_short_series_repeats_last_witness :
  exists r,
    forecast_time_series [7] 3 = Some r
    /\ predictions r = [7; 7; 7]
    /\ Z.of_nat (length (predictions r)) = 3%Z
    /\ Forall (eq 7) (predictions r)
    /\ slope r = 0
    /\ intercept r = 7.
Proof.
  apply (forecast_short_series_repeats_last [7] 3). cbn [length]. lia.
Defined.

(** The series 1, 2, 3 continues with 4 and 5; the empty series and a
    negative horizon. *)
Example forecast_linear_series :
  forecast_time_series [1; 2; 3] 2
  = Some {| predictions := [4; 5]; slope := 1; intercept := 1 |}.
Proof. vm_compute. reflexivity. Qed.

Example forecast_empty_series :
  forecast_time_series [] 2
  = Some {| predictions := [0; 0]; slope := 0; intercept := 0 |}.
Proof. reflexivity. Qed.

Example forecast_negative_horizon :
  forecast_time_series [7] (-1)
  = Some {| predictions := []; slope := 0; intercept := 7 |}.
Proof. reflexivity. Qed.

End forecast_properties.

(** ** Liquidity and bridge flows *)

Section liquidity_properties.
Import Liquidity.

(** An event of an unrecognized type registers its protocol, with the
    balance the protocol already had, and leaves the bridge map alone. *)
Lemma record_event_unrecognized tvl bridge_map ev :
  recognized ev = false ->
  record_event (tvl, bridge_map) ev
  = (<[protocol ev := tvl_of tvl (protocol ev)]> tvl, bridge_map).
Proof.
  unfold recognized, record_event. intros H.
  apply orb_false_elim in H as [H Hin].
  apply orb_false_elim in H as [H Hout].
  apply orb_false_elim in H as [Hs Hu].
  by rewrite Hs, Hu, Hout, Hin.
Qed.

(** Every event makes its protocol a key, and removes none. *)
Lemma record_event_keys st ev p :
  is_Some ((record_event st ev).1 !! p)
  <-> p = protocol ev \/ is_Some (st.1 !! p).
Proof.
  destruct st as [tvl bridge_map]. unfold record_event.
  repeat match goal with
         | |- context [if ?b then _ else _] => destruct b
         end; cbn [fst];
    rewrite ?lookup_insert_is_Some;
    destruct (decide (protocol ev = p)) as [<-|Hne]; intuition congruence.
Qed.

(** The balance a state shows for [p] after an event depends only on the
    balance it showed before, and the bridge map only on the bridge map. *)
Lemma record_event_agree st st' ev :
  st.2 = st'.2 ->
  (forall p, tvl_of st.1 p = tvl_of st'.1 p) ->
  (record_event st ev).2 = (record_event st' ev).2
  /\ forall p, tvl_of (record_event st ev).1 p = tvl_of (record_event st' ev).1 p.
Proof.
  destruct st as [tvl bm], st' as [tvl' bm']. cbn [fst snd].
  intros <- Hagree. unfold record_event.
  rewrite !lookup_insert_eq. cbn [default].
  fold (tvl_of tvl (protocol ev)). fold (tvl_of tvl' (protocol ev)).
  rewrite <- (Hagree (protocol ev)).
  repeat match goal with
         | |- context [if ?b then _ else _] => destruct b
         end; cbn [fst snd]; (split; [reflexivity|]); intros p; unfold tvl_of;
    destruct (decide (protocol ev = p)) as [<-|Hne];
    rewrite ?lookup_insert_eq, ?lookup_insert_ne by done; try reflexivity;
    apply Hagree.
Qed.

(** An event of an unrecognized type changes no balance and no flow. *)
Lemma record_event_skip st ev :
  recognized ev = false ->
  (record_event st ev).2 = st.2
  /\ forall p, tvl_of (record_event st ev).1 p = tvl_of st.1 p.
Proof.
  destruct st as [tvl bm]. intros H. rewrite record_event_unrecognized by done.
  split; [reflexivity|]. intros p. cbn [fst]. unfold tvl_of.
  destruct (decide (protocol ev = p)) as [<-|Hne].
  - by rewrite lookup_insert_eq.
  - by rewrite lookup_insert_ne.
Qed.

(** The keys after the loop: the protocols of the events, and the keys
    before it. *)
Lemma fold_keys events st p :
  is_Some ((fold_left record_event events st).1 !! p)
  <-> p ∈ map protocol events \/ is_Some (st.1 !! p).
Proof.
  revert st. induction events as [|ev events IH]; intros st; cbn [fold_left map].
  - rewrite elem_of_nil. tauto.
  - rewrite IH, record_event_keys, elem_of_cons. tauto.
Qed.

(** Running the loop with or without the events of unrecognized type gives
    the same balances and the same bridge map. *)
Lemma fold_skips_unrecognized events st st' :
  st.2 = st'.2 ->
  (forall p, tvl_of st.1 p = tvl_of st'.1 p) ->
  (fold_left record_event events st).2
  = (fold_left record_event (filter (fun ev => recognized ev = true) events) st').2
  /\ forall p,
      tvl_of (fold_left record_event events st).1 p
      = tvl_of (fold_left record_event
                  (filter (fun ev => recognized ev = true) events) st').1 p.
Proof.
  revert st st'. induction events as [|ev events IH]; intros st st' Hb Ht.
  - by split.
  - rewrite filter_cons. cbn [fold_left].
    destruct (decide (recognized ev = true)) as [Hrec|Hrec].
    + cbn [fold_left].
      destruct (record_event_agree st st' ev Hb Ht) as [Hb' Ht'].
      by apply IH.
    + apply not_true_is_false in Hrec.
      destruct (record_event_skip st ev Hrec) as [Hb' Ht'].
      apply IH; [congruence|]. intros p. rewrite Ht'. apply Ht.
Qed.

(** The two fields of the response, in terms of the loop. *)
Lemma analyze_tvl events :
  tvl_by_protocol (analyze_liquidity_bridge events)
  = (fold_left record_event events (∅, [])).1.
Proof.
  unfold analyze_liquidity_bridge.
  by destruct (fold_left record_event events (∅, [])).
Qed.

Lemma analyze_flows events :
  bridge_flows (analyze_liquidity_bridge events)
  = map (fun '((protocol, from_chain, to_chain), total) =>
           {| flow_protocol := protocol; from_chain := from_chain;
              to_chain := to_chain; total_amount := total |})
        (fold_left record_event events (∅, [])).2.
Proof.
  unfold analyze_liquidity_bridge.
  by destruct (fold_left record_event events (∅, [])).
Qed.

(** C10: every protocol an event names is a key of [tvl_by_protocol],
    whatever the event's type; dropping the events of unrecognized type
    from the input changes no bridge flow and no balance, only the presence
    of keys whose balance is then 0.0; so a protocol named only by events of
    unrecognized type has the balance 0.0. *)
Theorem unrecognized_events_only_register_the_protocol events :
  let r := analyze_liquidity_bridge events in
  let r' := analyze_liquidity_bridge
              (filter (fun ev => recognized ev = true) events) in
  (forall p, p ∈ map protocol events <-> is_Some (tvl_by_protocol r !! p))
  /\ bridge_flows r = bridge_flows r'
  /\ (forall p, tvl_of (tvl_by_protocol r) p = tvl_of (tvl_by_protocol r') p)
  /\ (forall p v, tvl_by_protocol r' !! p = Some v -> tvl_by_protocol r !! p = Some v)
  /\ (forall p,
         p ∈ map protocol events ->
         Forall (fun ev => protocol ev = p -> recognized ev = false) events ->
         tvl_by_protocol r !! p = Some 0%float).
Proof.
  intros r r'. subst r r'.
  destruct (fold_skips_unrecognized events (∅, []) (∅, [])) as [Hflows Htvl];
    [done..|].
  assert (Hkeys : forall p, p ∈ map protocol events
                   <-> is_Some (tvl_by_protocol (analyze_liquidity_bridge events) !! p)).
  { intros p. rewrite analyze_tvl, fold_keys. cbn [fst].
    rewrite lookup_empty. split; [auto|]. intros [?|[? [=]]]. done. }
  split; [exact Hkeys|]. split; [by rewrite !analyze_flows, Hflows|].
  split; [intros p; by rewrite !analyze_tvl|]. split.
  - intros p v Hv.
    assert (Hin : p ∈ map protocol events).
    { assert (Hs : is_Some (tvl_by_protocol (analyze_liquidity_bridge
                      (filter (fun ev => recognized ev = true) events)) !! p))
        by eauto.
      rewrite analyze_tvl, fold_keys in Hs. cbn [fst] in Hs.
      rewrite lookup_empty in Hs. destruct Hs as [Hs|[? [=]]].
      apply list_elem_of_fmap in Hs as (ev & -> & Hev).
      apply list_elem_of_filter in Hev as [_ Hev].
      by apply list_elem_of_fmap_2. }
    apply Hkeys in Hin as [w Hw]. rewrite Hw. f_equal.
    specialize (Htvl p). rewrite <- !analyze_tvl in Htvl.
    unfold tvl_of in Htvl. rewrite Hw, Hv in Htvl. exact Htvl.
  - intros p Hin Hall.
    apply Hkeys in Hin as [w Hw]. rewrite Hw. f_equal.
    specialize (Htvl p). rewrite <- !analyze_tvl in Htvl.
    unfold tvl_of in Htvl. rewrite Hw in Htvl. cbn [default] in Htvl.
    unfold id in Htvl. rewrite Htvl.
    destruct (tvl_by_protocol _ !! p) as [v|] eqn:Hv; [|reflexivity].
    exfalso.
    assert (Hs : is_Some (tvl_by_protocol (analyze_liquidity_bridge
                    (filter (fun ev => recognized ev = true) events)) !! p))
      by eauto.
    rewrite analyze_tvl, fold_keys in Hs. cbn [fst] in Hs.
    rewrite lookup_empty in Hs. destruct Hs as [Hs|[? [=]]].
    apply list_elem_of_fmap in Hs as (ev & -> & Hev).
    apply list_elem_of_filter in Hev as [Hrec Hev].
    rewrite Forall_forall in Hall. specialize (Hall ev Hev eq_refl). congruence.
Qed.

End liquidity_properties.

Section liquidity_example.
Import Liquidity.

(** The analysis of [sample_events], evaluated. *)
Example sample_events_analysis :
  tvl_by_protocol (analyze_liquidity_bridge sample_events) !! "aave" = Some 5%float
  /\ tvl_by_protocol (analyze_liquidity_bridge sample_events) !! "lido" = Some 0%float
  /\ tvl_by_protocol (analyze_liquidity_bridge sample_events) !! "maker" = None
  /\ bridge_flows (analyze_liquidity_bridge sample_events) = [].
Proof. vm_compute. auto. Qed.

(** A protocol named only by an event of type ["restake"]. *)
Lemma unrecognized_events_only_register_the_protocol_witness :
  tvl_by_protocol (analyze_liquidity_bridge sample_events) !! "lido" = Some 0%float.
Proof.
  destruct (unrecognized_events_only_register_the_protocol sample_events)
    as (_ & _ & _ & _ & Hzero).
  apply Hzero.
  - cbn [sample_events map protocol]. apply list_elem_of_further, list_elem_of_here.
  - repeat constructor; cbn [protocol]; intros H; first [discriminate H | reflexivity].
Defined.

End liquidity_example.

(** ** Sorting by key *)

Section sorted_properties.
Context {A : Type} (key : A -> Z).

(** Sorting keeps what holds of every element. *)
Lemma insert_by_Forall (P : A -> Prop) x l :
  P x -> Forall P l -> Forall P (Py.insert_by key x l).
Proof.
  intros Hx. induction 1 as [|y l Hy Hl IH]; cbn [Py.insert_by].
  - by repeat constructor.
  - destruct (key x <=? key y); repeat constructor; auto.
Qed.

Lemma sorted_Forall (P : A -> Prop) l : Forall P l -> Forall P (Py.sorted key l).
Proof.
  unfold Py.sorted. induction 1; cbn [foldr]; [constructor|].
  by apply insert_by_Forall.
Qed.

(** Sorting neither adds nor drops an element. *)
Lemma insert_by_perm x l : Py.insert_by key x l ≡ₚ x :: l.
Proof.
  induction l as [|y l IH]; cbn [Py.insert_by]; [done|].
  destruct (key x <=? key y); [done|]. rewrite IH. apply Permutation_swap.
Qed.

Lemma sorted_perm l : Py.sorted key l ≡ₚ l.
Proof.
  unfold Py.sorted. induction l as [|x l IH]; cbn [foldr]; [done|].
  by rewrite insert_by_perm, IH.
Qed.

Lemma sorted_length l : length (Py.sorted key l) = length l.
Proof. by rewrite sorted_perm. Qed.

(** The keys of the sorted list do not decrease. *)
Lemma insert_by_Sorted x l :
  Sorted (fun a b => key a <= key b) l ->
  Sorted (fun a b => key a <= key b) (Py.insert_by key x l).
Proof.
  induction 1 as [|y l Hs IH Hhd]; cbn [Py.insert_by].
  - by repeat constructor.
  - destruct (Z.leb_spec (key x) (key y)).
    + by repeat constructor.
    + constructor; [exact IH|].
      destruct l as [|z l]; cbn [Py.insert_by].
      * constructor. lia.
      * destruct (key x <=? key z); constructor; [lia|].
        by inversion Hhd.
Qed.

Lemma sorted_Sorted l : Sorted (fun a b => key a <= key b) (Py.sorted key l).
Proof.
  unfold Py.sorted. induction l; cbn [foldr]; [constructor|].
  by apply insert_by_Sorted.
Qed.

(** Two neighbours of the sorted list are in order. *)
Lemma sorted_neighbours l i a b :
  Py.sorted key l !! i = Some a -> Py.sorted key l !! (i + 1)%nat = Some b ->
  key a <= key b.
Proof.
  generalize (sorted_Sorted l). generalize (Py.sorted key l). clear l.
  intros l Hs. revert i. induction Hs as [|y l Hs IH Hhd]; intros i Ha Hb.
  - discriminate Ha.
  - destruct i as [|i]; cbn in Ha, Hb.
    + injection Ha as ->. destruct l as [|z l]; [discriminate Hb|].
      injection Hb as ->. by inversion Hhd.
    + by apply (IH i).
Qed.

End sorted_properties.

(** ** MEV and bot detection *)

Section mev_properties.
Import Mev.
Local Open Scope float_scope.

(** A division by an [int] that is not zero returns. *)
Lemma fdiv_int_nonzero a n :
  n <> 0%Z -> Py.fdiv_int a n = Some (a / Py.float_of_Z n).
Proof.
  intros Hn. unfold Py.fdiv_int. by destruct (Z.eqb_spec n 0).
Qed.

Lemma fdiv_int_length {A} a (x : A) (l : list A) :
  Py.fdiv_int a (Z.of_nat (length (x :: l)))
  = Some (a / Py.float_of_Z (Z.of_nat (length (x :: l)))).
Proof. apply fdiv_int_nonzero. cbn [length]. lia. Qed.

(** A division by a [float] that is not zero returns. *)
Lemma fdiv_nonzero a b : (b =? 0) = false -> Py.fdiv a b = Some (a / b).
Proof. intros Hb. unfold Py.fdiv. by rewrite Hb. Qed.

(** The guard on the maximum gas price. *)
Lemma denominator_guard max_gas :
  ((max_gas =? 0) = true -> denominator max_gas = 1)
  /\ (denominator max_gas =? 0) = false.
Proof.
  unfold denominator. destruct (max_gas =? 0) eqn:E; cbn [negb].
  - split; reflexivity.
  - split; [discriminate|exact E].
Qed.

(** [min(q, 0.2)] is never above 0.2. *)
Lemma fmin2_not_above q :
  (0x1.999999999999ap-3 <? Py.fmin2 q 0x1.999999999999ap-3) = false.
Proof.
  unfold Py.fmin2. destruct (0x1.999999999999ap-3 <? q) eqn:E; [reflexivity|exact E].
Qed.

(** Squaring raises exactly when the square overflows. *)
Lemma fpow2_unfold x :
  Py.fpow2 x
  = if square_overflows x then Py.Raise Py.OverflowError else Py.Ok (x * x).
Proof. reflexivity. Qed.

(** The squares of a list are all returned, or one of them overflows. *)
Lemma map_result_fpow2 {A} (g : A -> float) (l : list A) :
  (Exists (fun x => square_overflows (g x) = true) l
   /\ Py.map_result (fun x => Py.fpow2 (g x)) l = Py.Raise Py.OverflowError)
  \/ (Forall (fun x => square_overflows (g x) = false) l
      /\ exists ys, Py.map_result (fun x => Py.fpow2 (g x)) l = Py.Ok ys).
Proof.
  induction l as [|x l IH]; cbn [Py.map_result].
  - right. split; [apply Forall_nil_2|by eexists].
  - rewrite (fpow2_unfold (g x)).
    destruct (square_overflows (g x)) eqn:Hx; cbn [mbind Py.result_bind].
    + left. split; [by apply Exists_cons_hd|reflexivity].
    + destruct IH as [[Hex ->]|[Hall (ys & ->)]]; cbn [mbind Py.result_bind].
      * left. split; [by apply Exists_cons_tl|reflexivity].
      * right. split; [by apply Forall_cons_2|by eexists].
Qed.

(** The variance block, on a list of transactions that is not empty: it
    raises [OverflowError] when the square of a deviation from the mean
    overflows, and else returns a score that is not above 0.2. *)
Lemma variance_score_spec txs s0 :
  txs <> [] ->
  (Exists (fun tx => square_overflows (gas_price tx - mean_gas txs) = true) txs
   /\ variance_score txs s0 = Py.Raise Py.OverflowError)
  \/ (Forall (fun tx => square_overflows (gas_price tx - mean_gas txs) = false) txs
      /\ exists q, variance_score txs s0 = Py.Ok q
                   /\ (0x1.999999999999ap-3 <? q) = false).
Proof.
  intros Hne. unfold variance_score.
  destruct txs as [|tx txs]; [done|]. cbn [map].
  rewrite fdiv_int_length. cbn [Py.raising mbind Py.result_bind].
  change (Py.fsum (gas_price tx :: map gas_price txs)
          / Py.float_of_Z (Z.of_nat (length (gas_price tx :: map gas_price txs))))
    with (mean_gas (tx :: txs)).
  destruct (map_result_fpow2 (fun gp => gp - mean_gas (tx :: txs))
              (map gas_price (tx :: txs)))
    as [[Hex Hr]|[Hall (squares & Hr)]]; cbn [map] in Hr; rewrite Hr;
    cbn [mbind Py.result_bind].
  - left. split; [|reflexivity]. by apply List.Exists_map in Hex.
  - right. split; [by apply List.Forall_map in Hall|].
    rewrite fdiv_int_length. cbn [Py.raising mbind Py.result_bind].
    rewrite fdiv_nonzero by apply denominator_guard.
    cbn [Py.raising mbind Py.result_bind].
    eexists. split; [reflexivity|]. apply fmin2_not_above.
Qed.


(** Sorting a non-empty list gives a non-empty list. *)
Lemma sorted_nonempty {A} (key : A -> Z) (l : list A) :
  l <> [] -> Py.sorted key l <> [].
Proof.
  destruct l as [|x l]; [done|]. intros _. unfold Py.sorted. cbn [foldr].
  destruct (foldr (Py.insert_by key) [] l) as [|y l']; cbn [Py.insert_by]; [done|].
  by destruct (key x <=? key y)%Z.
Qed.

(** What [detect_mev_bot] does when no pattern is found. *)
Lemma detect_mev_bot_no_pattern transactions :
  (2 <= length transactions)%nat ->
  no_pattern transactions ->
  detect_mev_bot transactions
  = (s ← variance_score (Py.sorted timestamp transactions) 0;
     Py.Ok {| bot_type := "none"; mev_strategy := "none"; spam_score := s;
              details := NoDetails |}).
Proof.
  intros Hlen (Hsand & Hfront & Hliq). unfold detect_mev_bot.
  destruct (Nat.ltb_spec (length transactions) 2) as [|_]; [lia|].
  rewrite Hsand. cbn [spam_score]. change (0 =? 0) with true. cbv iota.
  rewrite Hfront. cbn [spam_score]. change (0 =? 0) with true. cbv iota.
  rewrite Hliq. cbn [spam_score]. change (0 =? 0) with true. cbv iota.
  reflexivity.
Qed.




(** A sandwich: the bot, sorted to the middle by its timestamp, pays more
    gas than the victim it follows. *)
Example sandwich_detected :
  detect_mev_bot
    [ {| tx_hash := "0x01"; from_address := "0xAA"; to_address := "0xbb";
         value := 1; timestamp := 0; gas_price := 10 |};
      {| tx_hash := "0x03"; from_address := "0xaa"; to_address := "0xBB";
         value := 1; timestamp := 10; gas_price := 10 |};
      {| tx_hash := "0x02"; from_address := "0xcc"; to_address := "0xbb";
         value := 1; timestamp := 5; gas_price := 20 |} ]
  = Py.Ok {| bot_type := "arbitrage_bot"; mev_strategy := "sandwich";
             spam_score := 0x1.ccccccccccccdp-1 (* 0.9 *);
             details := Sandwich [0; 1; 2]%nat "0xcc" "0xAA" |}.
Proof. vm_compute. reflexivity. Qed.

(** An infinite gas price: nothing overflows, since the deviation is not
    finite, and the score is a NaN, which is neither above nor below 0.2. *)
Example infinite_gas_price_gives_nan :
  detect_mev_bot
    [ {| tx_hash := "0x01"; from_address := "0xaa"; to_address := "0xbb";
         value := 1; timestamp := 0; gas_price := infinity |};
      {| tx_hash := "0x02"; from_address := "0xcc"; to_address := "0xdd";
         value := 1; timestamp := 100; gas_price := 0 |} ]
  = Py.Ok {| bot_type := "none"; mev_strategy := "none"; spam_score := nan;
             details := NoDetails |}.
Proof. vm_compute. reflexivity. Qed.

(** The score of [quiet_transactions] is zero. *)
Example quiet_transactions_score :
  detect_mev_bot quiet_transactions
  = Py.Ok {| bot_type := "none"; mev_strategy := "none"; spam_score := 0;
             details := NoDetails |}.
Proof. vm_compute. reflexivity. Qed.

End mev_properties.

(** * Further properties *)

(** ** Lower-casing *)

Section lower_properties.

(** Lower-casing a character twice changes nothing more. *)
Lemma lower_char_idempotent c : Py.lower_char (Py.lower_char c) = Py.lower_char c.
Proof. destruct c as [[] [] [] [] [] [] [] []]; reflexivity. Qed.

(** Lower-casing a text twice changes nothing more. *)
Lemma lower_idempotent s : Py.lower (Py.lower s) = Py.lower s.
Proof.
  induction s as [|c s IH]; [reflexivity|].
  cbn [Py.lower]. by rewrite lower_char_idempotent, IH.
Qed.

(** Only the empty text lower-cases to the empty text. *)
Lemma lower_empty s : Py.lower s = "" <-> s = "".
Proof. destruct s; cbn [Py.lower]; split; congruence. Qed.

End lower_properties.

(** ** Address labeling *)

Section label_properties.
Import Label.

(** The lists of the three tables. *)
Lemma known_lists chain addresses :
  known_exchanges !! chain = Some addresses
  \/ known_dex_routers !! chain = Some addresses
  \/ known_bridges !! chain = Some addresses ->
  Forall (fun a => String.length a = 42%nat) addresses.
Proof.
  intros [H|[H|H]]; apply elem_of_list_to_map_2 in H;
    rewrite !elem_of_cons, elem_of_nil in H;
    destruct H as [[= -> ->]|[[= -> ->]|[]]]; repeat constructor.
Qed.

(** The empty address is in no list. *)
Lemma listed_empty known chain :
  known = known_exchanges \/ known = known_dex_routers \/ known = known_bridges ->
  listed known chain "" = false.
Proof.
  intros Hk. unfold listed.
  destruct (known !! chain) as [addresses|] eqn:Hl; [|reflexivity].
  assert (Hlen : Forall (fun a => String.length a = 42%nat) addresses).
  { apply (known_lists chain). destruct Hk as [-> | [-> | ->]]; auto. }
  clear Hl Hk. induction Hlen as [|a l Ha _ IH]; [reflexivity|].
  cbn [existsb]. rewrite IH, orb_false_r.
  destruct a; [discriminate Ha|reflexivity].
Qed.

(** A text that is not empty has a last character. *)
Lemma last_char_is_Some s : s <> "" -> is_Some (Py.last_char s).
Proof.
  induction s as [|c s IH]; [congruence|]. intros _.
  destruct s as [|c' s]; [by eexists|]. apply IH. congruence.
Qed.

(** X1: [label] raises (the [IndexError] of [address[-1]]) exactly when the
    address is the empty string, whatever the chain; on every other address
    it returns. *)
Theorem label_raises_only_on_empty_address address chain :
  is_Some (label address chain) <-> address <> "".
Proof.
  unfold label. split.
  - intros Hsome ->. cbn [Py.lower] in Hsome.
    rewrite !listed_empty in Hsome by auto.
    cbn in Hsome. by destruct Hsome.
  - intros Hne.
    destruct (listed known_exchanges _ _); [by eexists|].
    destruct (listed known_dex_routers _ _); [by eexists|].
    destruct (listed known_bridges _ _); [by eexists|].
    destruct (String.eqb _ "0x0000000000000000000000000000000000000000");
      [by eexists|].
    destruct (last_char_is_Some (Py.lower address)) as [c ->].
    { by rewrite lower_empty. }
    cbn [mbind option_bind].
    destruct (String.eqb _ _); by eexists.
Qed.

(** X2: the label [label] returns is never the initial ["unknown"] with
    confidence 0.5: it is one of six labels, each with its own confidence,
    and the details are the lower-cased address and chain of the request
    (the empty string for a missing chain). *)
Theorem label_is_never_unknown address chain r :
  label address chain = Some r ->
  (Response.label r, Response.confidence r) ∈
    [ ("exchange", 0x1.e666666666666p-1%float);
      ("dex_router", 0x1.ccccccccccccdp-1%float);
      ("bridge", 0x1.ccccccccccccdp-1%float);
      ("null_address", 1%float);
      ("contract", 0x1.3333333333333p-1%float);
      ("user", 0x1.3333333333333p-1%float) ]
  /\ Response.details_address r = Py.lower address
  /\ Response.details_chain r = Py.lower (default "" chain).
Proof.
  unfold label.
  destruct (listed known_exchanges _ _);
    [intros [= <-]; cbn; split; [|done]; set_solver|].
  destruct (listed known_dex_routers _ _);
    [intros [= <-]; cbn; split; [|done]; set_solver|].
  destruct (listed known_bridges _ _);
    [intros [= <-]; cbn; split; [|done]; set_solver|].
  destruct (String.eqb _ "0x0000000000000000000000000000000000000000");
    [intros [= <-]; cbn; split; [|done]; set_solver|].
  destruct (Py.last_char (Py.lower address)) as [c|]; [|discriminate].
  cbn [mbind option_bind].
  destruct (String.eqb _ _); intros [= <-]; cbn; (split; [|done]); set_solver.
Qed.

Lemma label_is_never_unknown_witness :
  exists r, label "0xAbCd" None = Some r
            /\ Response.label r = "user" /\ Response.details_address r = "0xabcd"
            /\ Response.details_chain r = "".
Proof.
  eexists. split; [vm_compute; reflexivity|].
  destruct (label_is_never_unknown "0xAbCd" None _ eq_refl) as (_ & Ha & Hc).
  split; [reflexivity|]. split; [exact Ha|exact Hc].
Defined.

(** X3: [label] ignores the letter case of the address and of the chain. *)
Theorem label_ignores_case address chain :
  label address chain = label (Py.lower address) (Py.lower <$> chain).
Proof.
  unfold label.
  assert (Hc : Py.lower (default "" (Py.lower <$> chain))
               = Py.lower (default "" chain)).
  { destruct chain as [c|]; cbn; [apply lower_idempotent|reflexivity]. }
  by rewrite Hc, lower_idempotent.
Qed.

(** A suffix cut off a text leaves a prefix. *)
Lemma slice_from_suffix n s : exists body, s = body +:+ Py.slice_from n s.
Proof.
  revert s. induction n as [|n IH]; intros s; [by exists ""|].
  destruct s as [|c s]; [by exists ""|].
  destruct (IH s) as [body Hbody]. exists (String c body).
  cbn [Py.slice_from]. rewrite append_cons. by f_equal.
Qed.

(** Cutting a text after its prefix leaves the rest. *)
Lemma slice_from_append body rest :
  Py.slice_from (String.length body) (body +:+ rest) = rest.
Proof.
  induction body as [|c body IH]; [by destruct rest|].
  rewrite append_cons. exact IH.
Qed.

(** The last character of a text that ends in four [c]. *)
Lemma last_char_append body c :
  Py.last_char (body +:+ Py.repeat_char c 4) = Some c.
Proof.
  induction body as [|d body IH]; [reflexivity|].
  rewrite append_cons. cbn [Py.last_char]. rewrite IH.
  by destruct body.
Qed.

(** A chain outside the tables lists nothing. *)
Lemma listed_unknown_chain known chain address :
  known = known_exchanges \/ known = known_dex_routers \/ known = known_bridges ->
  chain <> "ethereum" -> chain <> "polygon" ->
  listed known chain address = false.
Proof.
  intros Hk He Hp. unfold listed.
  destruct (known !! chain) as [addresses|] eqn:Hl; [|reflexivity].
  exfalso.
  destruct Hk as [-> | [-> | ->]]; apply elem_of_list_to_map_2 in Hl;
    rewrite !elem_of_cons, elem_of_nil in Hl;
    destruct Hl as [[= -> _]|[[= -> _]|[]]]; congruence.
Qed.

(** X4: on a chain that is neither ["ethereum"] nor ["polygon"] (or with no
    chain), an address that is not empty and is not the null address is
    labelled ["contract"] when its last four characters are one and the
    same character, and ["user"] otherwise; an address of fewer than four
    characters is a ["user"]. *)
Theorem label_contract_heuristic address chain :
  Py.lower (default "" chain) <> "ethereum" ->
  Py.lower (default "" chain) <> "polygon" ->
  Py.lower address <> "0x0000000000000000000000000000000000000000" ->
  address <> "" ->
  exists r,
    label address chain = Some r
    /\ (Response.label r = "contract" \/ Response.label r = "user")
    /\ (Response.label r = "contract"
        <-> exists body c, Py.lower address = body +:+ Py.repeat_char c 4)
    /\ ((String.length address < 4)%nat -> Response.label r = "user").
Proof.
  intros He Hp Hnull Hne. unfold label.
  rewrite !listed_unknown_chain by auto.
  apply String.eqb_neq in Hnull. rewrite Hnull.
  destruct (last_char_is_Some (Py.lower address)) as [c Hc].
  { by rewrite lower_empty. }
  rewrite Hc. cbn [mbind option_bind].
  destruct (String.eqb_spec (Py.slice_last 4 (Py.lower address)) (Py.repeat_char c 4))
    as [Heq|Hneq]; eexists; (split; [reflexivity|]); cbn [Response.label].
  - split; [by left|]. split.
    + split; [intros _|done].
      destruct (slice_from_suffix (String.length (Py.lower address) - 4)
                  (Py.lower address)) as [body Hbody].
      exists body, c. unfold Py.slice_last in Heq. by rewrite <- Heq.
    + intros Hshort. exfalso.
      apply (f_equal String.length) in Heq. unfold Py.slice_last in Heq.
      assert (Hlen : String.length (Py.lower address) = String.length address).
      { clear. induction address as [|d a IH]; [done|]. cbn. by rewrite IH. }
      replace (String.length (Py.lower address) - 4)%nat with 0%nat in Heq by lia.
      cbn in Heq. lia.
  - split; [by right|]. split; [|done].
    split; [discriminate|]. intros (body & c' & Hbody). exfalso. apply Hneq.
    assert (c' = c) as ->.
    { rewrite Hbody, last_char_append in Hc. congruence. }
    unfold Py.slice_last. rewrite Hbody, length_append.
    replace (String.length body + String.length (Py.repeat_char c 4) - 4)%nat
      with (String.length body) by (cbn; lia).
    apply slice_from_append.
Qed.

Lemma label_contract_heuristic_witness :
  exists r,
    label "0x12AbFFFF" (Some "Arbitrum") = Some r
    /\ (Response.label r = "contract" \/ Response.label r = "user")
    /\ (Response.label r = "contract"
        <-> exists body c, Py.lower "0x12AbFFFF" = body +:+ Py.repeat_char c 4)
    /\ ((String.length "0x12AbFFFF" < 4)%nat -> Response.label r = "user").
Proof.
  apply (label_contract_heuristic "0x12AbFFFF" (Some "Arbitrum"));
    vm_compute; discriminate.
Defined.

(** A listed exchange in mixed case, the null address, and the two
    outcomes of the heuristic. *)
Example label_examples :
  Response.label <$> label "0x12AbFFFF" (Some "Arbitrum") = Some "contract"
  /\ Response.label <$> label "0xEEEEEEEEEEEEEEEEEEEEEEEEEEEEEEEEEEEEEEEE" (Some "Ethereum")
     = Some "exchange"
  /\ Response.label <$> label "0xeeeeeeeeeeeeeeeeeeeeeeeeeeeeeeeeeeeeeeee" (Some "polygon")
     = Some "contract"
  /\ Response.label <$> label "0x0000000000000000000000000000000000000000" None
     = Some "null_address"
  /\ Response.label <$> label "abc" None = Some "user"
  /\ label "" (Some "ethereum") = None.
Proof. vm_compute. repeat split. Qed.

End label_properties.

(** ** Private aggregate query *)

Section private_query_properties.
Import PrivateQuery.
Local Open Scope float_scope.

(** X5: [perform_private_query] never raises, and its proof string is
    always the placeholder; on an empty list of values, and on a query that
    is none of sum, avg, mean and count, the result is 0 and no error is
    reported. *)
Theorem private_query_never_raises values query :
  exists r,
    perform_private_query values query = Some r
    /\ zk_proof r = "zkproof-placeholder"
    /\ (values = [] -> result r = 0)
    /\ (Py.lower query ∉ ["sum"; "avg"; "mean"; "count"] -> result r = 0).
Proof.
  unfold perform_private_query.
  destruct values as [|v values]; [eexists; by repeat split|].
  rewrite fdiv_int_length.
  destruct (String.eqb_spec (Py.lower query) "sum") as [Hs|Hs].
  { eexists. repeat split; [done|]. intros H. exfalso. apply H. rewrite Hs. set_solver. }
  destruct (String.eqb_spec (Py.lower query) "avg") as [Ha|Ha].
  { eexists. repeat split; [done|]. intros H. exfalso. apply H. rewrite Ha. set_solver. }
  destruct (String.eqb_spec (Py.lower query) "mean") as [Hm|Hm].
  { eexists. repeat split; [done|]. intros H. exfalso. apply H. rewrite Hm. set_solver. }
  destruct (String.eqb_spec (Py.lower query) "count") as [Hc|Hc].
  { eexists. repeat split; [done|]. intros H. exfalso. apply H. rewrite Hc. set_solver. }
  eexists. by repeat split.
Qed.

(** No value, and a query that is not supported. *)
Lemma private_query_never_raises_witness :
  (exists r, perform_private_query [] "avg" = Some r /\ result r = 0)
  /\ (exists r, perform_private_query [1; 2] "median" = Some r /\ result r = 0).
Proof.
  split.
  - destruct (private_query_never_raises [] "avg") as (r & Hr & _ & Hempty & _).
    exists r. split; [exact Hr|]. by apply Hempty.
  - destruct (private_query_never_raises [1; 2] "median") as (r & Hr & _ & _ & Hq).
    exists r. split; [exact Hr|]. apply Hq.
    change (Py.lower "median") with "median".
    rewrite !elem_of_cons, elem_of_nil. intros [H|[H|[H|[H|[]]]]]; discriminate H.
Defined.

(** The query keyword is matched without regard to letter case. *)
Theorem private_query_ignores_case values query :
  perform_private_query values query
  = perform_private_query values (Py.lower query).
Proof. unfold perform_private_query. by rewrite lower_idempotent. Qed.

(** The four queries on 1, 2, 6, a query that is not supported, and the
    average of three times 0.1, which is above 0.1. *)
Example private_query_examples :
  result <$> perform_private_query [1; 2; 6] "sum" = Some 9
  /\ result <$> perform_private_query [1; 2; 6] "Mean" = Some 3
  /\ result <$> perform_private_query [1; 2; 6] "COUNT" = Some 3
  /\ result <$> perform_private_query [1; 2; 6] "median" = Some 0
  /\ result <$> perform_private_query
                  [0x1.999999999999ap-4; 0x1.999999999999ap-4;
                   0x1.999999999999ap-4] "avg"
     = Some 0x1.999999999999bp-4.
Proof. vm_compute. repeat split. Qed.

End private_query_properties.

(** ** Flash-loan detection *)

Section flash_loan_properties.
Import FlashLoan.
Local Open Scope float_scope.

(** The average the detector compares with always returns. *)
Lemma average_returns (amounts : list float) :
  exists avg,
    match amounts with
    | [] => Some 0
    | _ :: _ => Py.fdiv_int (Py.fsum amounts) (Z.of_nat (length amounts))
    end = Some avg.
Proof.
  destruct amounts as [|x l]; [by eexists|].
  rewrite fdiv_int_length. by eexists.
Qed.

(** X7: [detect_flash_loan] never raises: the average is only taken over a
    list of borrow amounts that is not empty.  With fewer than two events
    the answer is "not enough events". *)
Theorem flash_loan_never_raises events :
  exists r,
    detect_flash_loan events = Some r
    /\ ((length events < 2)%nat ->
        r = {| exploit_suspect := false; details := Reason "not enough events" |})
    /\ (exploit_suspect r = false ->
        details r = NoDetails \/ details r = Reason "not enough events").
Proof.
  unfold detect_flash_loan.
  destruct (Nat.ltb_spec (length events) 2) as [Hlt|Hge].
  { eexists. split; [reflexivity|]. split; [done|]. by right. }
  destruct (average_returns
              (map amount (List.filter (fun e => String.eqb (event_type e) "borrow")
                             (Py.sorted timestamp events)))) as (avg & ->).
  cbn [mbind option_bind].
  destruct (List.find _ _) as [i|];
    [destruct (Py.sorted timestamp events !! i),
       (Py.sorted timestamp events !! (i + 1)%nat)|];
    eexists; (split; [reflexivity|]); (split; [lia|]); cbn; auto; discriminate.
Qed.

(** A single event. *)
Lemma flash_loan_never_raises_witness :
  exists r,
    detect_flash_loan (take 1 lone_loan_events) = Some r
    /\ r = {| exploit_suspect := false; details := Reason "not enough events" |}.
Proof.
  destruct (flash_loan_never_raises (take 1 lone_loan_events))
    as (r & Hr & Hshort & _).
  exists r. split; [exact Hr|]. apply Hshort. cbn. lia.
Defined.

(** X8: when an exploit is suspected, the details name a borrow and the
    repay of the same token that directly follows it in time order, both
    from the input; the reported time delta is their distance in time, at
    least 0 and below 30; the reported amount is the borrow's, and twice
    the reported average, in binary64, is strictly below it. *)
Theorem flash_loan_suspect_is_a_fast_large_pair events r :
  detect_flash_loan events = Some r ->
  exploit_suspect r = true ->
  exists a b avg,
    a ∈ events /\ b ∈ events
    /\ event_type a = "borrow" /\ event_type b = "repay" /\ token a = token b
    /\ (timestamp a <= timestamp b < timestamp a + 30)%Z
    /\ (avg * 2 <? amount a) = true
    /\ details r = Suspect (tx_hash a) (tx_hash b) (amount a) avg
                     (timestamp b - timestamp a)%Z.
Proof.
  unfold detect_flash_loan.
  destruct (length events <? 2)%nat; [intros [= <-]; discriminate|].
  set (evs := Py.sorted timestamp events).
  destruct (average_returns
              (map amount (List.filter (fun e => String.eqb (event_type e) "borrow")
                             evs))) as (avg & ->).
  cbn [mbind option_bind].
  destruct (List.find _ _) as [i|] eqn:Hfind; [|intros [= <-]; discriminate].
  apply find_some in Hfind as [_ Htest]. unfold suspicious_at in Htest.
  destruct (evs !! i) as [a|] eqn:Ha; [|discriminate].
  destruct (evs !! (i + 1)%nat) as [b|] eqn:Hb; [|discriminate].
  intros [= <-] _.
  destruct (_ && _ && _) eqn:Hkind in Htest; [|discriminate].
  apply andb_prop in Hkind as [[Hta Htb]%andb_prop Htok].
  apply andb_prop in Htest as [Hdelta Hamount].
  apply String.eqb_eq in Hta, Htb, Htok. apply Z.ltb_lt in Hdelta.
  exists a, b, avg.
  assert (Hin : forall x j, evs !! j = Some x -> x ∈ events).
  { intros x j Hx. apply list_elem_of_lookup_2 in Hx.
    subst evs. by rewrite sorted_perm in Hx. }
  split; [by eapply Hin|]. split; [by eapply Hin|].
  do 3 (split; [done|]).
  split; [pose proof (sorted_neighbours timestamp events i a b Ha Hb); lia|].
  split; [exact Hamount|reflexivity].
Qed.

Lemma flash_loan_suspect_is_a_fast_large_pair_witness :
  exists a b avg,
    a ∈ fast_loan_events /\ b ∈ fast_loan_events
    /\ event_type a = "borrow" /\ event_type b = "repay" /\ token a = token b
    /\ (timestamp a <= timestamp b < timestamp a + 30)%Z
    /\ (avg * 2 <? amount a) = true
    /\ Suspect "0x01" "0x02" 100 34 5
       = Suspect (tx_hash a) (tx_hash b) (amount a) avg
           (timestamp b - timestamp a)%Z.
Proof.
  apply (flash_loan_suspect_is_a_fast_large_pair fast_loan_events
           {| exploit_suspect := true;
              details := Suspect "0x01" "0x02" 100 34 5 |}).
  - vm_compute. reflexivity.
  - reflexivity.
Defined.

(** Three borrows of 0.4, 0.1 and 0.1: the rounded average is just below
    0.2, so the first, repaid after five seconds, is flagged. *)
Example rounded_average_flags_the_loan :
  exploit_suspect <$>
    detect_flash_loan
      [ {| tx_hash := "0x01"; event_type := "borrow";
           amount := 0x1.999999999999ap-2; timestamp := 0; token := "DAI" |};
        {| tx_hash := "0x02"; event_type := "repay";
           amount := 0x1.999999999999ap-2; timestamp := 5; token := "DAI" |};
        {| tx_hash := "0x03"; event_type := "borrow";
           amount := 0x1.999999999999ap-4; timestamp := 100; token := "DAI" |};
        {| tx_hash := "0x04"; event_type := "borrow";
           amount := 0x1.999999999999ap-4; timestamp := 200; token := "DAI" |} ]
  = Some true.
Proof. vm_compute. reflexivity. Qed.

End flash_loan_properties.

(** ** Bytecode decoder: prefixes and single-byte opcodes *)

Section decoder_further_properties.

(** A hexadecimal text has no [0x] prefix to strip. *)
Lemma hex_code_hex code : is_hex_string code = true -> hex_code code = code.
Proof.
  intros Hhex. unfold hex_code. rewrite startswith_two.
  destruct code as [|a [|b rest]]; try reflexivity.
  cbn [is_hex_string] in Hhex.
  apply andb_prop in Hhex as [_ [Hb _]%andb_prop].
  destruct (Ascii.eqb_spec "x" b) as [<-|]; [discriminate Hb|].
  by rewrite andb_false_r.
Qed.

(** The prefix [0x] is stripped. *)
Lemma hex_code_prefixed code : hex_code ("0x" +:+ code) = code.
Proof. unfold hex_code. rewrite startswith_two. reflexivity. Qed.

(** X10: the [0x] prefix is optional: a hexadecimal text decodes to the
    same opcodes with and without it. *)
Theorem decode_prefix_is_optional code :
  is_hex_string code = true ->
  decode_evm_bytecode ("0x" +:+ code) = decode_evm_bytecode code.
Proof.
  intros Hhex. unfold decode_evm_bytecode.
  by rewrite hex_code_prefixed, hex_code_hex.
Qed.

Lemma decode_prefix_is_optional_witness :
  decode_evm_bytecode ("0x" +:+ "6001600201") = decode_evm_bytecode "6001600201".
Proof. apply (decode_prefix_is_optional "6001600201"). reflexivity. Defined.

(** X11: the decoder raises ([ValueError]) when the first token of the hex
    portion is no base-16 integer; so it raises on every input with an
    upper-case [0X] prefix, which is not stripped, and on a doubled [0x]
    prefix. *)
Theorem decode_raises_on_bad_first_token :
  (forall bytecode,
      hex_code bytecode <> "" ->
      Py.int16 (Py.slice 0 2 (hex_code bytecode)) = None ->
      decode_evm_bytecode bytecode = None)
  /\ (forall rest, decode_evm_bytecode ("0X" +:+ rest) = None)
  /\ (forall rest, decode_evm_bytecode ("0x0x" +:+ rest) = None).
Proof.
  assert (Hfirst : forall bytecode,
             hex_code bytecode <> "" ->
             Py.int16 (Py.slice 0 2 (hex_code bytecode)) = None ->
             decode_evm_bytecode bytecode = None).
  { intros bytecode Hne Hbad. unfold decode_evm_bytecode.
    rewrite split_bytes_chunks2, decode_loop_unfold.
    destruct (hex_code bytecode) as [|a [|b rest]]; [done|..];
      cbn [chunks2 lookup list_lookup].
    - unfold Py.slice in Hbad. cbn in Hbad. by rewrite Hbad.
    - unfold Py.slice in Hbad. cbn [String.substring] in Hbad.
      replace (String.substring 0 0 rest) with "" in Hbad by (by destruct rest).
      by rewrite Hbad. }
  split; [exact Hfirst|]. split; intros rest; apply Hfirst.
  - unfold hex_code. rewrite startswith_two. done.
  - unfold hex_code. rewrite startswith_two. cbn. by destruct rest.
  - change ("0x0x" +:+ rest) with ("0x" +:+ ("0x" +:+ rest)).
    by rewrite hex_code_prefixed.
  - change ("0x0x" +:+ rest) with ("0x" +:+ ("0x" +:+ rest)).
    rewrite hex_code_prefixed. cbn. by destruct rest.
Qed.

(** A first token that is no number, and an upper-case prefix before valid
    digits. *)
Lemma decode_raises_on_bad_first_token_witness :
  decode_evm_bytecode "zz01" = None /\ decode_evm_bytecode "0X6001" = None.
Proof.
  destruct decode_raises_on_bad_first_token as (Hfirst & Hupper & _).
  split.
  - apply (Hfirst "zz01"); [discriminate|]. vm_compute. reflexivity.
  - apply (Hupper "6001").
Defined.

(** A no-break space before a digit is a blank for [int]: the token is the
    byte 5. *)
Example decode_strips_no_break_space :
  decode_evm_bytecode ("0x" +:+ String (ascii_of_nat 160) "5") = Some ["SDIV"].
Proof. vm_compute. reflexivity. Qed.

(** When no token is a PUSH the loop reads every token, one opcode each. *)
Lemma decode_loop_single_bytes bytes_seq :
  Forall single_byte_token bytes_seq ->
  forall i opcodes,
    decode_loop bytes_seq i opcodes
    = Some (opcodes ++ omap opcode_of_token (drop i bytes_seq)).
Proof.
  intros Hall.
  apply (decode_loop_rect bytes_seq
           (fun i opcodes r =>
              r = Some (opcodes ++ omap opcode_of_token (drop i bytes_seq)))).
  - intros i opcodes Hi. apply lookup_ge_None in Hi.
    by rewrite drop_ge, app_nil_r.
  - intros i opcodes tok Hi Hb. rewrite Forall_lookup in Hall.
    destruct (Hall _ _ Hi) as (b & Hb' & _). congruence.
  - intros i opcodes tok byte_val Hi Hb i' opcodes' ->.
    rewrite Forall_lookup in Hall.
    destruct (Hall _ _ Hi) as (b & Hb' & Hrange).
    assert (b = byte_val) as -> by congruence.
    assert (Hadv : (decode_byte byte_val).2 = 1%nat).
    { unfold decode_byte.
      destruct (Z.leb_spec 0x60 byte_val), (Z.leb_spec byte_val 0x7f);
        cbn [andb]; try lia;
        repeat match goal with
               | |- context [if ?c then _ else _] => destruct c
               end; reflexivity. }
    subst i' opcodes'. rewrite Hadv.
    rewrite (drop_S _ _ _ Hi). cbn [omap list_omap].
    unfold opcode_of_token at 2. rewrite Hb. cbn [fmap option_fmap option_map].
    replace (i + 1)%nat with (S i) by lia.
    by rewrite <- app_assoc.
Qed.

(** X12: when every token of the hex portion parses to a byte outside the
    PUSH range [0x60..0x7f], the decoder returns exactly one opcode per
    token, in order: the name of that token's byte. *)
Theorem decode_single_bytes_one_to_one bytecode :
  Forall single_byte_token (split_bytes (hex_code bytecode)) ->
  exists opcodes,
    decode_evm_bytecode bytecode = Some opcodes
    /\ length opcodes = length (split_bytes (hex_code bytecode))
    /\ Forall2 (fun tok op => opcode_of_token tok = Some op)
         (split_bytes (hex_code bytecode)) opcodes.
Proof.
  intros Hall. unfold decode_evm_bytecode.
  rewrite (decode_loop_single_bytes _ Hall), drop_0. cbn [app].
  eexists. split; [reflexivity|].
  assert (H2 : Forall2 (fun tok op => opcode_of_token tok = Some op)
                 (split_bytes (hex_code bytecode))
                 (omap opcode_of_token (split_bytes (hex_code bytecode)))).
  { induction Hall as [|tok toks (b & Hb & _) _ IH]; cbn [omap list_omap].
    - constructor.
    - assert (Ht : opcode_of_token tok = Some (decode_byte b).1)
        by (unfold opcode_of_token; by rewrite Hb).
      rewrite Ht. by constructor. }
  split; [|exact H2]. symmetry. by eapply Forall2_length.
Qed.

Lemma decode_single_bytes_one_to_one_witness :
  exists opcodes,
    decode_evm_bytecode "0x5b0180a4fe0c" = Some opcodes
    /\ length opcodes = length (split_bytes (hex_code "0x5b0180a4fe0c"))
    /\ Forall2 (fun tok op => opcode_of_token tok = Some op)
         (split_bytes (hex_code "0x5b0180a4fe0c")) opcodes.
Proof.
  apply (decode_single_bytes_one_to_one "0x5b0180a4fe0c").
  repeat (apply Forall_cons_2;
          [eexists; split; [vm_compute; reflexivity|lia]|]).
  apply Forall_nil_2.
Defined.

End decoder_further_properties.

(** ** Bytecode analyzer: counts, estimate and the other rules *)

Section analyzer_further_properties.

Lemma get0_insert_eq counts k n : get0 (<[k := n]> counts) k = n.
Proof. unfold get0. by rewrite lookup_insert_eq. Qed.

Lemma get0_insert_ne counts k k' n :
  k <> k' -> get0 (<[k := n]> counts) k' = get0 counts k'.
Proof. intros Hne. unfold get0. by rewrite lookup_insert_ne. Qed.

Lemma filter_absent (k : string) ops : k ∉ ops -> filter (eq k) ops = [].
Proof.
  induction ops as [|op ops IH]; intros Hk; [done|].
  apply not_elem_of_cons in Hk as [Hne Hk].
  rewrite filter_cons, decide_False by done. by apply IH.
Qed.

(** The loop leaves an entry for exactly the opcodes it read. *)
Lemma tally_lookup ops st k :
  (fold_left tally ops st).1 !! k
  = if bool_decide (k ∈ ops)
    then Some (get0 st.1 k + occurrences k ops)
    else st.1 !! k.
Proof.
  revert st. induction ops as [|op ops IH]; intros st; cbn [fold_left].
  - rewrite bool_decide_eq_false_2; [done|]. by intros ?%elem_of_nil.
  - rewrite IH. unfold tally. cbn [fst].
    unfold occurrences. rewrite filter_cons.
    destruct (decide (k = op)) as [->|Hne].
    + rewrite (bool_decide_eq_true_2 (op ∈ op :: ops)) by apply list_elem_of_here.
      rewrite get0_insert_eq, lookup_insert_eq. cbn [length].
      destruct (bool_decide (op ∈ ops)) eqn:Hin.
      * f_equal. lia.
      * apply bool_decide_eq_false in Hin.
        rewrite (filter_absent _ _ Hin). cbn [length]. f_equal; lia.
    + rewrite get0_insert_ne, lookup_insert_ne by congruence.
      destruct (bool_decide (k ∈ ops)) eqn:Hin.
      * apply bool_decide_eq_true in Hin.
        rewrite bool_decide_eq_true_2 by (by apply list_elem_of_further). done.
      * apply bool_decide_eq_false in Hin.
        rewrite bool_decide_eq_false_2; [done|].
        intros [?|?]%elem_of_cons; congruence.
Qed.

(** Adding one to a count adds one to the total. *)
Lemma total_count_tally counts op :
  total_count (<[op := get0 counts op + 1]> counts) = total_count counts + 1.
Proof.
  unfold total_count, get0.
  destruct (counts !! op) as [n|] eqn:Hop; cbn [default]; unfold id.
  - rewrite <- (insert_delete_eq counts op (n + 1)).
    rewrite map_fold_insert_L; [|intros; lia|apply lookup_delete_eq].
    rewrite <- (insert_delete_id counts op n Hop) at 2.
    rewrite (map_fold_insert_L _ _ op n); [|intros; lia|apply lookup_delete_eq].
    lia.
  - rewrite map_fold_insert_L; [|intros; lia|exact Hop]. lia.
Qed.

Lemma tally_total ops st :
  total_count (fold_left tally ops st).1
  = total_count st.1 + Z.of_nat (length ops).
Proof.
  revert st. induction ops as [|op ops IH]; intros st; cbn [fold_left length].
  - lia.
  - rewrite IH. unfold tally. cbn [fst]. rewrite total_count_tally. lia.
Qed.

(** X13: [opcode_counts] has an entry for exactly the opcodes of the
    decoded sequence, the entry of an opcode is the number of its
    occurrences (at least 1), and the entries add up to the length of the
    decoded sequence. *)
Theorem opcode_counts_are_the_occurrences bytecode ops :
  decode_evm_bytecode bytecode = Some ops ->
  exists r,
    analyze_bytecode bytecode = Some r
    /\ (forall k, k ∈ ops ->
                  opcode_counts r !! k = Some (occurrences k ops)
                  /\ 1 <= occurrences k ops)
    /\ (forall k, k ∉ ops -> opcode_counts r !! k = None)
    /\ total_count (opcode_counts r) = Z.of_nat (length ops).
Proof.
  intros Hdec. exists (analyze_opcodes ops).
  split; [by apply analyze_bytecode_decode|].
  pose proof (fun k => tally_lookup ops (∅, 0) k) as Hl.
  pose proof (tally_total ops (∅, 0)) as Ht.
  unfold analyze_opcodes.
  destruct (fold_left tally ops (∅, 0)) as [counts gas].
  cbn [opcode_counts fst snd] in *.
  split; [|split].
  - intros k Hk. rewrite Hl, bool_decide_eq_true_2 by done.
    unfold get0. rewrite lookup_empty. cbn [default]. split; [f_equal; lia|].
    unfold occurrences.
    assert (Hin : k ∈ filter (eq k) ops) by (by apply list_elem_of_filter).
    destruct (filter (eq k) ops); [by apply elem_of_nil in Hin|].
    cbn [length]. lia.
  - intros k Hk. rewrite Hl, bool_decide_eq_false_2 by done.
    apply lookup_empty.
  - rewrite Ht. unfold total_count. rewrite map_fold_empty. lia.
Qed.

Lemma opcode_counts_are_the_occurrences_witness :
  exists r,
    analyze_bytecode "0x6001600201" = Some r
    /\ (forall k, k ∈ ["PUSH1"; "PUSH1"; "ADD"] ->
                  opcode_counts r !! k
                  = Some (occurrences k ["PUSH1"; "PUSH1"; "ADD"])
                  /\ 1 <= occurrences k ["PUSH1"; "PUSH1"; "ADD"])
    /\ (forall k, k ∉ ["PUSH1"; "PUSH1"; "ADD"] -> opcode_counts r !! k = None)
    /\ total_count (opcode_counts r)
       = Z.of_nat (length ["PUSH1"; "PUSH1"; "ADD"]).
Proof.
  apply (opcode_counts_are_the_occurrences
           "0x6001600201" ["PUSH1"; "PUSH1"; "ADD"]).
  vm_compute. reflexivity.
Defined.

(** Every cost of the estimate lies between 0 and 32000. *)
Lemma gas_cost_bounds op : 0 <= gas_cost op <= 32000.
Proof.
  unfold gas_cost. destruct (INTRINSIC_GAS_COSTS !! op) as [c|] eqn:Hc;
    cbn [default]; unfold id; [|lia].
  apply elem_of_list_to_map_2 in Hc.
  assert (Hall : Forall (fun e : string * Z => 0 <= e.2 <= 32000)
                   INTRINSIC_GAS_TABLE).
  { unfold INTRINSIC_GAS_TABLE. repeat (apply Forall_cons_2; [cbn [snd]; lia|]).
    apply Forall_nil_2. }
  rewrite Forall_forall in Hall. exact (Hall _ Hc).
Qed.

(** X14: the estimate is never negative and never more than 32000 (the cost
    of CREATE) per decoded opcode. *)
Theorem estimated_gas_bounds bytecode ops :
  decode_evm_bytecode bytecode = Some ops ->
  exists r,
    analyze_bytecode bytecode = Some r
    /\ 0 <= estimated_gas r <= 32000 * Z.of_nat (length ops).
Proof.
  intros Hdec. exists (analyze_opcodes ops).
  split; [by apply analyze_bytecode_decode|].
  rewrite analyze_opcodes_gas. clear Hdec.
  induction ops as [|op ops IH]; cbn [map sum_Z foldr length].
  - lia.
  - fold (sum_Z (map gas_cost ops)). pose proof (gas_cost_bounds op). lia.
Qed.

Lemma estimated_gas_bounds_witness :
  exists r,
    analyze_bytecode "0xf0f5" = Some r
    /\ 0 <= estimated_gas r <= 32000 * Z.of_nat (length ["CREATE"; "CREATE2"]).
Proof.
  apply (estimated_gas_bounds "0xf0f5" ["CREATE"; "CREATE2"]).
  vm_compute. reflexivity.
Defined.

(** The other messages determine the number they report, too. *)
Lemma log_message_inj m n : log_message m = log_message n -> m = n.
Proof.
  unfold log_message. intros H.
  apply String.app_inj, append_inj_r in H. by apply pretty_Z_inj in H.
Qed.

Lemma call_message_inj m n : call_message m = call_message n -> m = n.
Proof.
  unfold call_message. intros H.
  apply String.app_inj, append_inj_r in H. by apply pretty_Z_inj in H.
Qed.

Lemma unknown_message_inj m n : unknown_message m = unknown_message n -> m = n.
Proof.
  unfold unknown_message. intros H.
  apply String.app_inj, append_inj_r in H. by apply pretty_Z_inj in H.
Qed.

Lemma log_not_call m n : log_message m <> call_message n.
Proof.
  unfold log_message, call_message. rewrite !append_cons. intros H; discriminate H.
Qed.
Lemma log_not_unknown m n : log_message m <> unknown_message n.
Proof.
  unfold log_message, unknown_message. rewrite !append_cons.
  intros H; discriminate H.
Qed.
Lemma call_not_unknown m n : call_message m <> unknown_message n.
Proof.
  unfold call_message, unknown_message. rewrite !append_cons.
  intros H; discriminate H.
Qed.

(** The recommendations, when some rule fired. *)
Lemma elem_of_recommendations x ops :
  x ∈ recommendations (analyze_opcodes ops) <->
  (specific_recommendations ops = [] /\ x = generic_message)
  \/ x ∈ specific_recommendations ops.
Proof.
  destruct (specific_or_generic ops) as [[Hnil ->]|[Hne ->]].
  - rewrite Hnil, list_elem_of_singleton. split; [auto|].
    intros [[_ ?]|H]; [done|inversion H].
  - split; [auto|]. intros [[? _]|?]; done.
Qed.

(** X15: the LOG, CALL and UNKNOWN rules are strict like the SSTORE rule:
    the LOG recommendation is given exactly when LOG0..LOG4 occur more than
    10 times in all, the call recommendation exactly when CALL, DELEGATECALL
    and STATICCALL occur more than 5 times in all (CALLCODE is not counted),
    the unknown-opcode recommendation exactly when UNKNOWN occurs at all;
    and each reports the exact number. *)
Theorem log_call_unknown_rules_are_strict bytecode ops :
  decode_evm_bytecode bytecode = Some ops ->
  exists r,
    analyze_bytecode bytecode = Some r
    /\ (forall m, log_message m ∈ recommendations r
                  <-> 10 < log_ops ops /\ m = log_ops ops)
    /\ (forall m, call_message m ∈ recommendations r
                  <-> 5 < call_ops ops /\ m = call_ops ops)
    /\ (forall m, unknown_message m ∈ recommendations r
                  <-> 0 < unknown_ops ops /\ m = unknown_ops ops).
Proof.
  intros Hdec. exists (analyze_opcodes ops).
  split; [by apply analyze_bytecode_decode|].
  split; [|split]; intros m; rewrite elem_of_recommendations, elem_of_specific.
  - split.
    + intros [[_ H]|[[_ H]|[[? H]|[[_ H]|[_ H]]]]].
      * by apply log_not_generic in H.
      * symmetry in H. by apply sstore_not_log in H.
      * by apply log_message_inj in H.
      * by apply log_not_call in H.
      * by apply log_not_unknown in H.
    + intros [? ->]. tauto.
  - split.
    + intros [[_ H]|[[_ H]|[[_ H]|[[? H]|[_ H]]]]].
      * by apply call_not_generic in H.
      * symmetry in H. by apply sstore_not_call in H.
      * symmetry in H. by apply log_not_call in H.
      * by apply call_message_inj in H.
      * by apply call_not_unknown in H.
    + intros [? ->]. tauto.
  - split.
    + intros [[_ H]|[[_ H]|[[_ H]|[[_ H]|[? H]]]]].
      * by apply unknown_not_generic in H.
      * symmetry in H. by apply sstore_not_unknown in H.
      * symmetry in H. by apply log_not_unknown in H.
      * symmetry in H. by apply call_not_unknown in H.
      * by apply unknown_message_inj in H.
    + intros [? ->]. tauto.
Qed.

(** Six CALLCODE and one unknown byte. *)
Lemma log_call_unknown_rules_are_strict_witness :
  exists r,
    analyze_bytecode "0xf2f2f2f2f2f20c" = Some r
    /\ (forall m, log_message m ∈ recommendations r
                  <-> 10 < log_ops (replicate 6 "CALLCODE" ++ ["UNKNOWN"])
                      /\ m = log_ops (replicate 6 "CALLCODE" ++ ["UNKNOWN"]))
    /\ (forall m, call_message m ∈ recommendations r
                  <-> 5 < call_ops (replicate 6 "CALLCODE" ++ ["UNKNOWN"])
                      /\ m = call_ops (replicate 6 "CALLCODE" ++ ["UNKNOWN"]))
    /\ (forall m, unknown_message m ∈ recommendations r
                  <-> 0 < unknown_ops (replicate 6 "CALLCODE" ++ ["UNKNOWN"])
                      /\ m = unknown_ops (replicate 6 "CALLCODE" ++ ["UNKNOWN"])).
Proof.
  apply (log_call_unknown_rules_are_strict
           "0xf2f2f2f2f2f20c" (replicate 6 "CALLCODE" ++ ["UNKNOWN"])).
  vm_compute. reflexivity.
Defined.

(** Six CALLCODE do not make the call rule fire. *)
Example callcode_is_not_a_counted_call :
  recommendations <$> analyze_bytecode "0xf2f2f2f2f2f20c"
  = Some [unknown_message 1].
Proof. vm_compute. reflexivity. Qed.

(** X16: the recommendations are never empty and never more than four, and
    no recommendation is given twice. *)
Theorem recommendations_are_one_to_four bytecode ops :
  decode_evm_bytecode bytecode = Some ops ->
  exists r,
    analyze_bytecode bytecode = Some r
    /\ (1 <= length (recommendations r) <= 4)%nat
    /\ NoDup (recommendations r).
Proof.
  intros Hdec. exists (analyze_opcodes ops).
  split; [by apply analyze_bytecode_decode|].
  rewrite analyze_opcodes_recommendations. unfold specific_recommendations.
  pose proof (sstore_not_log (sstore_count ops) (log_ops ops)).
  pose proof (sstore_not_call (sstore_count ops) (call_ops ops)).
  pose proof (sstore_not_unknown (sstore_count ops) (unknown_ops ops)).
  pose proof (log_not_call (log_ops ops) (call_ops ops)).
  pose proof (log_not_unknown (log_ops ops) (unknown_ops ops)).
  pose proof (call_not_unknown (call_ops ops) (unknown_ops ops)).
  destruct (10 <? sstore_count ops), (10 <? log_ops ops), (5 <? call_ops ops),
    (0 <? unknown_ops ops); cbn [rule app length]; (split; [lia|]);
    repeat (apply NoDup_cons; split;
            [rewrite ?elem_of_cons, elem_of_nil; intuition congruence|]);
    apply NoDup_nil_2.
Qed.

Lemma recommendations_are_one_to_four_witness :
  exists r,
    analyze_bytecode "0xf2f2f2f2f2f20c" = Some r
    /\ (1 <= length (recommendations r) <= 4)%nat
    /\ NoDup (recommendations r).
Proof.
  apply (recommendations_are_one_to_four
           "0xf2f2f2f2f2f20c" (replicate 6 "CALLCODE" ++ ["UNKNOWN"])).
  vm_compute. reflexivity.
Defined.

End analyzer_further_properties.

(** ** Forecasting: the predictions lie on the fitted line *)

Section forecast_further_properties.
Import Forecast.
Local Open Scope float_scope.

Lemma map_lookup {A B} (f : A -> B) (l : list A) (i : nat) :
  map f l !! i = f <$> (l !! i).
Proof.
  revert i. induction l as [|x l IH]; intros [|i]; cbn [map]; try done.
  apply IH.
Qed.

(** X18: whenever the forecast returns, it returns exactly [horizon]
    predictions (none for a horizon that is not positive); on a series of
    at least two values the prediction number [k] is the returned line at
    the time index [len(values) + k]. *)
Theorem forecast_predictions_follow_the_line values horizon r :
  forecast_time_series values horizon = Some r ->
  length (predictions r) = Z.to_nat horizon
  /\ ((2 <= length values)%nat ->
      forall k, (k < Z.to_nat horizon)%nat ->
        predictions r !! k
        = Some (slope r * Py.float_of_Z (Z.of_nat (length values) + Z.of_nat k)
                + intercept r)).
Proof.
  unfold forecast_time_series.
  destruct (Nat.ltb_spec (length values) 2) as [Hshort|Hlong].
  - intros [= <-]. cbn [predictions]. rewrite list_mul_singleton, length_replicate.
    split; [reflexivity|]. lia.
  - destruct (Py.fdiv (Py.float_of_Z _) _) as [mean_x|];
      cbn [mbind option_bind]; [|done].
    destruct (Py.fdiv (Py.fsum values) _) as [mean_y|];
      cbn [mbind option_bind]; [|done].
    destruct (Py.fdiv _ _) as [m|]; cbn [mbind option_bind]; [|done].
    intros [= <-]. cbn [predictions slope intercept].
    rewrite length_map, length_seqZ. split; [reflexivity|].
    intros _ k Hk. rewrite map_lookup, lookup_seqZ_lt by lia. reflexivity.
Qed.

Lemma forecast_predictions_follow_the_line_witness :
  length [4; 5] = Z.to_nat 2
  /\ ((2 <= length [1; 2; 3])%nat ->
      forall k, (k < Z.to_nat 2)%nat ->
        [4; 5] !! k
        = Some (1 * Py.float_of_Z (Z.of_nat (length [1; 2; 3]) + Z.of_nat k) + 1)).
Proof.
  apply (forecast_predictions_follow_the_line [1; 2; 3] 2
           {| predictions := [4; 5]; slope := 1; intercept := 1 |}).
  vm_compute. reflexivity.
Defined.

End forecast_further_properties.

(** ** Insertion-ordered dictionaries *)

Section odict_properties.
Context {K V : Type} `{EqDecision K}.

(** Setting a key keeps the keys, or appends the new one. *)
Lemma odict_set_keys (d : Py.odict K V) k v :
  map fst (Py.odict_set d k v)
  = if bool_decide (k ∈ map fst d) then map fst d else map fst d ++ [k].
Proof.
  induction d as [|[k' v'] d IH]; cbn [Py.odict_set map fst].
  - rewrite bool_decide_eq_false_2; [done|]. by intros ?%elem_of_nil.
  - destruct (decide (k' = k)) as [->|Hne]; cbn [map fst].
    + rewrite bool_decide_eq_true_2; [done|]. apply list_elem_of_here.
    + rewrite IH. destruct (bool_decide (k ∈ map fst d)) eqn:Hin.
      * apply bool_decide_eq_true in Hin.
        rewrite bool_decide_eq_true_2; [done|]. by apply list_elem_of_further.
      * apply bool_decide_eq_false in Hin.
        rewrite bool_decide_eq_false_2; [done|].
        intros [?|?]%elem_of_cons; congruence.
Qed.

Lemma odict_set_elem_of (d : Py.odict K V) k v k' :
  k' ∈ map fst (Py.odict_set d k v) <-> k' = k \/ k' ∈ map fst d.
Proof.
  rewrite odict_set_keys. destruct (bool_decide (k ∈ map fst d)) eqn:Hin.
  - apply bool_decide_eq_true in Hin. split; [auto|]. by intros [->|?].
  - rewrite elem_of_app, list_elem_of_singleton. tauto.
Qed.

Lemma odict_set_NoDup (d : Py.odict K V) k v :
  NoDup (map fst d) -> NoDup (map fst (Py.odict_set d k v)).
Proof.
  intros Hd. rewrite odict_set_keys.
  destruct (bool_decide (k ∈ map fst d)) eqn:Hin; [done|].
  apply bool_decide_eq_false in Hin. apply NoDup_app. split; [done|].
  split; [|apply NoDup_singleton].
  intros x Hx ->%list_elem_of_singleton. done.
Qed.

(** Reading after setting. *)
Lemma odict_get_set (d : Py.odict K V) k v k' dflt :
  Py.odict_get (Py.odict_set d k v) k' dflt
  = if decide (k = k') then v else Py.odict_get d k' dflt.
Proof.
  induction d as [|[k0 v0] d IH]; cbn [Py.odict_set Py.odict_get].
  - destruct (decide (k = k')); reflexivity.
  - destruct (decide (k0 = k)) as [->|Hne]; cbn [Py.odict_get].
    + destruct (decide (k = k')); reflexivity.
    + destruct (decide (k0 = k')) as [->|Hne'].
      * by rewrite decide_False by congruence.
      * apply IH.
Qed.

(** An item of a dictionary is what reading its key gives. *)
Lemma odict_get_item (d : Py.odict K V) k v dflt :
  NoDup (map fst d) -> (k, v) ∈ d -> Py.odict_get d k dflt = v.
Proof.
  induction d as [|[k0 v0] d IH]; cbn [map fst Py.odict_get]; intros Hd Hin.
  - by apply elem_of_nil in Hin.
  - apply NoDup_cons in Hd as [Hk0 Hd].
    apply elem_of_cons in Hin as [[= <- <-]|Hin].
    + by rewrite decide_True.
    + rewrite decide_False; [by apply IH|].
      intros ->. apply Hk0.
      change (map fst d) with (fst <$> d).
      apply list_elem_of_fmap. by exists (k, v).
Qed.

End odict_properties.

(** ** Liquidity and bridge flows: balances and totals *)

Section liquidity_further_properties.
Import Liquidity.
Local Open Scope float_scope.

(** The event types are one string: at most one branch is taken. *)
Lemma record_event_bridge st ev :
  (record_event st ev).2
  = if is_bridge ev
    then Py.odict_set st.2 (event_key ev)
           (Py.odict_get st.2 (event_key ev) 0 + amount ev)
    else st.2.
Proof.
  destruct st as [tvl bm]. unfold record_event, is_bridge, event_key.
  destruct (String.eqb_spec (event_type ev) "stake") as [Hs|_];
    [rewrite Hs; reflexivity|].
  destruct (String.eqb_spec (event_type ev) "unstake") as [Hu|_];
    [rewrite Hu; reflexivity|].
  destruct (String.eqb (event_type ev) "bridge_out"),
    (String.eqb (event_type ev) "bridge_in"); reflexivity.
Qed.

(** The balance of a protocol after one event. *)
Lemma record_event_lookup st ev p :
  (record_event st ev).1 !! p
  = if decide (protocol ev = p)
    then Some (tvl_after ev (tvl_of st.1 p))
    else st.1 !! p.
Proof.
  destruct st as [tvl bm]. unfold record_event, tvl_after, tvl_of. cbn [fst].
  rewrite !lookup_insert_eq. cbn [default]. unfold id.
  destruct (decide (protocol ev = p)) as [<-|Hne];
    repeat match goal with
           | |- context [if String.eqb ?a ?b then _ else _] =>
               destruct (String.eqb a b)
           end; cbn [fst];
    rewrite ?lookup_insert_eq, ?lookup_insert_ne by done; reflexivity.
Qed.

(** The balance of a protocol after the loop: untouched when no event
    names it, else what its events make of the balance before. *)
Lemma fold_lookup events st p :
  (fold_left record_event events st).1 !! p
  = match protocol_events p events with
    | [] => st.1 !! p
    | _ => Some (fold_left (fun tvl ev => tvl_after ev tvl)
                   (protocol_events p events) (tvl_of st.1 p))
    end.
Proof.
  revert st. induction events as [|ev events IH]; intros st; [reflexivity|].
  cbn [fold_left]. rewrite IH. unfold protocol_events. rewrite filter_cons.
  unfold tvl_of at 1. rewrite record_event_lookup.
  destruct (decide (protocol ev = p)) as [Hp|Hp]; cbn [default fold_left].
  - unfold id. by destruct (filter _ events).
  - reflexivity.
Qed.

(** X19: the balance reported for a protocol is made from the events of
    that protocol alone, in the order of the input and starting from 0.0:
    a stake or bridge_in adds its amount, an unstake or bridge_out
    subtracts it, any other type leaves the balance; the events of other
    protocols make no difference. *)
Theorem tvl_is_the_balance_of_the_protocol events :
  (forall p, p ∈ map protocol events ->
             tvl_by_protocol (analyze_liquidity_bridge events) !! p
             = Some (balance p events))
  /\ (forall p,
         tvl_by_protocol (analyze_liquidity_bridge events) !! p
         = tvl_by_protocol
             (analyze_liquidity_bridge (protocol_events p events)) !! p).
Proof.
  split.
  - intros p Hp. rewrite analyze_tvl, fold_lookup. cbn [fst].
    unfold balance, tvl_of. rewrite lookup_empty. cbn [default].
    destruct (protocol_events p events) as [|ev evs] eqn:Hevs; [|reflexivity].
    exfalso. change (map protocol events) with (protocol <$> events) in Hp.
    apply list_elem_of_fmap in Hp as (ev & -> & Hev).
    assert (Hin : ev ∈ protocol_events (protocol ev) events)
      by (by apply list_elem_of_filter).
    rewrite Hevs in Hin. by apply elem_of_nil in Hin.
  - intros p. rewrite !analyze_tvl, !fold_lookup.
    assert (Hidem : protocol_events p (protocol_events p events)
                    = protocol_events p events).
    { unfold protocol_events. clear. induction events as [|ev events IH];
        [reflexivity|].
      rewrite filter_cons. destruct (decide (protocol ev = p)) as [Hp|Hp].
      - by rewrite filter_cons, decide_True, IH by done.
      - exact IH. }
    by rewrite Hidem.
Qed.

(** The balance of ["hop"] in [bridge_events]: 10 staked, 4 sent out, 1
    received. *)
Lemma tvl_is_the_balance_of_the_protocol_witness :
  tvl_by_protocol (analyze_liquidity_bridge bridge_events) !! "hop"
  = Some (balance "hop" bridge_events).
Proof.
  apply (proj1 (tvl_is_the_balance_of_the_protocol bridge_events) "hop").
  cbn [bridge_events map protocol]. apply list_elem_of_here.
Defined.

(** The analysis of [bridge_events], evaluated. *)
Example bridge_events_balances :
  tvl_by_protocol (analyze_liquidity_bridge bridge_events) !! "hop" = Some 7
  /\ tvl_by_protocol (analyze_liquidity_bridge bridge_events) !! "across" = Some 2
  /\ map total_amount (bridge_flows (analyze_liquidity_bridge bridge_events))
     = [5; 2].
Proof. vm_compute. auto. Qed.

(** The keys of the bridge map after the loop. *)
Lemma fold_bridge_keys events st :
  NoDup (map fst st.2) ->
  NoDup (map fst (fold_left record_event events st).2)
  /\ forall key,
      key ∈ map fst (fold_left record_event events st).2
      <-> key ∈ map fst st.2
          \/ exists ev, ev ∈ events /\ is_bridge ev = true /\ event_key ev = key.
Proof.
  revert st. induction events as [|ev events IH]; intros st Hst; cbn [fold_left].
  - split; [done|]. intros key. split; [auto|].
    intros [?|(ev & Hev & _)]; [done|]. by apply elem_of_nil in Hev.
  - assert (Hst' : NoDup (map fst (record_event st ev).2)).
    { rewrite record_event_bridge. destruct (is_bridge ev); [|done].
      by apply odict_set_NoDup. }
    destruct (IH _ Hst') as [Hnd Hkeys]. split; [exact Hnd|].
    intros key. rewrite Hkeys, record_event_bridge.
    destruct (is_bridge ev) eqn:Hb.
    + rewrite odict_set_elem_of. split.
      * intros [[->|?]|(ev' & Hev' & ?)]; [right|by left|right].
        -- exists ev. split; [apply list_elem_of_here|done].
        -- exists ev'. split; [by apply list_elem_of_further|done].
      * intros [?|(ev' & [->|Hev']%elem_of_cons & Hb' & Hk)]; [tauto| |].
        -- left. left. done.
        -- right. by exists ev'.
    + split.
      * intros [?|(ev' & Hev' & ?)]; [by left|right].
        exists ev'. split; [by apply list_elem_of_further|done].
      * intros [?|(ev' & [->|Hev']%elem_of_cons & Hb' & Hk)]; [tauto| |].
        -- congruence.
        -- right. by exists ev'.
Qed.

(** The total of a key after the loop. *)
Lemma fold_bridge_total events st key :
  Py.odict_get (fold_left record_event events st).2 key 0
  = fold_left (fun total ev => total + amount ev) (flow_events key events)
      (Py.odict_get st.2 key 0).
Proof.
  revert st. induction events as [|ev events IH]; intros st; [reflexivity|].
  cbn [fold_left]. rewrite IH, record_event_bridge.
  unfold flow_events. rewrite filter_cons.
  destruct (is_bridge ev) eqn:Hb.
  - rewrite odict_get_set. destruct (decide (event_key ev = key)) as [<-|Hne].
    + by rewrite decide_True.
    + by rewrite decide_False by tauto.
  - rewrite decide_False; [done|]. intros [? _]. congruence.
Qed.

(** The flows are the items of the bridge map. *)
Lemma flow_keys events :
  map flow_key (bridge_flows (analyze_liquidity_bridge events))
  = map fst (fold_left record_event events (∅, [])).2.
Proof.
  rewrite analyze_flows. rewrite List.map_map.
  apply List.map_ext. by intros [[[? ?] ?] ?].
Qed.

(** X20: the bridge flows have one entry per route: no two flows share
    protocol, source and destination chain, and the routes listed are
    exactly those of the bridge_out and bridge_in events of the input. *)
Theorem bridge_flows_one_per_route events :
  NoDup (map flow_key (bridge_flows (analyze_liquidity_bridge events)))
  /\ forall key,
      key ∈ map flow_key (bridge_flows (analyze_liquidity_bridge events))
      <-> exists ev, ev ∈ events /\ is_bridge ev = true /\ event_key ev = key.
Proof.
  rewrite flow_keys.
  destruct (fold_bridge_keys events (∅, [])) as [Hnd Hkeys];
    [apply NoDup_nil_2|].
  split; [exact Hnd|]. intros key. rewrite Hkeys. cbn [snd map].
  split; [|auto]. intros [Hin|?]; [|done]. by apply elem_of_nil in Hin.
Qed.

(** The route of ["hop"] from ["eth"] to ["arb"] in [bridge_events]. *)
Lemma bridge_flows_one_per_route_witness :
  ("hop", "eth", "arb")
    ∈ map flow_key (bridge_flows (analyze_liquidity_bridge bridge_events)).
Proof.
  apply (proj2 (bridge_flows_one_per_route bridge_events) ("hop", "eth", "arb")).
  eexists. split; [apply list_elem_of_further, list_elem_of_here|].
  split; reflexivity.
Defined.

(** X21: the total of a bridge flow is the sum of the amounts of the
    bridge_out and bridge_in events of its route alike (both directions
    add), in the order of the input and starting from 0.0. *)
Theorem bridge_flow_total_sums_both_directions events f :
  f ∈ bridge_flows (analyze_liquidity_bridge events) ->
  total_amount f = flow_total (flow_key f) events.
Proof.
  intros Hf. rewrite analyze_flows in Hf.
  destruct (fold_bridge_keys events (∅, [])) as [Hnd _]; [apply NoDup_nil_2|].
  pose proof (fold_bridge_total events (∅, []) (flow_key f)) as Htotal.
  set (bm := (fold_left record_event events (∅, [])).2) in *.
  match type of Hf with
  | _ ∈ map ?g bm => change (f ∈ g <$> bm) in Hf
  end.
  apply list_elem_of_fmap in Hf as ([[[p c1] c2] total] & -> & Hitem).
  cbn [total_amount flow_key flow_protocol from_chain to_chain] in *.
  rewrite (odict_get_item bm _ total 0 Hnd Hitem) in Htotal.
  exact Htotal.
Qed.

Lemma bridge_flow_total_sums_both_directions_witness :
  total_amount {| flow_protocol := "hop"; from_chain := "eth";
                  to_chain := "arb"; total_amount := 5 |}
  = flow_total ("hop", "eth", "arb") bridge_events.
Proof.
  apply (bridge_flow_total_sums_both_directions bridge_events
           {| flow_protocol := "hop"; from_chain := "eth";
              to_chain := "arb"; total_amount := 5 |}).
  vm_compute. apply list_elem_of_here.
Defined.

End liquidity_further_properties.

(** ** MEV and bot detection: the patterns and their precedence *)

Section mev_further_properties.
Import Mev.
Local Open Scope float_scope.

(** The first index that passes a test. *)
Lemma find_seq_Some (test : nat -> bool) a n i :
  List.find test (seq a n) = Some i ->
  (a <= i < a + n)%nat /\ test i = true
  /\ forall j, (a <= j < i)%nat -> test j = false.
Proof.
  revert a. induction n as [|n IH]; intros a; cbn [seq List.find]; [done|].
  destruct (test a) eqn:Ha.
  - intros [= <-]. split; [lia|]. split; [done|]. intros j Hj. lia.
  - intros H. apply IH in H as (Hr & Ht & Hf).
    split; [lia|]. split; [done|]. intros j Hj.
    destruct (decide (j = a)) as [->|Hne]; [done|]. apply Hf. lia.
Qed.

Lemma find_seq_None (test : nat -> bool) a n :
  List.find test (seq a n) = None ->
  forall j, (a <= j < a + n)%nat -> test j = false.
Proof.
  revert a. induction n as [|n IH]; intros a; cbn [seq List.find]; [lia|].
  destruct (test a) eqn:Ha; [done|]. intros H j Hj.
  destruct (decide (j = a)) as [->|Hne]; [done|]. apply (IH _ H). lia.
Qed.

Lemma first_index_Some test n i :
  first_index test n = Some i ->
  (i < n)%nat /\ test i = true /\ forall j, (j < i)%nat -> test j = false.
Proof.
  intros (Hr & Ht & Hf)%find_seq_Some.
  split; [lia|]. split; [done|]. intros j Hj. apply Hf. lia.
Qed.

Lemma first_index_None test n :
  first_index test n = None <-> forall j, (j < n)%nat -> test j = false.
Proof.
  split.
  - intros H j Hj. apply (find_seq_None _ _ _ H). lia.
  - intros H. destruct (first_index test n) as [i|] eqn:E; [|done].
    apply first_index_Some in E as (Hi & Ht & _). rewrite H in Ht by done. done.
Qed.

(** What the test of the sandwich loop says of the three transactions. *)
Lemma sandwich_at_true txs i :
  sandwich_at txs i = true ->
  exists a b c,
    txs !! i = Some a /\ txs !! (i + 1)%nat = Some b /\ txs !! (i + 2)%nat = Some c
    /\ Py.lower (from_address a) = Py.lower (from_address c)
    /\ Py.lower (to_address a) = Py.lower (to_address c)
    /\ Py.lower (from_address b) <> Py.lower (from_address a)
    /\ (timestamp b - timestamp a < 30)%Z
    /\ (gas_price a <? gas_price b) = true.
Proof.
  unfold sandwich_at.
  destruct (txs !! i) as [a|]; [|done].
  destruct (txs !! (i + 1)%nat) as [b|]; [|done].
  destruct (txs !! (i + 2)%nat) as [c|]; [|done].
  destruct (String.eqb_spec (Py.lower (from_address a)) (Py.lower (from_address c)));
    [|done].
  destruct (String.eqb_spec (Py.lower (to_address a)) (Py.lower (to_address c)));
    [|done].
  destruct (String.eqb_spec (Py.lower (from_address b)) (Py.lower (from_address a)));
    [done|].
  cbn [andb negb]. intros [Ht Hg]%andb_prop.
  apply Z.ltb_lt in Ht.
  exists a, b, c. done.
Qed.

(** The same for the front-running loop. *)
Lemma front_run_at_true txs i :
  front_run_at txs i = true ->
  exists victim suspect,
    txs !! i = Some victim /\ txs !! (i + 1)%nat = Some suspect
    /\ (gas_price victim * 0x1.3333333333333p+0 <? gas_price suspect) = true
    /\ (timestamp suspect - timestamp victim < 20)%Z.
Proof.
  unfold front_run_at.
  destruct (txs !! i) as [victim|]; [|done].
  destruct (txs !! (i + 1)%nat) as [suspect|]; [|done].
  intros [Hg Ht]%andb_prop. apply Z.ltb_lt in Ht.
  exists victim, suspect. done.
Qed.

(** The counts of the targets. *)
Lemma count_fold_get txs (d : Py.odict string Z) addr :
  Py.odict_get
    (fold_left
       (fun target_counts tx =>
          Py.odict_set target_counts (Py.lower (to_address tx))
            (Py.odict_get target_counts (Py.lower (to_address tx)) 0%Z + 1)%Z)
       txs d) addr 0%Z
  = (Py.odict_get d addr 0 + to_count addr txs)%Z.
Proof.
  revert d. induction txs as [|tx txs IH]; intros d; cbn [fold_left].
  - unfold to_count. rewrite filter_nil. cbn [length]. lia.
  - rewrite IH, odict_get_set. unfold to_count. rewrite filter_cons.
    destruct (decide (Py.lower (to_address tx) = addr)) as [->|Hne];
      cbn [length]; lia.
Qed.

Lemma count_fold_NoDup txs (d : Py.odict string Z) :
  NoDup (map fst d) ->
  NoDup (map fst
           (fold_left
              (fun target_counts tx =>
                 Py.odict_set target_counts (Py.lower (to_address tx))
                   (Py.odict_get target_counts (Py.lower (to_address tx)) 0%Z + 1)%Z)
              txs d)).
Proof.
  revert d. induction txs as [|tx txs IH]; intros d Hd; cbn [fold_left]; [done|].
  by apply IH, odict_set_NoDup.
Qed.

Lemma odict_get_absent {K V} `{EqDecision K} (d : Py.odict K V) k dflt :
  k ∉ map fst d -> Py.odict_get d k dflt = dflt.
Proof.
  induction d as [|[k0 v0] d IH]; cbn [map fst Py.odict_get]; [done|].
  intros [Hne Hk]%not_elem_of_cons. rewrite decide_False by congruence.
  by apply IH.
Qed.

(** The entry of [target_counts] the liquidation loop stops at. *)
Lemma count_targets_find txs :
  match List.find (fun '(addr, count) => (3 <=? count)%Z) (count_targets txs) with
  | Some (addr, count) => count = to_count addr txs /\ (3 <= count)%Z
  | None => forall addr, (to_count addr txs < 3)%Z
  end.
Proof.
  pose proof (count_fold_NoDup txs [] (NoDup_nil_2 (A:=string))) as Hnd.
  pose proof (fun addr => count_fold_get txs [] addr) as Hget.
  fold (count_targets txs) in Hnd, Hget. cbn [Py.odict_get] in Hget.
  destruct (List.find _ (count_targets txs)) as [[addr count]|] eqn:E.
  - apply List.find_some in E as [Hin Hc]. apply Z.leb_le in Hc.
    apply list_elem_of_In in Hin.
    specialize (Hget addr).
    rewrite (odict_get_item _ _ _ 0%Z Hnd Hin) in Hget. split; lia.
  - intros addr. specialize (Hget addr).
    destruct (decide (addr ∈ map fst (count_targets txs))) as [Hk|Hk].
    + change (addr ∈ fst <$> count_targets txs) in Hk.
      apply list_elem_of_fmap in Hk as ([addr' count] & -> & Hin). cbn [fst] in *.
      rewrite (odict_get_item _ _ _ 0%Z Hnd Hin) in Hget.
      apply list_elem_of_In in Hin.
      pose proof (List.find_none _ _ E _ Hin) as Hc. cbn in Hc.
      apply Z.leb_gt in Hc. lia.
    + rewrite (odict_get_absent _ _ _ Hk) in Hget. lia.
Qed.

Lemma to_count_sorted addr txs :
  to_count addr (Py.sorted timestamp txs) = to_count addr txs.
Proof. unfold to_count. by rewrite sorted_perm. Qed.

(** What [detect_mev_bot] does on two transactions or more, by the first
    pattern found. *)
Lemma detect_mev_bot_cases transactions :
  (2 <= length transactions)%nat ->
  match first_index (sandwich_at (Py.sorted timestamp transactions))
          (length (Py.sorted timestamp transactions) - 2) with
  | Some i =>
      exists a b,
        Py.sorted timestamp transactions !! i = Some a
        /\ Py.sorted timestamp transactions !! (i + 1)%nat = Some b
        /\ detect_mev_bot transactions
           = Py.Ok {| bot_type := "arbitrage_bot"; mev_strategy := "sandwich";
                      spam_score := 0x1.ccccccccccccdp-1;
                      details := Sandwich [i; (i + 1)%nat; (i + 2)%nat]
                                   (from_address b) (from_address a) |}
  | None =>
      match first_index (front_run_at (Py.sorted timestamp transactions))
              (length (Py.sorted timestamp transactions) - 1) with
      | Some i =>
          exists victim suspect,
            Py.sorted timestamp transactions !! i = Some victim
            /\ Py.sorted timestamp transactions !! (i + 1)%nat = Some suspect
            /\ detect_mev_bot transactions
               = Py.Ok {| bot_type := "sniper_bot";
                          mev_strategy := "front_running";
                          spam_score := 0x1.6666666666666p-1;
                          details := FrontRun [i; (i + 1)%nat]
                                       (from_address suspect)
                                       (from_address victim) |}
      | None =>
          match List.find (fun '(addr, count) => (3 <=? count)%Z)
                  (count_targets (Py.sorted timestamp transactions)) with
          | Some (addr, count) =>
              detect_mev_bot transactions
              = Py.Ok {| bot_type := "liquidation_bot";
                         mev_strategy := "liquidation";
                         spam_score := 0x1.999999999999ap-1;
                         details := Liquidation addr count |}
          | None =>
              (Exists
                 (fun tx =>
                    square_overflows
                      (gas_price tx
                       - mean_gas (Py.sorted timestamp transactions)) = true)
                 (Py.sorted timestamp transactions)
               /\ detect_mev_bot transactions = Py.Raise Py.OverflowError)
              \/ (Forall
                    (fun tx =>
                       square_overflows
                         (gas_price tx
                          - mean_gas (Py.sorted timestamp transactions)) = false)
                    (Py.sorted timestamp transactions)
                  /\ exists q,
                       (0x1.999999999999ap-3 <? q) = false
                       /\ detect_mev_bot transactions
                          = Py.Ok {| bot_type := "none"; mev_strategy := "none";
                                     spam_score := q; details := NoDetails |})
          end
      end
  end.
Proof.
  intros Hlen.
  destruct (first_index (sandwich_at _) _) as [i|] eqn:E1.
  { unfold detect_mev_bot.
    destruct (Nat.ltb_spec (length transactions) 2) as [|_]; [lia|].
    rewrite E1.
    apply first_index_Some in E1 as (_ & Ht & _).
    apply sandwich_at_true in Ht as (a & b & c & Ha & Hb & _).
    rewrite Ha, Hb. cbn [spam_score].
    change (0x1.ccccccccccccdp-1 =? 0) with false. cbv iota. by exists a, b. }
  destruct (first_index (front_run_at _) _) as [i|] eqn:E2.
  { unfold detect_mev_bot.
    destruct (Nat.ltb_spec (length transactions) 2) as [|_]; [lia|].
    rewrite E1. cbn [spam_score]. change (0 =? 0) with true. cbv iota.
    rewrite E2.
    apply first_index_Some in E2 as (_ & Ht & _).
    apply front_run_at_true in Ht as (victim & suspect & Hv & Hs & _).
    rewrite Hv, Hs. cbn [spam_score].
    change (0x1.6666666666666p-1 =? 0) with false. cbv iota.
    by exists victim, suspect. }
  destruct (List.find _ _) as [[addr count]|] eqn:E3.
  { unfold detect_mev_bot.
    destruct (Nat.ltb_spec (length transactions) 2) as [|_]; [lia|].
    rewrite E1. cbn [spam_score]. change (0 =? 0) with true. cbv iota.
    rewrite E2. cbn [spam_score]. change (0 =? 0) with true. cbv iota.
    rewrite E3. cbn [spam_score].
    change (0x1.999999999999ap-1 =? 0) with false. by cbv iota. }
  rewrite (detect_mev_bot_no_pattern transactions Hlen) by done.
  destruct (variance_score_spec (Py.sorted timestamp transactions) 0)
    as [[Hex ->]|[Hall (q & -> & Hq)]].
  - apply sorted_nonempty. intros ->. cbn [length] in Hlen. lia.
  - by left.
  - right. split; [done|]. by exists q.
Qed.

(** On fewer than two transactions. *)
Lemma detect_mev_bot_short transactions :
  (length transactions < 2)%nat ->
  detect_mev_bot transactions
  = Py.Ok {| bot_type := "none"; mev_strategy := "none"; spam_score := 0;
             details := Reason "not enough data" |}.
Proof.
  intros Hshort. unfold detect_mev_bot.
  by destruct (Nat.ltb_spec (length transactions) 2) as [_|]; [|lia].
Qed.



(** X23: on two transactions or more the patterns are tried in a fixed
    order on the transactions sorted by timestamp, and the first that is
    found decides the result, which is then always returned: a sandwich
    exactly when the sandwich loop finds one; front-running exactly when
    it finds none and the front-running loop, with its binary64 test,
    finds a pair; a liquidation bot exactly when neither loop finds
    anything and three or more transactions of the input go to one target.
    When none of the three is found the result is no bot, or the
    [OverflowError] of the variance block. *)
Theorem mev_patterns_take_precedence transactions :
  (2 <= length transactions)%nat ->
  (has_sandwich (Py.sorted timestamp transactions)
   <-> exists r, detect_mev_bot transactions = Py.Ok r
                 /\ bot_type r = "arbitrage_bot")
  /\ (~ has_sandwich (Py.sorted timestamp transactions)
      /\ has_front_run (Py.sorted timestamp transactions)
      <-> exists r, detect_mev_bot transactions = Py.Ok r
                    /\ bot_type r = "sniper_bot")
  /\ (~ has_sandwich (Py.sorted timestamp transactions)
      /\ ~ has_front_run (Py.sorted timestamp transactions)
      /\ (exists addr, (3 <= to_count addr transactions)%Z)
      <-> exists r, detect_mev_bot transactions = Py.Ok r
                    /\ bot_type r = "liquidation_bot")
  /\ (~ has_sandwich (Py.sorted timestamp transactions)
      /\ ~ has_front_run (Py.sorted timestamp transactions)
      /\ (forall addr, (to_count addr transactions < 3)%Z)
      <-> detect_mev_bot transactions = Py.Raise Py.OverflowError
          \/ exists r, detect_mev_bot transactions = Py.Ok r
                       /\ bot_type r = "none").
Proof.
  intros Hlen. pose proof (detect_mev_bot_cases transactions Hlen) as H.
  pose proof (count_targets_find (Py.sorted timestamp transactions)) as Hc.
  unfold has_sandwich, has_front_run.
  destruct (first_index (sandwich_at _) _) as [i|] eqn:E1.
  { destruct H as (a & b & _ & _ & ->).
    assert (Hs : exists i,
               (i < length (Py.sorted timestamp transactions) - 2)%nat
               /\ sandwich_at (Py.sorted timestamp transactions) i = true).
    { apply first_index_Some in E1 as (? & ? & _). eauto. }
    split; [split; [intros _; by eexists|done]|].
    split; [split; [intros [Hn _]; by destruct Hn|intros (r & [= <-] & [=])]|].
    split; [split; [intros [Hn _]; by destruct Hn|intros (r & [= <-] & [=])]|].
    split; [intros [Hn _]; by destruct Hn|].
    intros [[=]|(r & [= <-] & [=])]. }
  assert (Hs : ~ exists i,
               (i < length (Py.sorted timestamp transactions) - 2)%nat
               /\ sandwich_at (Py.sorted timestamp transactions) i = true).
  { intros (i & Hi & Ht). rewrite first_index_None in E1.
    rewrite E1 in Ht by done. done. }
  destruct (first_index (front_run_at _) _) as [i|] eqn:E2.
  { destruct H as (a & b & _ & _ & ->).
    assert (Hf : exists i,
               (i < length (Py.sorted timestamp transactions) - 1)%nat
               /\ front_run_at (Py.sorted timestamp transactions) i = true).
    { apply first_index_Some in E2 as (? & ? & _). eauto. }
    split; [split; [intros Hx; by destruct Hs|intros (r & [= <-] & [=])]|].
    split; [split; [intros _; by eexists|done]|].
    split; [split; [intros (_ & Hn & _); by destruct Hn
                   |intros (r & [= <-] & [=])]|].
    split; [intros (_ & Hn & _); by destruct Hn|].
    intros [[=]|(r & [= <-] & [=])]. }
  assert (Hf : ~ exists i,
               (i < length (Py.sorted timestamp transactions) - 1)%nat
               /\ front_run_at (Py.sorted timestamp transactions) i = true).
  { intros (i & Hi & Ht). rewrite first_index_None in E2.
    rewrite E2 in Ht by done. done. }
  destruct (List.find _ _) as [[addr count]|].
  { rewrite H. destruct Hc as [-> Hge]. rewrite to_count_sorted in Hge.
    split; [split; [intros Hx; by destruct Hs|intros (r & [= <-] & [=])]|].
    split; [split; [intros [_ Hx]; by destruct Hf|intros (r & [= <-] & [=])]|].
    split; [split; [intros _; by eexists|intros _; eauto]|].
    split.
    - intros (_ & _ & Hlt). specialize (Hlt addr). lia.
    - intros [[=]|(r & [= <-] & [=])]. }
  assert (Hlt : forall addr, (to_count addr transactions < 3)%Z).
  { intros addr. rewrite <- to_count_sorted. apply Hc. }
  split; [split; [intros Hx; by destruct Hs|]|].
  { destruct H as [[_ ->]|[_ (q & _ & ->)]]; [intros (r & [=] & _)
                                     |intros (r & [= <-] & [=])]. }
  split; [split; [intros [_ Hx]; by destruct Hf|]|].
  { destruct H as [[_ ->]|[_ (q & _ & ->)]]; [intros (r & [=] & _)
                                     |intros (r & [= <-] & [=])]. }
  split; [split; [intros (_ & _ & addr & Hge); specialize (Hlt addr); lia|]|].
  { destruct H as [[_ ->]|[_ (q & _ & ->)]]; [intros (r & [=] & _)
                                     |intros (r & [= <-] & [=])]. }
  split; [intros _|done].
  destruct H as [[_ ->]|[_ (q & _ & ->)]]; [by left|right; by eexists].
Qed.

Lemma mev_patterns_take_precedence_witness :
  (has_sandwich (Py.sorted timestamp repeated_target_transactions)
   <-> exists r, detect_mev_bot repeated_target_transactions = Py.Ok r
                 /\ bot_type r = "arbitrage_bot")
  /\ (~ has_sandwich (Py.sorted timestamp repeated_target_transactions)
      /\ has_front_run (Py.sorted timestamp repeated_target_transactions)
      <-> exists r, detect_mev_bot repeated_target_transactions = Py.Ok r
                    /\ bot_type r = "sniper_bot")
  /\ (~ has_sandwich (Py.sorted timestamp repeated_target_transactions)
      /\ ~ has_front_run (Py.sorted timestamp repeated_target_transactions)
      /\ (exists addr, (3 <= to_count addr repeated_target_transactions)%Z)
      <-> exists r, detect_mev_bot repeated_target_transactions = Py.Ok r
                    /\ bot_type r = "liquidation_bot")
  /\ (~ has_sandwich (Py.sorted timestamp repeated_target_transactions)
      /\ ~ has_front_run (Py.sorted timestamp repeated_target_transactions)
      /\ (forall addr, (to_count addr repeated_target_transactions < 3)%Z)
      <-> detect_mev_bot repeated_target_transactions = Py.Raise Py.OverflowError
          \/ exists r, detect_mev_bot repeated_target_transactions = Py.Ok r
                       /\ bot_type r = "none").
Proof.
  apply (mev_patterns_take_precedence repeated_target_transactions).
  cbn [repeated_target_transactions length]. lia.
Defined.

(** The analysis of [repeated_target_transactions], evaluated. *)
Example repeated_target_detected :
  detect_mev_bot repeated_target_transactions
  = Py.Ok {| bot_type := "liquidation_bot"; mev_strategy := "liquidation";
             spam_score := 0x1.999999999999ap-1 (* 0.8 *);
             details := Liquidation "0xpool" 3 |}.
Proof. vm_compute. reflexivity. Qed.

(** Gas prices 7 and 8.4, five seconds apart: the binary64 product of 7
    and 1.2 is 8.4, so the pair is no front-running. *)
Example front_running_test_is_rounded :
  detect_mev_bot
    [ {| tx_hash := "0x01"; from_address := "0xaa"; to_address := "0xbb";
         value := 1; timestamp := 0; gas_price := 7 |};
      {| tx_hash := "0x02"; from_address := "0xcc"; to_address := "0xdd";
         value := 1; timestamp := 5;
         gas_price := 0x1.0cccccccccccdp+3 (* 8.4 *) |} ]
  = Py.Ok {| bot_type := "none"; mev_strategy := "none";
             spam_score := 0x1.ddddddddddde2p-5;
             details := NoDetails |}.
Proof. vm_compute. reflexivity. Qed.

(** X24: a sandwich report names three consecutive positions of the
    transactions sorted by timestamp, the first such triple there is; the
    three transactions are transactions of the input; the outer two have
    the same sender and the same target up to the case of the letters, the
    middle one another sender, a timestamp from 0 to 29 seconds after the
    first and a strictly higher gas price; the report gives the middle
    sender as the bot and the sender of the first as the victim. *)
Theorem sandwich_report_is_sound transactions r idx bot victim :
  detect_mev_bot transactions = Py.Ok r ->
  details r = Sandwich idx bot victim ->
  exists i a b c,
    idx = [i; (i + 1)%nat; (i + 2)%nat]
    /\ Py.sorted timestamp transactions !! i = Some a
    /\ Py.sorted timestamp transactions !! (i + 1)%nat = Some b
    /\ Py.sorted timestamp transactions !! (i + 2)%nat = Some c
    /\ a ∈ transactions /\ b ∈ transactions /\ c ∈ transactions
    /\ bot = from_address b /\ victim = from_address a
    /\ Py.lower (from_address a) = Py.lower (from_address c)
    /\ Py.lower (to_address a) = Py.lower (to_address c)
    /\ Py.lower (from_address b) <> Py.lower (from_address a)
    /\ (0 <= timestamp b - timestamp a < 30)%Z
    /\ (gas_price a <? gas_price b) = true
    /\ (forall j, (j < i)%nat ->
                  sandwich_at (Py.sorted timestamp transactions) j = false).
Proof.
  intros Hr Hd.
  destruct (Nat.ltb_spec (length transactions) 2) as [Hshort|Hlong].
  { rewrite (detect_mev_bot_short _ Hshort) in Hr.
    injection Hr as <-. discriminate Hd. }
  pose proof (detect_mev_bot_cases transactions Hlong) as H.
  destruct (first_index (sandwich_at _) _) as [i|] eqn:E1.
  - destruct H as (a & b & Ha & Hb & H). rewrite H in Hr. injection Hr as <-.
    cbn [details] in Hd. injection Hd as <- <- <-.
    apply first_index_Some in E1 as (_ & Ht & Hfirst).
    apply sandwich_at_true in Ht
      as (a' & b' & c & Ha' & Hb' & Hc & Hfrom & Hto & Hmid & Htime & Hgas).
    assert (a' = a) as -> by congruence. assert (b' = b) as -> by congruence.
    pose proof (sorted_neighbours timestamp transactions i a b Ha Hb) as Hord.
    assert (Hin : forall x k, Py.sorted timestamp transactions !! k = Some x ->
                              x ∈ transactions).
    { intros x k Hx. apply list_elem_of_lookup_2 in Hx.
      by rewrite sorted_perm in Hx. }
    exists i, a, b, c. repeat split; eauto; lia.
  - destruct (first_index (front_run_at _) _) as [i|].
    { destruct H as (a & b & _ & _ & H). rewrite H in Hr. injection Hr as <-.
      discriminate Hd. }
    destruct (List.find _ _) as [[addr count]|].
    { rewrite H in Hr. injection Hr as <-. discriminate Hd. }
    destruct H as [[_ H]|[_ (q & _ & H)]]; rewrite H in Hr; [discriminate Hr|].
    injection Hr as <-. discriminate Hd.
Qed.

Lemma sandwich_report_is_sound_witness :
  exists i a b c,
    [0; 1; 2]%nat = [i; (i + 1)%nat; (i + 2)%nat]
    /\ Py.sorted timestamp sandwich_transactions !! i = Some a
    /\ Py.sorted timestamp sandwich_transactions !! (i + 1)%nat = Some b
    /\ Py.sorted timestamp sandwich_transactions !! (i + 2)%nat = Some c
    /\ a ∈ sandwich_transactions /\ b ∈ sandwich_transactions
    /\ c ∈ sandwich_transactions
    /\ "0xcc" = from_address b /\ "0xAA" = from_address a
    /\ Py.lower (from_address a) = Py.lower (from_address c)
    /\ Py.lower (to_address a) = Py.lower (to_address c)
    /\ Py.lower (from_address b) <> Py.lower (from_address a)
    /\ (0 <= timestamp b - timestamp a < 30)%Z
    /\ (gas_price a <? gas_price b) = true
    /\ (forall j, (j < i)%nat ->
                  sandwich_at (Py.sorted timestamp sandwich_transactions) j = false).
Proof.
  apply (sandwich_report_is_sound sandwich_transactions
           {| bot_type := "arbitrage_bot"; mev_strategy := "sandwich";
              spam_score := 0x1.ccccccccccccdp-1;
              details := Sandwich [0; 1; 2]%nat "0xcc" "0xAA" |}).
  - vm_compute. reflexivity.
  - reflexivity.
Defined.

(** X25: a liquidation report gives a target, in lower case, and the
    number of transactions of the input sent to it whatever the case of
    the letters; that number is 3 or more. *)
Theorem liquidation_report_counts_the_target transactions r addr count :
  detect_mev_bot transactions = Py.Ok r ->
  details r = Liquidation addr count ->
  count = to_count addr transactions /\ (3 <= count)%Z
  /\ Py.lower addr = addr.
Proof.
  intros Hr Hd.
  destruct (Nat.ltb_spec (length transactions) 2) as [Hshort|Hlong].
  { rewrite (detect_mev_bot_short _ Hshort) in Hr.
    injection Hr as <-. discriminate Hd. }
  pose proof (detect_mev_bot_cases transactions Hlong) as H.
  pose proof (count_targets_find (Py.sorted timestamp transactions)) as Hc.
  destruct (first_index (sandwich_at _) _) as [i|].
  { destruct H as (a & b & _ & _ & H). rewrite H in Hr. injection Hr as <-.
    discriminate Hd. }
  destruct (first_index (front_run_at _) _) as [i|].
  { destruct H as (a & b & _ & _ & H). rewrite H in Hr. injection Hr as <-.
    discriminate Hd. }
  destruct (List.find _ _) as [[addr' count']|].
  - rewrite H in Hr. injection Hr as <-. cbn [details] in Hd.
    injection Hd as -> ->. destruct Hc as [Hcount Hge].
    rewrite to_count_sorted in Hcount. split; [done|]. split; [done|].
    assert (Hpos : (0 < to_count addr transactions)%Z) by lia.
    unfold to_count in Hpos.
    destruct (filter _ transactions) as [|tx txs] eqn:Hf; [cbn in Hpos; lia|].
    assert (Hin : tx ∈ filter (fun tx => Py.lower (to_address tx) = addr)
                         transactions)
      by (rewrite Hf; apply list_elem_of_here).
    apply list_elem_of_filter in Hin as [<- _]. apply lower_idempotent.
  - destruct H as [[_ H]|[_ (q & _ & H)]]; rewrite H in Hr; [discriminate Hr|].
    injection Hr as <-. discriminate Hd.
Qed.

Lemma liquidation_report_counts_the_target_witness :
  3%Z = to_count "0xpool" repeated_target_transactions /\ (3 <= 3)%Z
  /\ Py.lower "0xpool" = "0xpool".
Proof.
  apply (liquidation_report_counts_the_target repeated_target_transactions
           {| bot_type := "liquidation_bot"; mev_strategy := "liquidation";
              spam_score := 0x1.999999999999ap-1;
              details := Liquidation "0xpool" 3 |}).
  - vm_compute. reflexivity.
  - reflexivity.
Defined.

End mev_further_properties.
